(** * Active workout session engine of PersonalTrainer: a shallow embedding

    The development follows the TypeScript sources:
    - [utils/calculations.ts]   scoring: [estimate1RM], [calculatePlates];
    - [types/index.ts]          the session data model;
    - [stores/workoutStore.ts]  the zustand store: lifecycle, mutations, timers
                                and the commit protocol [finishWorkout];
    - [app/workout/session.tsx], [app/(tabs)/workouts/index.tsx] and
      [components/ui/Button.tsx]  the callers: PR badge and the screens' guards.

    A JavaScript [number] is modelled by an exact rational ([Q]); [null] and
    [undefined] of an optional field are both [None].  The PR comparison,
    which can turn on the last bit of a product, is also given over IEEE 754
    doubles ([Binary64]).  Part I holds the
    embedding, Part II the properties. *)

From Stdlib Require Import QArith Qround ZArith List String Bool Lia Lqa.
From Stdlib Require Import DecimalString.
From Corelib Require PrimFloat.
Import ListNotations.

Set Implicit Arguments.

(** * Part I: the embedding *)

Definition number := Q.

(** [x ?? d] on an optional value. *)
Definition nullish {A : Type} (x : option A) (d : A) : A :=
  match x with Some v => v | None => d end.

(** Truthiness of an optional number: [null], [undefined] and [0] are falsy. *)
Definition truthy (x : option number) : bool :=
  match x with Some q => negb (Qeq_bool q 0) | None => false end.

(** Truthiness of an optional string: [null], [undefined] and [''] are falsy. *)
Definition truthy_string (x : option string) : bool :=
  match x with Some s => negb (String.eqb s EmptyString) | None => false end.

(** [a > b] on numbers, as a boolean. *)
Definition Qgtb (a b : number) : bool := negb (Qle_bool a b).

(** [a <= b] on numbers, as a boolean. *)
Definition Qleb (a b : number) : bool := Qle_bool a b.

(** [Array.prototype.map] with the index passed to the callback. *)
Fixpoint mapi_from {A B : Type} (f : A -> nat -> B) (i : nat) (l : list A)
  : list B :=
  match l with
  | [] => []
  | x :: rest => f x i :: mapi_from f (S i) rest
  end.

Definition mapi {A B : Type} (f : A -> nat -> B) (l : list A) : list B :=
  mapi_from f 0 l.

(** An array index as a [number]. *)
Definition of_index (i : nat) : number := inject_Z (Z.of_nat i).

(** ** utils/calculations.ts *)

Module Calculations.

Definition Math_floor (x : number) : number := inject_Z (Qfloor x).

Definition Math_round (x : number) : number :=
  inject_Z (Qfloor (x + (1 # 2))).

(** Epley formula: 1RM = weight × (1 + reps / 30) *)
Definition estimate1RM (weight reps : number) : number :=
  if Qeq_bool reps 1 then weight else weight * (1 + reps / 30).

Definition setVolume (weight reps : number) : number := weight * reps.

Record PlateCount : Type := { weight : number; count : number }.

Record PlateResult : Type :=
  { perSide : list PlateCount; remainder : number }.

Definition STANDARD_PLATES_KG : list number :=
  [25; 20; 15; 10; 5; 5 # 2; 5 # 4].

(** One iteration of the [for (const plate of STANDARD_PLATES_KG)] loop; the
    loop state is the pair of the locals [remaining] and [perSide]. *)
Definition plateStep (acc : number * list PlateCount) (plate : number)
  : number * list PlateCount :=
  let '(remaining, perSide) := acc in
  let count := Math_floor (remaining / plate) in
  if Qgtb count 0
  then (remaining - count * plate,
        perSide ++ [{| weight := plate; count := count |}])
  else (remaining, perSide).

Definition calculatePlates (totalKg barWeightKg : number) : PlateResult :=
  let remaining := (totalKg - barWeightKg) / 2 in
  let '(remaining, perSide) :=
    fold_left plateStep STANDARD_PLATES_KG (remaining, []) in
  {| perSide := perSide;
     remainder := Math_round (remaining * 100) / 100 |}.

(** Two plate selections are the same when they list the same plates with the
    same counts, in the same order. *)
Definition samePlate (a b : PlateCount) : Prop :=
  weight a == weight b /\ count a == count b.

Definition sameSelection (l l' : list PlateCount) : Prop :=
  Forall2 samePlate l l'.

(** The per-side load carried by a selection. *)
Definition sideLoad (l : list PlateCount) : number :=
  fold_left (fun s p => s + weight p * count p) l 0.

End Calculations.

(** ** types/index.ts

    Fields that no operation of the engine reads or writes (catalog details of
    an [Exercise], descriptive fields of a [Template]) are left out. *)

Inductive SetTag : Type := warmup | working | failure | drop | normal.

Inductive SetStatus : Type := pending | completed | skipped.

Definition SetStatus_eqb (a b : SetStatus) : bool :=
  match a, b with
  | pending, pending | completed, completed | skipped, skipped => true
  | _, _ => false
  end.

Module Exercise.
Record t : Type := { id : string; name : string }.
End Exercise.

Module TemplateSet.
Record t : Type :=
  { id : string;
    template_exercise_id : string;
    target_reps : option number;
    target_weight : option number;
    tag : option SetTag }.
End TemplateSet.

Module TemplateExercise.
Record t : Type :=
  { id : string;
    template_id : string;
    exercise_id : string;
    order : option number;
    order_index : option number;
    notes : option string;
    exercise : option Exercise.t;
    sets : list TemplateSet.t }.
End TemplateExercise.

Module Template.
Record t : Type :=
  { id : string;
    user_id : string;
    name : string;
    exercises : list TemplateExercise.t }.
End Template.

Module WorkoutSet.
Record t : Type :=
  { id : string;
    exercise_id : option string;
    set_number : option number;
    tag : SetTag;
    target_weight : option number;
    target_reps : option number;
    actual_weight : option number;
    actual_reps : option number;
    rpe : option number;
    status : SetStatus }.

(** [{ ...set, status }] *)
Definition with_status (v : SetStatus) (s : t) : t :=
  {| id := id s; exercise_id := exercise_id s; set_number := set_number s;
     tag := tag s; target_weight := target_weight s;
     target_reps := target_reps s; actual_weight := actual_weight s;
     actual_reps := actual_reps s; rpe := rpe s; status := v |}.

Definition isCompleted (s : t) : bool := SetStatus_eqb (status s) completed.
End WorkoutSet.

(** [Partial<WorkoutSet>]: [None] is an absent key, [Some v] a present key
    with value [v] (which for a nullable field may itself be [None]). *)
Module PartialWorkoutSet.
Record t : Type :=
  { id : option string;
    exercise_id : option (option string);
    set_number : option (option number);
    tag : option SetTag;
    target_weight : option (option number);
    target_reps : option (option number);
    actual_weight : option (option number);
    actual_reps : option (option number);
    rpe : option (option number);
    status : option SetStatus }.

Definition empty : t :=
  {| id := None; exercise_id := None; set_number := None; tag := None;
     target_weight := None; target_reps := None; actual_weight := None;
     actual_reps := None; rpe := None; status := None |}.
End PartialWorkoutSet.

(** [{ ...ws, ...updates }]: every key present in [updates] wins. *)
Definition spread (ws : WorkoutSet.t) (updates : PartialWorkoutSet.t)
  : WorkoutSet.t :=
  {| WorkoutSet.id := nullish (PartialWorkoutSet.id updates) (WorkoutSet.id ws);
     WorkoutSet.exercise_id :=
       nullish (PartialWorkoutSet.exercise_id updates)
               (WorkoutSet.exercise_id ws);
     WorkoutSet.set_number :=
       nullish (PartialWorkoutSet.set_number updates)
               (WorkoutSet.set_number ws);
     WorkoutSet.tag :=
       nullish (PartialWorkoutSet.tag updates) (WorkoutSet.tag ws);
     WorkoutSet.target_weight :=
       nullish (PartialWorkoutSet.target_weight updates)
               (WorkoutSet.target_weight ws);
     WorkoutSet.target_reps :=
       nullish (PartialWorkoutSet.target_reps updates)
               (WorkoutSet.target_reps ws);
     WorkoutSet.actual_weight :=
       nullish (PartialWorkoutSet.actual_weight updates)
               (WorkoutSet.actual_weight ws);
     WorkoutSet.actual_reps :=
       nullish (PartialWorkoutSet.actual_reps updates)
               (WorkoutSet.actual_reps ws);
     WorkoutSet.rpe :=
       nullish (PartialWorkoutSet.rpe updates) (WorkoutSet.rpe ws);
     WorkoutSet.status :=
       nullish (PartialWorkoutSet.status updates) (WorkoutSet.status ws) |}.

Module PreviousSet.
Record t : Type := { weight : option number; reps : option number }.
End PreviousSet.

Module Previous.
Record t : Type := { sets : option (list PreviousSet.t) }.
End Previous.

Module WorkoutExercise.
Record t : Type :=
  { id : string;
    exercise_id : string;
    exercise : option Exercise.t;
    notes : option string;
    order : option number;
    sets : list WorkoutSet.t;
    previous : option Previous.t }.

(** [{ ...ex, sets }] *)
Definition with_sets (v : list WorkoutSet.t) (ex : t) : t :=
  {| id := id ex; exercise_id := exercise_id ex; exercise := exercise ex;
     notes := notes ex; order := order ex; sets := v;
     previous := previous ex |}.

(** [{ ...ex, notes }] *)
Definition with_notes (v : option string) (ex : t) : t :=
  {| id := id ex; exercise_id := exercise_id ex; exercise := exercise ex;
     notes := v; order := order ex; sets := sets ex;
     previous := previous ex |}.
End WorkoutExercise.

Module PREvent.
Record t : Type :=
  { exercise_id : string; set_id : string; estimated_1rm : number }.
End PREvent.

Module ActiveWorkoutSession.
Record t : Type :=
  { id : string;
    user_id : string;
    name : string;
    template_id : option string;
    started_at : string;
    exercises : list WorkoutExercise.t;
    pr_events : option (list PREvent.t) }.

(** [{ ...s.activeSession, exercises }] *)
Definition with_exercises (v : list WorkoutExercise.t) (s : t) : t :=
  {| id := id s; user_id := user_id s; name := name s;
     template_id := template_id s; started_at := started_at s;
     exercises := v; pr_events := pr_events s |}.
End ActiveWorkoutSession.

(** ** stores/workoutStore.ts: the store state *)

Module RestTimer.
Record t : Type :=
  { isRunning : bool;
    remaining : number;
    total : number;
    exerciseId : option string }.
End RestTimer.

Module WorkoutState.
Record t : Type :=
  { activeSession : option ActiveWorkoutSession.t;
    elapsedSeconds : number;
    restTimer : RestTimer.t;
    isFinishing : bool }.

(** zustand's [set(partial)] merges the given keys into the current state. *)
Definition with_activeSession (v : option ActiveWorkoutSession.t) (s : t) : t :=
  {| activeSession := v; elapsedSeconds := elapsedSeconds s;
     restTimer := restTimer s; isFinishing := isFinishing s |}.

Definition with_elapsedSeconds (v : number) (s : t) : t :=
  {| activeSession := activeSession s; elapsedSeconds := v;
     restTimer := restTimer s; isFinishing := isFinishing s |}.

Definition with_restTimer (v : RestTimer.t) (s : t) : t :=
  {| activeSession := activeSession s; elapsedSeconds := elapsedSeconds s;
     restTimer := v; isFinishing := isFinishing s |}.

Definition with_isFinishing (v : bool) (s : t) : t :=
  {| activeSession := activeSession s; elapsedSeconds := elapsedSeconds s;
     restTimer := restTimer s; isFinishing := v |}.
End WorkoutState.

(** ** stores/workoutStore.ts: the operations *)

Module Store.
Import WorkoutState.

Definition idleTimer : RestTimer.t :=
  {| RestTimer.isRunning := false; RestTimer.remaining := 0;
     RestTimer.total := 0; RestTimer.exerciseId := None |}.

(** The state [create] installs. *)
Definition initialState : WorkoutState.t :=
  {| activeSession := None; elapsedSeconds := 0;
     restTimer := idleTimer; isFinishing := false |}.

(** [generateId()] is modelled by a supply [ids]: the [k]-th call made by an
    operation returns [ids k].  [new Date().toISOString()] is the argument
    [now]. *)
Section Lifecycle.
Variable ids : nat -> string.
Variable now : string.

Fixpoint buildSets (n : nat) (exercise_id : string) (idx : nat)
  (tss : list TemplateSet.t) : list WorkoutSet.t * nat :=
  match tss with
  | [] => ([], n)
  | ts :: rest =>
      let ws :=
        {| WorkoutSet.id := ids n;
           WorkoutSet.exercise_id := Some exercise_id;
           WorkoutSet.set_number := Some (of_index idx + 1);
           WorkoutSet.tag := nullish (TemplateSet.tag ts) normal;
           WorkoutSet.target_weight := TemplateSet.target_weight ts;
           WorkoutSet.target_reps := TemplateSet.target_reps ts;
           WorkoutSet.actual_weight := TemplateSet.target_weight ts;
           WorkoutSet.actual_reps := TemplateSet.target_reps ts;
           WorkoutSet.rpe := None;
           WorkoutSet.status := pending |} in
      let '(l, n') := buildSets (S n) exercise_id (S idx) rest in
      (ws :: l, n')
  end.

Fixpoint buildExercises (n : nat) (tes : list TemplateExercise.t)
  : list WorkoutExercise.t * nat :=
  match tes with
  | [] => ([], n)
  | te :: rest =>
      let '(sets, n1) :=
        buildSets (S n) (TemplateExercise.exercise_id te) 0
                  (TemplateExercise.sets te) in
      let ex :=
        {| WorkoutExercise.id := ids n;
           WorkoutExercise.exercise_id := TemplateExercise.exercise_id te;
           WorkoutExercise.exercise := TemplateExercise.exercise te;
           WorkoutExercise.notes := TemplateExercise.notes te;
           WorkoutExercise.order :=
             Some (nullish (TemplateExercise.order te)
                           (nullish (TemplateExercise.order_index te) 0));
           WorkoutExercise.sets := sets;
           WorkoutExercise.previous := None |} in
      let '(l, n2) := buildExercises n1 rest in
      (ex :: l, n2)
  end.

Definition buildSessionFromTemplate (template : Template.t) (userId : string)
  : ActiveWorkoutSession.t :=
  let '(exercises, n) := buildExercises 0 (Template.exercises template) in
  {| ActiveWorkoutSession.id := ids n;
     ActiveWorkoutSession.user_id := userId;
     ActiveWorkoutSession.name := Template.name template;
     ActiveWorkoutSession.template_id := Some (Template.id template);
     ActiveWorkoutSession.started_at := now;
     ActiveWorkoutSession.exercises := exercises;
     ActiveWorkoutSession.pr_events := Some [] |}.

Definition startFromTemplate (template : Template.t) (userId : string)
  (s : WorkoutState.t) : WorkoutState.t :=
  let session := buildSessionFromTemplate template userId in
  with_elapsedSeconds 0 (with_activeSession (Some session) s).

Definition startEmpty (name userId : string) (s : WorkoutState.t)
  : WorkoutState.t :=
  let session :=
    {| ActiveWorkoutSession.id := ids 0;
       ActiveWorkoutSession.user_id := userId;
       ActiveWorkoutSession.name := name;
       ActiveWorkoutSession.template_id := None;
       ActiveWorkoutSession.started_at := now;
       ActiveWorkoutSession.exercises := [];
       ActiveWorkoutSession.pr_events := Some [] |} in
  with_elapsedSeconds 0 (with_activeSession (Some session) s).

(** The body of [addSet]'s [map] callback, with the id supply threaded
    through the exercises that match. *)
Fixpoint addSetTo (n : nat) (exerciseId : string)
  (exs : list WorkoutExercise.t) : list WorkoutExercise.t :=
  match exs with
  | [] => []
  | ex :: rest =>
      if negb (String.eqb (WorkoutExercise.id ex) exerciseId)
      then ex :: addSetTo n exerciseId rest
      else
        let sets := WorkoutExercise.sets ex in
        let lastSet := nth_error sets (List.length sets - 1) in
        let from_last (f : WorkoutSet.t -> option number) :=
          match lastSet with Some l => f l | None => None end in
        let newSet :=
          {| WorkoutSet.id := ids n;
             WorkoutSet.exercise_id := Some (WorkoutExercise.exercise_id ex);
             WorkoutSet.set_number :=
               Some (of_index (List.length sets) + 1);
             WorkoutSet.tag := normal;
             WorkoutSet.target_weight := from_last WorkoutSet.target_weight;
             WorkoutSet.target_reps := from_last WorkoutSet.target_reps;
             WorkoutSet.actual_weight := from_last WorkoutSet.actual_weight;
             WorkoutSet.actual_reps := from_last WorkoutSet.actual_reps;
             WorkoutSet.rpe := None;
             WorkoutSet.status := pending |} in
        WorkoutExercise.with_sets (sets ++ [newSet]) ex
          :: addSetTo (S n) exerciseId rest
  end.

End Lifecycle.

Definition discardWorkout (s : WorkoutState.t) : WorkoutState.t :=
  with_restTimer idleTimer
    (with_elapsedSeconds 0 (with_activeSession None s)).

(** The common shape of the mutations: [set(s => { if (!s.activeSession)
    return s; return { activeSession: { ...s.activeSession, exercises } } })]. *)
Definition onExercises
  (f : list WorkoutExercise.t -> list WorkoutExercise.t)
  (s : WorkoutState.t) : WorkoutState.t :=
  match activeSession s with
  | None => s
  | Some a =>
      with_activeSession
        (Some (ActiveWorkoutSession.with_exercises
                 (f (ActiveWorkoutSession.exercises a)) a)) s
  end.

(** [exercises.map(ex => ex.id !== exerciseId ? ex : { ...ex, sets: f(ex.sets) })] *)
Definition onSetsOf (exerciseId : string)
  (f : list WorkoutSet.t -> list WorkoutSet.t)
  (exs : list WorkoutExercise.t) : list WorkoutExercise.t :=
  map (fun ex =>
         if negb (String.eqb (WorkoutExercise.id ex) exerciseId) then ex
         else WorkoutExercise.with_sets (f (WorkoutExercise.sets ex)) ex)
      exs.

Definition completeSet (exerciseId setId : string) (s : WorkoutState.t)
  : WorkoutState.t :=
  onExercises
    (onSetsOf exerciseId
       (map (fun ws =>
               if negb (String.eqb (WorkoutSet.id ws) setId) then ws
               else WorkoutSet.with_status completed ws))) s.

Definition updateSet (exerciseId setId : string)
  (updates : PartialWorkoutSet.t) (s : WorkoutState.t) : WorkoutState.t :=
  onExercises
    (onSetsOf exerciseId
       (map (fun ws =>
               if negb (String.eqb (WorkoutSet.id ws) setId) then ws
               else spread ws updates))) s.

Definition removeSet (exerciseId setId : string) (s : WorkoutState.t)
  : WorkoutState.t :=
  onExercises
    (onSetsOf exerciseId
       (filter (fun ws => negb (String.eqb (WorkoutSet.id ws) setId)))) s.

Definition addSet (ids : nat -> string) (exerciseId : string)
  (s : WorkoutState.t) : WorkoutState.t :=
  onExercises (addSetTo ids 0 exerciseId) s.

Definition updateExerciseNotes (exerciseId notes : string)
  (s : WorkoutState.t) : WorkoutState.t :=
  onExercises
    (map (fun ex =>
            if negb (String.eqb (WorkoutExercise.id ex) exerciseId) then ex
            else WorkoutExercise.with_notes (Some notes) ex)) s.

Definition removeExercise (exerciseId : string) (s : WorkoutState.t)
  : WorkoutState.t :=
  onExercises
    (filter (fun ex =>
               negb (String.eqb (WorkoutExercise.id ex) exerciseId))) s.

Definition tickElapsed (s : WorkoutState.t) : WorkoutState.t :=
  with_elapsedSeconds (elapsedSeconds s + 1) s.

Definition startRestTimer (seconds : number) (exerciseId : option string)
  (s : WorkoutState.t) : WorkoutState.t :=
  with_restTimer
    {| RestTimer.isRunning := true; RestTimer.remaining := seconds;
       RestTimer.total := seconds; RestTimer.exerciseId := exerciseId |} s.

Definition stopRestTimer (s : WorkoutState.t) : WorkoutState.t :=
  with_restTimer idleTimer s.

Definition tickTimer (s : WorkoutState.t) : WorkoutState.t :=
  let t := restTimer s in
  let remaining := RestTimer.remaining t - 1 in
  if Qleb remaining 0
  then with_restTimer
         {| RestTimer.isRunning := false; RestTimer.remaining := 0;
            RestTimer.total := RestTimer.total t;
            RestTimer.exerciseId := RestTimer.exerciseId t |} s
  else with_restTimer
         {| RestTimer.isRunning := RestTimer.isRunning t;
            RestTimer.remaining := remaining;
            RestTimer.total := RestTimer.total t;
            RestTimer.exerciseId := RestTimer.exerciseId t |} s.

Definition finished (total : number) (exerciseId : option string)
  : RestTimer.t :=
  {| RestTimer.isRunning := false; RestTimer.remaining := 0;
     RestTimer.total := total; RestTimer.exerciseId := exerciseId |}.

(** [n] ticks of the rest timer's interval. *)
Fixpoint ticks (n : nat) (s : WorkoutState.t) : WorkoutState.t :=
  match n with
  | O => s
  | S k => ticks k (tickTimer s)
  end.

End Store.

(** ** stores/workoutStore.ts: the commit protocol

    The rows handed to the storage collaborator. *)

Module WorkoutRow.
Record t : Type :=
  { id : string;
    user_id : string;
    name : string;
    template_id : option string;
    started_at : string;
    finished_at : string;
    duration_seconds : number;
    total_volume_kg : number }.
End WorkoutRow.

Module WorkoutExerciseRow.
Record t : Type :=
  { id : string;
    workout_id : string;
    exercise_id : string;
    notes : option string;
    order : number }.
End WorkoutExerciseRow.

Module WorkoutSetRow.
Record t : Type :=
  { id : string;
    workout_exercise_id : string;
    set_number : number;
    tag : SetTag;
    actual_weight : option number;
    actual_reps : option number;
    rpe : option number }.
End WorkoutSetRow.

(** A request sent to supabase. *)
Inductive request : Type :=
| InsertWorkout (row : WorkoutRow.t)
| InsertWorkoutExercise (row : WorkoutExerciseRow.t)
| InsertWorkoutSets (rows : list WorkoutSetRow.t)
| UpdateTemplateLastUsed (template_id : string) (last_used_at : string).

Definition Error := string.

(** What an awaited supabase query resolves to.  The query builders of
    supabase-js do not reject: a failed write comes back as a resolved
    [{ data: null, error }], a successful one as [{ data, error: null }]
    (the two arms of [PostgrestSingleResponse]); of the returned row only the
    [id] is read. *)
Inductive response : Type :=
| RespData (id : string)
| RespError (error : Error).

Definition event : Type := (request * response)%type.

(** An asynchronous computation over the store: reads and writes of the zustand
    state ([get()], [set(..)]), the clock, awaited requests and exceptions. *)
Inductive Async (A : Type) : Type :=
| Return (a : A)
| Throw (e : Error)
| Get (k : WorkoutState.t -> Async A)
| Put (f : WorkoutState.t -> WorkoutState.t) (k : Async A)
| Now (k : string -> Async A)
| Await (q : request) (k : response -> Async A).

Arguments Throw {A} e.

Fixpoint bind {A B : Type} (p : Async A) (f : A -> Async B) : Async B :=
  match p with
  | Return a => f a
  | Throw e => Throw e
  | Get k => Get (fun s => bind (k s) f)
  | Put g k => Put g (bind k f)
  | Now k => Now (fun t => bind (k t) f)
  | Await q k => Await q (fun r => bind (k r) f)
  end.

(** [try { p } catch (err) { h err }] *)
Fixpoint try_catch {A : Type} (p : Async A) (h : Error -> Async A) : Async A :=
  match p with
  | Return a => Return a
  | Throw e => h e
  | Get k => Get (fun s => try_catch (k s) h)
  | Put g k => Put g (try_catch k h)
  | Now k => Now (fun t => try_catch (k t) h)
  | Await q k => Await q (fun r => try_catch (k r) h)
  end.

Notation "x <- p ;; q" := (bind p (fun x => q))
  (at level 61, p at next level, right associativity).

Module Commit.
Import WorkoutState.

Definition completedSetsOf (ex : WorkoutExercise.t) : list WorkoutSet.t :=
  filter WorkoutSet.isCompleted (WorkoutExercise.sets ex).

(** [activeSession.exercises.filter(ex => ex.sets.some(s => s.status === 'completed'))] *)
Definition completedExercises (a : ActiveWorkoutSession.t)
  : list WorkoutExercise.t :=
  filter (fun ex => existsb WorkoutSet.isCompleted (WorkoutExercise.sets ex))
         (ActiveWorkoutSession.exercises a).

Definition setProduct (ws : WorkoutSet.t) : number :=
  nullish (WorkoutSet.actual_weight ws) 0
  * nullish (WorkoutSet.actual_reps ws) 0.

(** The two nested [reduce] calls. *)
Definition totalVolumeKg (a : ActiveWorkoutSession.t) : number :=
  fold_left
    (fun sum ex =>
       sum + fold_left (fun s2 ws => s2 + setProduct ws)
                       (completedSetsOf ex) 0)
    (completedExercises a) 0.

Definition workoutRow (a : ActiveWorkoutSession.t) (elapsed : number)
  (finishedAt : string) : WorkoutRow.t :=
  {| WorkoutRow.id := ActiveWorkoutSession.id a;
     WorkoutRow.user_id := ActiveWorkoutSession.user_id a;
     WorkoutRow.name := ActiveWorkoutSession.name a;
     WorkoutRow.template_id := ActiveWorkoutSession.template_id a;
     WorkoutRow.started_at := ActiveWorkoutSession.started_at a;
     WorkoutRow.finished_at := finishedAt;
     WorkoutRow.duration_seconds := elapsed;
     WorkoutRow.total_volume_kg := totalVolumeKg a |}.

Definition exerciseRow (workout_id : string) (ex : WorkoutExercise.t)
  : WorkoutExerciseRow.t :=
  {| WorkoutExerciseRow.id := WorkoutExercise.id ex;
     WorkoutExerciseRow.workout_id := workout_id;
     WorkoutExerciseRow.exercise_id := WorkoutExercise.exercise_id ex;
     WorkoutExerciseRow.notes := WorkoutExercise.notes ex;
     WorkoutExerciseRow.order := nullish (WorkoutExercise.order ex) 0 |}.

Definition setRows (workout_exercise_id : string) (ex : WorkoutExercise.t)
  : list WorkoutSetRow.t :=
  mapi (fun s idx =>
          {| WorkoutSetRow.id := WorkoutSet.id s;
             WorkoutSetRow.workout_exercise_id := workout_exercise_id;
             WorkoutSetRow.set_number :=
               nullish (WorkoutSet.set_number s) (of_index idx + 1);
             WorkoutSetRow.tag := WorkoutSet.tag s;
             WorkoutSetRow.actual_weight := WorkoutSet.actual_weight s;
             WorkoutSetRow.actual_reps := WorkoutSet.actual_reps s;
             WorkoutSetRow.rpe := WorkoutSet.rpe s |})
       (completedSetsOf ex).

(** The body of [for (const ex of completedExercises)] for one exercise. *)
Definition persistExercise (workout_id : string) (ex : WorkoutExercise.t)
  : Async unit :=
  Await (InsertWorkoutExercise (exerciseRow workout_id ex))
    (fun r =>
       match r with
       | RespError _ => Return tt                     (* continue *)
       | RespData wEx_id =>
           if (0 <? List.length (completedSetsOf ex))%nat
           then Await (InsertWorkoutSets (setRows wEx_id ex))
                      (fun _ => Return tt)
           else Return tt
       end).

Fixpoint persistExercises (workout_id : string)
  (exs : list WorkoutExercise.t) : Async unit :=
  match exs with
  | [] => Return tt
  | ex :: rest =>
      _ <- persistExercise workout_id ex ;;
      persistExercises workout_id rest
  end.

(** [if (activeSession.template_id) await supabase.from('templates').update(..)] *)
Definition touchTemplate (a : ActiveWorkoutSession.t) (finishedAt : string)
  : Async unit :=
  if truthy_string (ActiveWorkoutSession.template_id a)
  then Await (UpdateTemplateLastUsed
                (nullish (ActiveWorkoutSession.template_id a) EmptyString)
                finishedAt)
             (fun _ => Return tt)
  else Return tt.

Definition finishWorkout : Async unit :=
  Get (fun s =>
    match activeSession s with
    | None => Return tt
    | Some activeSession =>
        let elapsedSeconds := elapsedSeconds s in
        Put (with_isFinishing true)
          (try_catch
             (Now (fun finishedAt =>
                Await (InsertWorkout
                         (workoutRow activeSession elapsedSeconds finishedAt))
                  (fun r =>
                     match r with
                     | RespError wErr => Throw wErr
                     | RespData workout_id =>
                         _ <- persistExercises workout_id
                                (completedExercises activeSession) ;;
                         _ <- touchTemplate activeSession finishedAt ;;
                         Put (fun s' =>
                                with_isFinishing false
                                  (with_elapsedSeconds 0
                                     (with_activeSession None s')))
                             (Return tt)
                     end)))
             (fun err => Put (with_isFinishing false) (Throw err)))
    end).

End Commit.

(** ** Running asynchronous computations *)

Inductive outcome (A : Type) : Type :=
| Resolved (a : A)
| Rejected (e : Error).

Arguments Rejected {A} e.

(** The storage collaborator: the answer to the [n]-th request issued. *)
Definition storage : Type := nat -> request -> response.

Module Exec.

(** One call run to completion with nothing else scheduled in between: the
    outcome of the promise, the final store state and the requests issued with
    their answers, in order.  [n] counts the requests issued before. *)
Fixpoint run {A : Type} (sto : storage) (now : string) (p : Async A)
  (n : nat) (s : WorkoutState.t) : outcome A * WorkoutState.t * list event :=
  match p with
  | Return a => (Resolved a, s, [])
  | Throw e => (Rejected e, s, [])
  | Get k => run sto now (k s) n s
  | Put f k => run sto now k n (f s)
  | Now k => run sto now (k now) n s
  | Await q k =>
      let r := sto n q in
      let '(o, s', tr) := run sto now (k r) (S n) s in
      (o, s', (q, r) :: tr)
  end.

Definition result {A : Type} (x : outcome A * WorkoutState.t * list event)
  : outcome A := fst (fst x).

Definition final {A : Type} (x : outcome A * WorkoutState.t * list event)
  : WorkoutState.t := snd (fst x).

Definition trace {A : Type} (x : outcome A * WorkoutState.t * list event)
  : list event := snd x.







Definition isInsertWorkoutExercise (q : request) : bool :=
  match q with InsertWorkoutExercise _ => true | _ => false end.

Definition isInsertWorkoutSets (q : request) : bool :=
  match q with InsertWorkoutSets _ => true | _ => false end.



End Exec.

(** ** The callers: app/workout/session.tsx, app/(tabs)/workouts/index.tsx,
    components/ui/Button.tsx *)

Module Screens.
Import WorkoutState.



(** [SetRow]: [<TextInput editable={!isCompleted} ..>] for weight and reps. *)
Definition SetRow_editable (set : WorkoutSet.t) : bool :=
  negb (WorkoutSet.isCompleted set).

(** [SetRow]: [onPress={isCompleted ? undefined : onComplete}] *)
Definition SetRow_onPress {H : Type} (set : WorkoutSet.t) (onComplete : H)
  : option H :=
  if WorkoutSet.isCompleted set then None else Some onComplete.

(** [ExerciseCard]: [exercise.previous?.sets?.[idx]] *)
Definition prevSet (exercise : WorkoutExercise.t) (idx : nat)
  : option PreviousSet.t :=
  match WorkoutExercise.previous exercise with
  | None => None
  | Some p =>
      match Previous.sets p with
      | None => None
      | Some l => nth_error l idx
      end
  end.

Definition current1rm (set : WorkoutSet.t) : number :=
  if truthy (WorkoutSet.actual_weight set)
     && truthy (WorkoutSet.actual_reps set)
  then Calculations.estimate1RM
         (nullish (WorkoutSet.actual_weight set) 0)
         (nullish (WorkoutSet.actual_reps set) 0)
  else 0.

Definition prev1rm (exercise : WorkoutExercise.t) (idx : nat) : number :=
  match prevSet exercise idx with
  | None => 0
  | Some p =>
      if truthy (PreviousSet.weight p) && truthy (PreviousSet.reps p)
      then Calculations.estimate1RM
             (nullish (PreviousSet.weight p) 0)
             (nullish (PreviousSet.reps p) 0)
      else 0
  end.

(** Over exact rationals; the same computation over doubles is
    [Binary64.isPR]. *)
Definition isPR (exercise : WorkoutExercise.t) (idx : nat)
  (set : WorkoutSet.t) : bool :=
  Qgtb (current1rm set) 0 && Qgtb (current1rm set) (prev1rm exercise idx).

(** The [isPR] prop handed to [SetRow]: [isPR && set.status === 'completed']. *)
Definition SetRow_isPR (exercise : WorkoutExercise.t) (idx : nat)
  (set : WorkoutSet.t) : bool :=
  isPR exercise idx set && WorkoutSet.isCompleted set.

(** What a handler of the workouts screen does besides changing the store. *)
Inductive Feedback : Type :=
| Nothing
| Alerted (title message : string)
| Pushed (route : string).

(** [handleStart]; [user] is [user.id] when a user is signed in. *)
Definition handleStart (ids : nat -> string) (now : string)
  (user : option string) (template : Template.t) (s : WorkoutState.t)
  : WorkoutState.t * Feedback :=
  match activeSession s with
  | Some _ =>
      (s, Alerted "Workout in progress"
                  "You have an active workout. Finish it first or discard it.")
  | None =>
      match user with
      | None => (s, Nothing)
      | Some uid =>
          (Store.startFromTemplate ids now template uid s,
           Pushed "/workout/session")
      end
  end.

(** [handleStartEmpty]; [entered] is the name submitted in the prompt dialog,
    if any. *)
Definition handleStartEmpty (ids : nat -> string) (now : string)
  (user : option string) (entered : option string) (s : WorkoutState.t)
  : WorkoutState.t * Feedback :=
  match activeSession s with
  | Some _ => (s, Pushed "/workout/session")
  | None =>
      match user with
      | None => (s, Nothing)
      | Some uid =>
          match entered with
          | None => (s, Nothing)
          | Some name =>
              (Store.startEmpty ids now name uid s, Pushed "/workout/session")
          end
      end
  end.

End Screens.

(** ** Observations used to state the properties *)

Module Observe.
Import WorkoutState.

(** The exercises of the live session ([[]] when there is none). *)
Definition exercisesOf (s : WorkoutState.t) : list WorkoutExercise.t :=
  match activeSession s with
  | Some a => ActiveWorkoutSession.exercises a
  | None => []
  end.

(** [activeSession.exercises[i]] *)
Definition exerciseAt (i : nat) (s : WorkoutState.t)
  : option WorkoutExercise.t :=
  nth_error (exercisesOf s) i.

(** [activeSession.exercises[i].sets[j]] *)
Definition setAt (i j : nat) (s : WorkoutState.t) : option WorkoutSet.t :=
  match exerciseAt i s with
  | Some ex => nth_error (WorkoutExercise.sets ex) j
  | None => None
  end.

Definition sumQ (l : list number) : number := fold_right Qplus 0 l.

(** The completed sets of a session, over all its exercises. *)
Definition allCompletedSets (a : ActiveWorkoutSession.t) : list WorkoutSet.t :=
  filter WorkoutSet.isCompleted
         (flat_map WorkoutExercise.sets (ActiveWorkoutSession.exercises a)).

(** The volume of one set in the words of the specification:
    actual_weight × actual_reps, a missing value counting as zero. *)
Definition specSetVolume (ws : WorkoutSet.t) : number :=
  match WorkoutSet.actual_weight ws, WorkoutSet.actual_reps ws with
  | Some w, Some r => w * r
  | Some w, None => w * 0
  | None, Some r => 0 * r
  | None, None => 0
  end.

(** The total volume in the words of the specification: the sum over every
    completed set of the session. *)
Definition specTotalVolume (a : ActiveWorkoutSession.t) : number :=
  sumQ (map specSetVolume (allCompletedSets a)).

(** What the commit of one exercise with completed sets leaves in the trace:
    the exercise-header write alone when it was answered with an error, and
    the exercise-header write followed by the batch write of the completed
    sets, under the id the header came back with, when it succeeded. *)
Inductive exerciseSegment (workout_id : string) (ex : WorkoutExercise.t)
  : list event -> Prop :=
| segment_skipped (e : Error) :
    exerciseSegment workout_id ex
      [ (InsertWorkoutExercise (Commit.exerciseRow workout_id ex),
         RespError e) ]
| segment_written (wEx_id : string) (r : response) :
    exerciseSegment workout_id ex
      [ (InsertWorkoutExercise (Commit.exerciseRow workout_id ex),
         RespData wEx_id);
        (InsertWorkoutSets (Commit.setRows wEx_id ex), r) ].

(** The events that write an exercise header or a batch of sets. *)
Definition isExerciseOrSetWrite (ev : event) : bool :=
  Exec.isInsertWorkoutExercise (fst ev) || Exec.isInsertWorkoutSets (fst ev).

(** The state [finishWorkout] leaves behind when the header write succeeded. *)
Definition committed (s : WorkoutState.t) : WorkoutState.t :=
  {| activeSession := None; elapsedSeconds := 0;
     restTimer := restTimer s; isFinishing := false |}.

End Observe.

(** ** Concrete sessions used as examples *)

Module Scenarios.
Import WorkoutState.

Definition idsFrom (prefix : string) (n : nat) : string :=
  String.append prefix (String (Ascii.ascii_of_nat (48 + n)) EmptyString).

(** A completed set of 100 kg × 5. *)
Definition set_100x5 : WorkoutSet.t :=
  {| WorkoutSet.id := "s1"%string;
     WorkoutSet.exercise_id := Some "squat"%string;
     WorkoutSet.set_number := Some 1; WorkoutSet.tag := normal;
     WorkoutSet.target_weight := None; WorkoutSet.target_reps := None;
     WorkoutSet.actual_weight := Some 100; WorkoutSet.actual_reps := Some 5;
     WorkoutSet.rpe := None; WorkoutSet.status := completed |}.

(** A pending set of 60 kg × 8. *)
Definition set_pending : WorkoutSet.t :=
  {| WorkoutSet.id := "s2"%string;
     WorkoutSet.exercise_id := Some "row"%string;
     WorkoutSet.set_number := Some 1; WorkoutSet.tag := normal;
     WorkoutSet.target_weight := Some 60; WorkoutSet.target_reps := Some 8;
     WorkoutSet.actual_weight := Some 60; WorkoutSet.actual_reps := Some 8;
     WorkoutSet.rpe := None; WorkoutSet.status := pending |}.

(** A completed set of 40 kg × 10. *)
Definition set_40x10 : WorkoutSet.t :=
  {| WorkoutSet.id := "s3"%string;
     WorkoutSet.exercise_id := Some "press"%string;
     WorkoutSet.set_number := Some 1; WorkoutSet.tag := normal;
     WorkoutSet.target_weight := None; WorkoutSet.target_reps := None;
     WorkoutSet.actual_weight := Some 40; WorkoutSet.actual_reps := Some 10;
     WorkoutSet.rpe := None; WorkoutSet.status := completed |}.

(** Scenario B: the previous session had 90 kg × 5 at the same index. *)
Definition exercise_E : WorkoutExercise.t :=
  {| WorkoutExercise.id := "e1"%string;
     WorkoutExercise.exercise_id := "squat"%string;
     WorkoutExercise.exercise := None; WorkoutExercise.notes := None;
     WorkoutExercise.order := Some 0;
     WorkoutExercise.sets := [set_100x5];
     WorkoutExercise.previous :=
       Some {| Previous.sets :=
                 Some [ {| PreviousSet.weight := Some 90;
                           PreviousSet.reps := Some 5 |} ] |} |}.

Definition exercise_F : WorkoutExercise.t :=
  {| WorkoutExercise.id := "e2"%string;
     WorkoutExercise.exercise_id := "row"%string;
     WorkoutExercise.exercise := None; WorkoutExercise.notes := None;
     WorkoutExercise.order := Some 1;
     WorkoutExercise.sets := [set_pending];
     WorkoutExercise.previous := None |}.

Definition exercise_G : WorkoutExercise.t :=
  {| WorkoutExercise.id := "e3"%string;
     WorkoutExercise.exercise_id := "press"%string;
     WorkoutExercise.exercise := None; WorkoutExercise.notes := None;
     WorkoutExercise.order := Some 2;
     WorkoutExercise.sets := [set_40x10];
     WorkoutExercise.previous := None |}.

(** Scenario A: "Leg Day" with the single exercise E. *)
Definition legDay : ActiveWorkoutSession.t :=
  {| ActiveWorkoutSession.id := "w1"%string;
     ActiveWorkoutSession.user_id := "u1"%string;
     ActiveWorkoutSession.name := "Leg Day"%string;
     ActiveWorkoutSession.template_id := None;
     ActiveWorkoutSession.started_at := "2024-01-01T10:00:00.000Z"%string;
     ActiveWorkoutSession.exercises := [exercise_E];
     ActiveWorkoutSession.pr_events := Some [] |}.

(** A session started from template "t1" with three exercises, the second
    without a completed set. *)
Definition fullBody : ActiveWorkoutSession.t :=
  {| ActiveWorkoutSession.id := "w2"%string;
     ActiveWorkoutSession.user_id := "u1"%string;
     ActiveWorkoutSession.name := "Full Body"%string;
     ActiveWorkoutSession.template_id := Some "t1"%string;
     ActiveWorkoutSession.started_at := "2024-01-02T10:00:00.000Z"%string;
     ActiveWorkoutSession.exercises := [exercise_E; exercise_F; exercise_G];
     ActiveWorkoutSession.pr_events := Some [] |}.

Definition live (a : ActiveWorkoutSession.t) (elapsed : number)
  : WorkoutState.t :=
  with_elapsedSeconds elapsed
    (with_activeSession (Some a) Store.initialState).


(** A 90 second rest with one second left. *)
Definition lastSecond : WorkoutState.t :=
  with_restTimer
    {| RestTimer.isRunning := true; RestTimer.remaining := 1;
       RestTimer.total := 90; RestTimer.exerciseId := Some "e1"%string |}
    Store.initialState.

Definition finishedAt : string := "2024-01-01T11:00:00.000Z"%string.

(** Storage that accepts every write; the row comes back under the id it was
    sent with. *)
Definition accepting : storage :=
  fun _ q =>
    match q with
    | InsertWorkout row => RespData (WorkoutRow.id row)
    | InsertWorkoutExercise row => RespData (WorkoutExerciseRow.id row)
    | InsertWorkoutSets _ => RespData EmptyString
    | UpdateTemplateLastUsed tid _ => RespData tid
    end.

(** Storage whose header write fails. *)
Definition headerDown : storage :=
  fun n q =>
    match q with
    | InsertWorkout _ => RespError "network request failed"%string
    | _ => accepting n q
    end.

(** Storage that refuses the exercise-header write of exercise "e1". *)
Definition refusingE : storage :=
  fun n q =>
    match q with
    | InsertWorkoutExercise row =>
        if String.eqb (WorkoutExerciseRow.id row) "e1"%string
        then RespError "row violates policy"%string
        else accepting n q
    | _ => accepting n q
    end.

(** An [updateSet] payload: a new weight, and the status put back to
    pending. *)
Definition reopen : PartialWorkoutSet.t :=
  {| PartialWorkoutSet.id := None;
     PartialWorkoutSet.exercise_id := None;
     PartialWorkoutSet.set_number := None;
     PartialWorkoutSet.tag := None;
     PartialWorkoutSet.target_weight := None;
     PartialWorkoutSet.target_reps := None;
     PartialWorkoutSet.actual_weight := Some (Some 50);
     PartialWorkoutSet.actual_reps := None;
     PartialWorkoutSet.rpe := None;
     PartialWorkoutSet.status := Some pending |}.

End Scenarios.

(** ** utils/calculations.ts: observations on the plate calculator *)

Module Plates.
Import Calculations.

(** What the loop may add to [perSide]: a plate of the list, an integer number
    of times, at least once. *)
Definition loaded (plates : list number) (e : PlateCount) : Prop :=
  In (weight e) plates
  /\ 1 <= count e
  /\ exists z : Z, count e = inject_Z z.

End Plates.

(** ** utils/calculations.ts: formatting and macro helpers *)

Module Formatting.

(** [Math.trunc], as the [%] operator uses it. *)
Definition Math_trunc (x : number) : number :=
  if Qle_bool 0 x then inject_Z (Qfloor x) else inject_Z (Qceiling x).

(** [x % y]: the remainder takes the sign of the dividend. *)
Definition rem (x y : number) : number := x - y * Math_trunc (x / y).

Fixpoint zeros (n : nat) : string :=
  match n with
  | O => EmptyString
  | S k => String.append "0" (zeros k)
  end.

(** [str.padStart(targetLength, '0')] *)
Definition padStart (str : string) (targetLength : nat) : string :=
  String.append (zeros (targetLength - String.length str)) str.

(** [String(x)] and the conversion of a number inside a template literal are
    JavaScript built-ins; they are a parameter of the formatting functions. *)
Section Render.
Variable String_ : number -> string.

Definition formatDuration (totalSeconds : number) : string :=
  if Qeq_bool totalSeconds 0 || Qgtb 0 totalSeconds then "0:00"%string
  else
    let h := Calculations.Math_floor (totalSeconds / 3600) in
    let m := Calculations.Math_floor (rem totalSeconds 3600 / 60) in
    let s := rem totalSeconds 60 in
    if Qgtb h 0
    then String.append (String_ h)
           (String.append ":"
              (String.append (padStart (String_ m) 2)
                 (String.append ":" (padStart (String_ s) 2))))
    else String.append (String_ m)
           (String.append ":" (padStart (String_ s) 2)).

Definition formatRestTimer (seconds : number) : string :=
  if Qleb seconds 0 then "0:00"%string
  else
    let m := Calculations.Math_floor (seconds / 60) in
    let s := rem seconds 60 in
    String.append (String_ m) (String.append ":" (padStart (String_ s) 2)).

End Render.

(** The conversion on whole numbers: decimal digits. *)
Definition showWhole (x : number) : string :=
  NilZero.string_of_int (Z.to_int (Qfloor x)).

End Formatting.

Module MealItem.
Record t : Type :=
  { name : string;
    kcal : option number;
    protein_g : option number;
    carbs_g : option number;
    fat_g : option number }.
End MealItem.

Module MacroTotals.
Record t : Type :=
  { kcal : number; protein_g : number; carbs_g : number; fat_g : number }.


End MacroTotals.

Module Macros.

Definition zero : MacroTotals.t :=
  {| MacroTotals.kcal := 0; MacroTotals.protein_g := 0;
     MacroTotals.carbs_g := 0; MacroTotals.fat_g := 0 |}.



End Macros.

(** ** app/workout/session.tsx: the rest of the session screen *)

Module SessionScreen.
Import WorkoutState.

(** [RestTimer]: [const progress = total > 0 ? remaining / total : 0] *)
Definition progress (remaining total : number) : number :=
  if Qgtb total 0 then remaining / total else 0.

(** The test guarding [Vibration.vibrate(500)] in the rest-timer effect, in
    the branch taken when the timer is not running. *)
Definition restFinished (t : RestTimer.t) : bool :=
  if RestTimer.isRunning t then false
  else negb (RestTimer.isRunning t)
       && Qeq_bool (RestTimer.remaining t) 0
       && Qgtb (RestTimer.total t) 0.

(** [onAdd30={() => startRestTimer(restTimer.remaining + 30)}] *)
Definition onAdd30 (s : WorkoutState.t) : WorkoutState.t :=
  Store.startRestTimer (RestTimer.remaining (restTimer s) + 30) None s.

(** [onSkip={stopRestTimer}] *)
Definition onSkip (s : WorkoutState.t) : WorkoutState.t :=
  Store.stopRestTimer s.

(** [profile?.default_rest_seconds ?? 90] *)
Definition defaultRest (default_rest_seconds : option number) : number :=
  nullish default_rest_seconds 90.

(** [ExerciseCard]: the [onComplete] handed to a [SetRow], with
    [onCompleteSet] and [onStartRest] as the screen wires them. *)
Definition onComplete (defaultRestSeconds : number)
  (exercise : WorkoutExercise.t) (set : WorkoutSet.t) (s : WorkoutState.t)
  : WorkoutState.t :=
  let s1 :=
    Store.completeSet (WorkoutExercise.id exercise) (WorkoutSet.id set) s in
  let restSeconds :=
    if truthy (WorkoutSet.actual_weight set) then defaultRestSeconds
    else 60 in
  Store.startRestTimer restSeconds (Some (WorkoutExercise.id exercise)) s1.

(** [handleFinish]: the number of completed sets it counts. *)
Definition totalCompleted (s : WorkoutState.t) : nat :=
  match activeSession s with
  | Some a =>
      fold_left
        (fun sum ex => (sum + List.length (Commit.completedSetsOf ex))%nat)
        (ActiveWorkoutSession.exercises a) 0%nat
  | None => 0%nat
  end.

(** The dialog [handleFinish] opens. *)
Inductive Dialog : Type :=
| DiscardDialog
| FinishDialog (setsDone : nat).

Definition handleFinish (s : WorkoutState.t) : Dialog :=
  if Nat.eqb (totalCompleted s) 0 then DiscardDialog
  else FinishDialog (totalCompleted s).

(** The number behind the "Volume" chip, before [Math.round]. *)
Definition volumeShown (a : ActiveWorkoutSession.t) : number :=
  fold_left
    (fun sum ex =>
       sum + fold_left (fun s2 ws => s2 + Commit.setProduct ws)
                       (Commit.completedSetsOf ex) 0)
    (ActiveWorkoutSession.exercises a) 0.

(** The text of the "Volume" chip is [Math.round(volumeShown) kg]. *)
Definition volumeChip (a : ActiveWorkoutSession.t) : number :=
  Calculations.Math_round (volumeShown a).

(** The number behind the "Sets" chip. *)
Definition setsChip (a : ActiveWorkoutSession.t) : nat :=
  fold_left
    (fun sum ex => (sum + List.length (Commit.completedSetsOf ex))%nat)
    (ActiveWorkoutSession.exercises a) 0%nat.

End SessionScreen.

(** ** A call running while other handlers change the store *)

Module Amid.

(** As [Exec.run], but while the [n]-th request is awaited the store is
    changed by [others n]: mutations, timer ticks or a discard triggered from
    the screen in the meantime. *)
Fixpoint run {A : Type} (sto : storage) (now : string)
  (others : nat -> WorkoutState.t -> WorkoutState.t) (p : Async A)
  (n : nat) (s : WorkoutState.t) : outcome A * WorkoutState.t * list event :=
  match p with
  | Return a => (Resolved a, s, [])
  | Throw e => (Rejected e, s, [])
  | Get k => run sto now others (k s) n s
  | Put f k => run sto now others k n (f s)
  | Now k => run sto now others (k now) n s
  | Await q k =>
      let r := sto n q in
      let '(o, s', tr) := run sto now others (k r) (S n) (others n s) in
      (o, s', (q, r) :: tr)
  end.

(** A computation that does not read the store. *)
Inductive blind {A : Type} : Async A -> Prop :=
| blind_Return (a : A) : blind (Return a)
| blind_Throw (e : Error) : blind (Throw e)
| blind_Put (f : WorkoutState.t -> WorkoutState.t) (k : Async A) :
    blind k -> blind (Put f k)
| blind_Now (k : string -> Async A) :
    (forall t, blind (k t)) -> blind (Now k)
| blind_Await (q : request) (k : response -> Async A) :
    (forall r, blind (k r)) -> blind (Await q k).

End Amid.

(** ** Observations on a built session *)

Module Built.

(** Every id of a session: its own, then per exercise the exercise's id and
    the ids of its sets. *)
Definition idsOfExercise (ex : WorkoutExercise.t) : list string :=
  WorkoutExercise.id ex :: map WorkoutSet.id (WorkoutExercise.sets ex).

Definition idsOf (a : ActiveWorkoutSession.t) : list string :=
  ActiveWorkoutSession.id a
  :: flat_map idsOfExercise (ActiveWorkoutSession.exercises a).

(** How a set built from a template set at index [idx] looks. *)
Definition builtFrom (exercise_id : string) (idx : nat)
  (ts : TemplateSet.t) (ws : WorkoutSet.t) : Prop :=
  WorkoutSet.exercise_id ws = Some exercise_id
  /\ WorkoutSet.set_number ws = Some (of_index idx + 1)
  /\ WorkoutSet.tag ws = nullish (TemplateSet.tag ts) normal
  /\ WorkoutSet.target_weight ws = TemplateSet.target_weight ts
  /\ WorkoutSet.target_reps ws = TemplateSet.target_reps ts
  /\ WorkoutSet.actual_weight ws = TemplateSet.target_weight ts
  /\ WorkoutSet.actual_reps ws = TemplateSet.target_reps ts
  /\ WorkoutSet.rpe ws = None
  /\ WorkoutSet.status ws = pending.

(** How an exercise built from a template exercise looks. *)
Definition builtExercise (te : TemplateExercise.t) (ex : WorkoutExercise.t)
  : Prop :=
  WorkoutExercise.exercise_id ex = TemplateExercise.exercise_id te
  /\ WorkoutExercise.exercise ex = TemplateExercise.exercise te
  /\ WorkoutExercise.notes ex = TemplateExercise.notes te
  /\ WorkoutExercise.order ex
     = Some (nullish (TemplateExercise.order te)
                     (nullish (TemplateExercise.order_index te) 0))
  /\ WorkoutExercise.previous ex = None
  /\ List.length (WorkoutExercise.sets ex)
     = List.length (TemplateExercise.sets te)
  /\ (forall j ts,
        nth_error (TemplateExercise.sets te) j = Some ts ->
        exists ws,
          nth_error (WorkoutExercise.sets ex) j = Some ws
          /\ builtFrom (TemplateExercise.exercise_id te) j ts ws).

(** What [completeSet] does to one set. *)
Definition completing (setId : string) (ws : WorkoutSet.t) : WorkoutSet.t :=
  if negb (String.eqb (WorkoutSet.id ws) setId) then ws
  else WorkoutSet.with_status completed ws.

(** The exercise rows, the set batches and the template updates among the
    requests of a trace. *)
Definition exerciseRowsOf (tr : list event) : list WorkoutExerciseRow.t :=
  flat_map (fun ev => match fst ev with
                      | InsertWorkoutExercise row => [row]
                      | _ => []
                      end) tr.

Definition setBatchesOf (tr : list event) : list (list WorkoutSetRow.t) :=
  flat_map (fun ev => match fst ev with
                      | InsertWorkoutSets rows => [rows]
                      | _ => []
                      end) tr.

Definition templateUpdatesOf (tr : list event) : list (string * string) :=
  flat_map (fun ev => match fst ev with
                      | UpdateTemplateLastUsed tid at_ => [(tid, at_)]
                      | _ => []
                      end) tr.

(** The request [touchTemplate] issues, if any, with its answer. *)
Definition touchEvents (sto : storage) (n : nat)
  (a : ActiveWorkoutSession.t) (finishedAt : string) : list event :=
  if truthy_string (ActiveWorkoutSession.template_id a)
  then [ (UpdateTemplateLastUsed
            (nullish (ActiveWorkoutSession.template_id a) EmptyString)
            finishedAt,
          sto n (UpdateTemplateLastUsed
                   (nullish (ActiveWorkoutSession.template_id a) EmptyString)
                   finishedAt)) ]
  else [].

End Built.

(** ** app/workout/session.tsx: from the Finish button to [finishWorkout] *)

Module FinishPath.
Import WorkoutState.


(** How the confirm callback of the finish dialog ends: [router.back()] or
    [alertDialog('Error', ..)]. *)
Inductive Ending : Type :=
| WentBack
| ErrorShown (title message : string).


(** The confirm callback of the discard dialog:
    [() => { discardWorkout(); router.back(); }] *)
Definition confirmDiscard (s : WorkoutState.t) : WorkoutState.t * Ending :=
  (Store.discardWorkout s, WentBack).

End FinishPath.

(** ** The store as a call finds it at each of its [await]s *)

Module Watch.


End Watch.

(** ** The PR badge over IEEE 754 doubles

    The PR lines of [ExerciseCard] and [estimate1RM] once more, with a
    JavaScript [number] as the binary64 value it is, so that every operation
    rounds as it does in the program.  Of a set and of the previous snapshot
    only the fields these lines read are kept. *)

Module Binary64.
Import PrimFloat.

Definition isNaN (x : float) : bool := negb (PrimFloat.eqb x x).

(** Truthiness of an optional number: [null], [undefined], [0], [-0] and
    [NaN] are falsy. *)
Definition truthy (x : option float) : bool :=
  match x with
  | Some v => negb (PrimFloat.eqb v 0%float || isNaN v)
  | None => false
  end.

(** Epley formula: 1RM = weight × (1 + reps / 30) *)
Definition estimate1RM (weight reps : float) : float :=
  if PrimFloat.eqb reps 1%float then weight
  else PrimFloat.mul weight (PrimFloat.add 1%float (PrimFloat.div reps 30%float)).

Module WorkoutSet.
Record t : Type :=
  { actual_weight : option float;
    actual_reps : option float;
    status : SetStatus }.
End WorkoutSet.

Module PreviousSet.
Record t : Type := { weight : option float; reps : option float }.
End PreviousSet.

Module Previous.
Record t : Type := { sets : option (list PreviousSet.t) }.
End Previous.

(** [exercise.previous?.sets?.[idx]], with [previous] for
    [exercise.previous]. *)
Definition prevSet (previous : option Previous.t) (idx : nat)
  : option PreviousSet.t :=
  match previous with
  | None => None
  | Some p =>
      match Previous.sets p with
      | None => None
      | Some l => nth_error l idx
      end
  end.

Definition current1rm (set : WorkoutSet.t) : float :=
  if truthy (WorkoutSet.actual_weight set)
     && truthy (WorkoutSet.actual_reps set)
  then estimate1RM (nullish (WorkoutSet.actual_weight set) 0%float)
                   (nullish (WorkoutSet.actual_reps set) 0%float)
  else 0%float.

Definition prev1rm (previous : option Previous.t) (idx : nat) : float :=
  match prevSet previous idx with
  | None => 0%float
  | Some p =>
      if truthy (PreviousSet.weight p) && truthy (PreviousSet.reps p)
      then estimate1RM (nullish (PreviousSet.weight p) 0%float)
                       (nullish (PreviousSet.reps p) 0%float)
      else 0%float
  end.

Definition zero : float := 0%float.

(** [a > b] on doubles. *)
Definition gtb (a b : float) : bool := PrimFloat.ltb b a.

Definition isPR (previous : option Previous.t) (idx : nat)
  (set : WorkoutSet.t) : bool :=
  gtb (current1rm set) zero && gtb (current1rm set) (prev1rm previous idx).

(** The [isPR] prop handed to [SetRow]: [isPR && set.status === 'completed']. *)
Definition SetRow_isPR (previous : option Previous.t) (idx : nat)
  (set : WorkoutSet.t) : bool :=
  isPR previous idx set
  && SetStatus_eqb (WorkoutSet.status set) completed.

(** Scenario B: 100 × 5 against a previous 90 × 5. *)
Definition set_100x5 : WorkoutSet.t :=
  {| WorkoutSet.actual_weight := Some 100%float;
     WorkoutSet.actual_reps := Some 5%float;
     WorkoutSet.status := completed |}.

Definition previous_90x5 : option Previous.t :=
  Some {| Previous.sets :=
            Some [ {| PreviousSet.weight := Some 90%float;
                      PreviousSet.reps := Some 5%float |} ] |}.

(** 25 × 3 against a previous 27.5 × 1, second of two sets. *)
Definition set_25x3 : WorkoutSet.t :=
  {| WorkoutSet.actual_weight := Some 25%float;
     WorkoutSet.actual_reps := Some 3%float;
     WorkoutSet.status := completed |}.

Definition previous_two : option Previous.t :=
  Some {| Previous.sets :=
            Some [ {| PreviousSet.weight := Some 60%float;
                      PreviousSet.reps := Some 8%float |};
                   {| PreviousSet.weight := Some 27.5%float;
                      PreviousSet.reps := Some 1%float |} ] |}.

End Binary64.

(** ** A template used as example *)

Module MoreScenarios.

(** One exercise with two sets. *)
Definition pullDay : Template.t :=
  {| Template.id := "t1"; Template.user_id := "u1";
     Template.name := "Pull Day";
     Template.exercises :=
       [ {| TemplateExercise.id := "te1";
            TemplateExercise.template_id := "t1";
            TemplateExercise.exercise_id := "row";
            TemplateExercise.order := Some 0;
            TemplateExercise.order_index := None;
            TemplateExercise.notes := None;
            TemplateExercise.exercise := None;
            TemplateExercise.sets :=
              [ {| TemplateSet.id := "ts1";
                   TemplateSet.template_exercise_id := "te1";
                   TemplateSet.target_reps := Some 8;
                   TemplateSet.target_weight := Some 60;
                   TemplateSet.tag := None |};
                {| TemplateSet.id := "ts2";
                   TemplateSet.template_exercise_id := "te1";
                   TemplateSet.target_reps := Some 8;
                   TemplateSet.target_weight := Some 60;
                   TemplateSet.tag := Some working |} ] |} ] |}.

End MoreScenarios.

(** * Part II: the properties *)

Unset Implicit Arguments.

(** ** Numbers *)

Lemma Qgtb_spec (a b : number) : Qgtb a b = true <-> b < a.
Proof.
  unfold Qgtb. rewrite negb_true_iff. split; intro H.
  - apply Qnot_le_lt. intro Hle. apply Qle_bool_iff in Hle. congruence.
  - destruct (Qle_bool a b) eqn:E; [|reflexivity].
    apply Qle_bool_iff in E. exfalso. apply (Qlt_not_le _ _ H E).
Qed.

Lemma Qleb_spec (a b : number) : Qleb a b = true <-> a <= b.
Proof. apply Qle_bool_iff. Qed.

(** ** Scoring *)

Module ScoringFacts.
Import Calculations.

Lemma estimate1RM_one (w : number) : estimate1RM w 1 = w.
Proof. reflexivity. Qed.

Lemma estimate1RM_formula (w r : number) :
  ~ r == 1 -> estimate1RM w r = w * (1 + r / 30).
Proof.
  intro H. unfold estimate1RM.
  destruct (Qeq_bool r 1) eqn:E; [|reflexivity].
  apply Qeq_bool_iff in E. contradiction.
Qed.

Lemma estimate1RM_gt (w r : number) :
  0 < w -> 1 < r -> w < estimate1RM w r.
Proof.
  intros Hw Hr. rewrite estimate1RM_formula.
  - assert (Hpos : 0 < w * (r / 30)).
    { apply Qmult_lt_0_compat; [exact Hw|].
      apply Qlt_shift_div_l; lra. }
    lra.
  - intro E. rewrite E in Hr. lra.
Qed.

(** C8. [estimate1RM] is the Epley formula: it returns the weight itself when
    reps is 1 and weight × (1 + reps/30) otherwise; hence for every weight
    w > 0 and every reps r > 1 (integer or not) the estimate is strictly
    greater than w, and the estimate at one rep is w. *)
Theorem estimate1RM_epley (w r : number) :
  estimate1RM w 1 = w
  /\ (~ r == 1 -> estimate1RM w r = w * (1 + r / 30))
  /\ (0 < w -> 1 < r -> w < estimate1RM w r).
Proof.
  split; [apply estimate1RM_one|].
  split; [apply estimate1RM_formula|apply estimate1RM_gt].
Qed.

Lemma estimate1RM_epley_witness :
  estimate1RM 100 1 = 100
  /\ (~ 5 == 1 -> estimate1RM 100 5 = 100 * (1 + 5 / 30))
  /\ 100 < estimate1RM 100 5.
Proof.
  destruct (estimate1RM_epley 100 5) as [H1 [H2 H3]].
  split; [exact H1|]. split; [exact H2|].
  apply H3; reflexivity.
Defined.

(** The run of the greedy loop on the per-side load 40. *)
Lemma calculatePlates_100_20_perSide :
  perSide (calculatePlates 100 20)
  = [ {| weight := 25; count := 1 |}; {| weight := 15; count := 1 |} ].
Proof. vm_compute. reflexivity. Qed.

Lemma calculatePlates_100_20_remainder :
  remainder (calculatePlates 100 20) == 0.
Proof. vm_compute. reflexivity. Qed.

(** C9, as stated, fails: the selection is not 20 + 15 + 5. *)
Lemma calculatePlates_100_20_not_20_15_5 :
  ~ (sameSelection (perSide (calculatePlates 100 20))
       [ {| weight := 20; count := 1 |}; {| weight := 15; count := 1 |};
         {| weight := 5; count := 1 |} ]
     /\ remainder (calculatePlates 100 20) == 0).
Proof.
  rewrite calculatePlates_100_20_perSide. intros [H _].
  inversion H as [|a b l l' Hab Hrest]; subst.
  destruct Hab as [Hw _]. simpl in Hw. discriminate Hw.
Qed.

(** C9, amended. [calculatePlates(100, 20)] takes the plates greedily from the
    heaviest down: the per-side load (100 − 20)/2 = 40 is met by 25 + 15 (one
    plate each), and the remainder is 0. *)
Theorem calculatePlates_100_20 :
  sameSelection (perSide (calculatePlates 100 20))
    [ {| weight := 25; count := 1 |}; {| weight := 15; count := 1 |} ]
  /\ sideLoad (perSide (calculatePlates 100 20)) == (100 - 20) / 2
  /\ sideLoad (perSide (calculatePlates 100 20)) == 40
  /\ remainder (calculatePlates 100 20) == 0.
Proof.
  rewrite calculatePlates_100_20_perSide.
  split.
  - repeat constructor; reflexivity.
  - split; [reflexivity|]. split; [reflexivity|].
    apply calculatePlates_100_20_remainder.
Qed.

End ScoringFacts.

(** ** The PR badge *)

Module PRFacts.
Import Calculations Screens.

Lemma truthy_Some (q : number) : truthy (Some q) = true <-> ~ q == 0.
Proof.
  simpl. rewrite negb_true_iff. split; intro H.
  - intro E. apply Qeq_bool_iff in E. congruence.
  - destruct (Qeq_bool q 0) eqn:E; [|reflexivity].
    apply Qeq_bool_iff in E. contradiction.
Qed.

Lemma isPR_spec (exercise : WorkoutExercise.t) (idx : nat)
  (set : WorkoutSet.t) :
  isPR exercise idx set = true
  <-> 0 < current1rm set /\ prev1rm exercise idx < current1rm set.
Proof.
  unfold isPR. rewrite andb_true_iff, !Qgtb_spec. reflexivity.
Qed.

Lemma prev1rm_no_history (exercise : WorkoutExercise.t) (idx : nat) :
  prevSet exercise idx = None -> prev1rm exercise idx = 0.
Proof. unfold prev1rm. intros ->. reflexivity. Qed.

Lemma prev1rm_missing (exercise : WorkoutExercise.t) (idx : nat)
  (p : PreviousSet.t) :
  prevSet exercise idx = Some p ->
  PreviousSet.weight p = None \/ PreviousSet.reps p = None ->
  prev1rm exercise idx = 0.
Proof.
  unfold prev1rm. intros -> [H|H]; rewrite H; simpl.
  - reflexivity.
  - rewrite andb_false_r. reflexivity.
Qed.

Lemma prev1rm_estimate (exercise : WorkoutExercise.t) (idx : nat)
  (p : PreviousSet.t) (w r : number) :
  prevSet exercise idx = Some p ->
  PreviousSet.weight p = Some w -> PreviousSet.reps p = Some r ->
  ~ w == 0 -> ~ r == 0 ->
  prev1rm exercise idx = estimate1RM w r.
Proof.
  unfold prev1rm. intros -> Hw Hr Hw0 Hr0. rewrite Hw, Hr.
  apply truthy_Some in Hw0. apply truthy_Some in Hr0.
  rewrite Hw0, Hr0. reflexivity.
Qed.

Lemma current1rm_estimate (set : WorkoutSet.t) (w r : number) :
  WorkoutSet.actual_weight set = Some w ->
  WorkoutSet.actual_reps set = Some r ->
  ~ w == 0 -> ~ r == 0 ->
  current1rm set = estimate1RM w r.
Proof.
  unfold current1rm. intros Hw Hr Hw0 Hr0. rewrite Hw, Hr.
  apply truthy_Some in Hw0. apply truthy_Some in Hr0.
  rewrite Hw0, Hr0. reflexivity.
Qed.

Lemma current1rm_missing (set : WorkoutSet.t) :
  truthy (WorkoutSet.actual_weight set) = false
  \/ truthy (WorkoutSet.actual_reps set) = false ->
  current1rm set = 0.
Proof.
  unfold current1rm. intros [H|H]; rewrite H.
  - reflexivity.
  - rewrite andb_false_r. reflexivity.
Qed.

(** *** Over doubles *)

Lemma isPR64_spec (previous : option Binary64.Previous.t) (idx : nat)
  (set : Binary64.WorkoutSet.t) :
  Binary64.isPR previous idx set = true
  <-> Binary64.gtb (Binary64.current1rm set) Binary64.zero = true
      /\ Binary64.gtb (Binary64.current1rm set)
                      (Binary64.prev1rm previous idx) = true.
Proof. unfold Binary64.isPR. apply andb_true_iff. Qed.

Lemma prevSet64_at (previous : option Binary64.Previous.t) (idx : nat) :
  (previous = None -> Binary64.prevSet previous idx = None)
  /\ (forall p,
        previous = Some p -> Binary64.Previous.sets p = None ->
        Binary64.prevSet previous idx = None)
  /\ (forall p l,
        previous = Some p -> Binary64.Previous.sets p = Some l ->
        Binary64.prevSet previous idx = nth_error l idx).
Proof.
  unfold Binary64.prevSet. split; [intros ->; reflexivity|].
  split.
  - intros p -> Hs. rewrite Hs. reflexivity.
  - intros p l -> Hs. rewrite Hs. reflexivity.
Qed.

Lemma prev1rm64_zero (previous : option Binary64.Previous.t) (idx : nat) :
  (Binary64.prevSet previous idx = None ->
   Binary64.prev1rm previous idx = Binary64.zero)
  /\ (forall p,
        Binary64.prevSet previous idx = Some p ->
        Binary64.truthy (Binary64.PreviousSet.weight p) = false
        \/ Binary64.truthy (Binary64.PreviousSet.reps p) = false ->
        Binary64.prev1rm previous idx = Binary64.zero).
Proof.
  unfold Binary64.prev1rm. split.
  - intros ->. reflexivity.
  - intros p -> [H|H]; rewrite H; [reflexivity|].
    rewrite andb_false_r. reflexivity.
Qed.

Lemma prev1rm64_estimate (previous : option Binary64.Previous.t) (idx : nat)
  (p : Binary64.PreviousSet.t) (w r : PrimFloat.float) :
  Binary64.prevSet previous idx = Some p ->
  Binary64.PreviousSet.weight p = Some w ->
  Binary64.PreviousSet.reps p = Some r ->
  Binary64.truthy (Some w) = true -> Binary64.truthy (Some r) = true ->
  Binary64.prev1rm previous idx = Binary64.estimate1RM w r.
Proof.
  unfold Binary64.prev1rm. intros -> Hw Hr Hwt Hrt.
  rewrite Hw, Hr, Hwt, Hrt. reflexivity.
Qed.

Lemma current1rm64_cases (set : Binary64.WorkoutSet.t) :
  (forall w r,
     Binary64.WorkoutSet.actual_weight set = Some w ->
     Binary64.WorkoutSet.actual_reps set = Some r ->
     Binary64.truthy (Some w) = true -> Binary64.truthy (Some r) = true ->
     Binary64.current1rm set = Binary64.estimate1RM w r)
  /\ (Binary64.truthy (Binary64.WorkoutSet.actual_weight set) = false
      \/ Binary64.truthy (Binary64.WorkoutSet.actual_reps set) = false ->
      Binary64.current1rm set = Binary64.zero).
Proof.
  unfold Binary64.current1rm. split.
  - intros w r Hw Hr Hwt Hrt. rewrite Hw, Hr, Hwt, Hrt. reflexivity.
  - intros [H|H]; rewrite H; [reflexivity|].
    rewrite andb_false_r. reflexivity.
Qed.

(** C7. With numbers as the doubles they are: a completed set carries the PR
    badge if and only if its estimated 1RM is strictly greater than zero and
    strictly greater than the estimated 1RM of the previous set at the same
    index.  That previous set is the element at index [idx] of the set list
    of the exercise's previous-session snapshot, and there is none when the
    snapshot or its set list is absent or the list is too short.  An estimate
    is [estimate1RM] of weight and reps when both are truthy and zero
    otherwise; the previous estimate is zero when there is no previous set or
    its weight or reps is missing.  So a positive current estimate without
    history is a PR. *)
Theorem completed_set_isPR_iff (previous : option Binary64.Previous.t)
  (idx : nat) (set : Binary64.WorkoutSet.t) :
  Binary64.WorkoutSet.status set = completed ->
  (Binary64.SetRow_isPR previous idx set = true
   <-> Binary64.gtb (Binary64.current1rm set) Binary64.zero = true
       /\ Binary64.gtb (Binary64.current1rm set)
                       (Binary64.prev1rm previous idx) = true)
  /\ (previous = None -> Binary64.prevSet previous idx = None)
  /\ (forall p,
        previous = Some p -> Binary64.Previous.sets p = None ->
        Binary64.prevSet previous idx = None)
  /\ (forall p l,
        previous = Some p -> Binary64.Previous.sets p = Some l ->
        Binary64.prevSet previous idx = nth_error l idx)
  /\ (forall w r,
        Binary64.WorkoutSet.actual_weight set = Some w ->
        Binary64.WorkoutSet.actual_reps set = Some r ->
        Binary64.truthy (Some w) = true -> Binary64.truthy (Some r) = true ->
        Binary64.current1rm set = Binary64.estimate1RM w r)
  /\ (Binary64.truthy (Binary64.WorkoutSet.actual_weight set) = false
      \/ Binary64.truthy (Binary64.WorkoutSet.actual_reps set) = false ->
      Binary64.current1rm set = Binary64.zero)
  /\ (forall p w r,
        Binary64.prevSet previous idx = Some p ->
        Binary64.PreviousSet.weight p = Some w ->
        Binary64.PreviousSet.reps p = Some r ->
        Binary64.truthy (Some w) = true -> Binary64.truthy (Some r) = true ->
        Binary64.prev1rm previous idx = Binary64.estimate1RM w r)
  /\ (Binary64.prevSet previous idx = None ->
      Binary64.prev1rm previous idx = Binary64.zero)
  /\ (forall p,
        Binary64.prevSet previous idx = Some p ->
        Binary64.PreviousSet.weight p = None
        \/ Binary64.PreviousSet.reps p = None ->
        Binary64.prev1rm previous idx = Binary64.zero)
  /\ (Binary64.prevSet previous idx = None ->
      Binary64.gtb (Binary64.current1rm set) Binary64.zero = true ->
      Binary64.SetRow_isPR previous idx set = true).
Proof.
  intro Hc.
  assert (Hshown : Binary64.SetRow_isPR previous idx set
                   = Binary64.isPR previous idx set).
  { unfold Binary64.SetRow_isPR. rewrite Hc. apply andb_true_r. }
  destruct (prevSet64_at previous idx) as [Hnone [Hnosets Hat]].
  destruct (current1rm64_cases set) as [Hcur Hcur0].
  destruct (prev1rm64_zero previous idx) as [Hprev0 Hprevm].
  split; [rewrite Hshown; apply isPR64_spec|].
  split; [exact Hnone|]. split; [exact Hnosets|]. split; [exact Hat|].
  split; [exact Hcur|]. split; [exact Hcur0|].
  split; [intros p w r; apply prev1rm64_estimate|].
  split; [exact Hprev0|].
  split.
  { intros p Hp [H|H]; apply (Hprevm p Hp); [left|right]; rewrite H;
      reflexivity. }
  intros Hno Hpos. rewrite Hshown. apply isPR64_spec.
  split; [exact Hpos|]. rewrite (Hprev0 Hno). exact Hpos.
Qed.

(** Scenario B of the specification (previous 90 × 5, current 100 × 5), and a
    set whose product 25 × 1.1 rounds just above the previous 27.5 at
    index 1. *)
Lemma completed_set_isPR_iff_witness :
  Binary64.SetRow_isPR Binary64.previous_90x5 0 Binary64.set_100x5 = true
  /\ Binary64.SetRow_isPR Binary64.previous_two 1 Binary64.set_25x3 = true
  /\ Binary64.SetRow_isPR Binary64.previous_two 0 Binary64.set_25x3 = false.
Proof.
  destruct (completed_set_isPR_iff Binary64.previous_90x5 0
              Binary64.set_100x5 eq_refl) as [Hiff _].
  split.
  - apply Hiff. split; reflexivity.
  - split; reflexivity.
Defined.

End PRFacts.

(** ** The rest timer *)

Module TimerFacts.
Import WorkoutState Store.

Lemma tickTimer_last (s : WorkoutState.t) :
  RestTimer.remaining (restTimer s) <= 1 ->
  restTimer (tickTimer s)
  = finished (RestTimer.total (restTimer s))
             (RestTimer.exerciseId (restTimer s)).
Proof.
  intro H. unfold tickTimer.
  assert (E : Qleb (RestTimer.remaining (restTimer s) - 1) 0 = true).
  { apply Qleb_spec. lra. }
  rewrite E. reflexivity.
Qed.

Lemma tickTimer_running (s : WorkoutState.t) :
  1 < RestTimer.remaining (restTimer s) ->
  restTimer (tickTimer s)
  = {| RestTimer.isRunning := RestTimer.isRunning (restTimer s);
       RestTimer.remaining := RestTimer.remaining (restTimer s) - 1;
       RestTimer.total := RestTimer.total (restTimer s);
       RestTimer.exerciseId := RestTimer.exerciseId (restTimer s) |}.
Proof.
  intro H. unfold tickTimer.
  destruct (Qleb (RestTimer.remaining (restTimer s) - 1) 0) eqn:E.
  - apply Qleb_spec in E. lra.
  - reflexivity.
Qed.

Lemma ticks_finished (n : nat) :
  forall (s : WorkoutState.t) total exerciseId,
    restTimer s = finished total exerciseId ->
    restTimer (ticks n s) = finished total exerciseId.
Proof.
  induction n as [|n IH]; intros s total exerciseId H; simpl.
  - exact H.
  - apply IH. rewrite tickTimer_last; rewrite H; simpl; [reflexivity|lra].
Qed.

Lemma ticks_complete (n : nat) :
  forall s : WorkoutState.t,
    (0 < n)%nat ->
    RestTimer.remaining (restTimer s) <= inject_Z (Z.of_nat n) ->
    restTimer (ticks n s)
    = finished (RestTimer.total (restTimer s))
               (RestTimer.exerciseId (restTimer s)).
Proof.
  induction n as [|n IH]; intros s Hn Hrem; [lia|]. simpl.
  destruct (Qlt_le_dec 1 (RestTimer.remaining (restTimer s))) as [Hgt|Hle].
  - pose proof (tickTimer_running s Hgt) as Ht.
    assert (Hn' : (0 < n)%nat).
    { destruct n; [|lia]. change (inject_Z (Z.of_nat 1)) with 1 in Hrem. lra. }
    rewrite IH; [rewrite Ht; reflexivity|exact Hn'|].
    rewrite Ht. simpl.
    rewrite Nat2Z.inj_succ in Hrem. unfold Z.succ in Hrem.
    rewrite inject_Z_plus in Hrem.
    change (inject_Z 1) with 1 in Hrem. lra.
  - apply ticks_finished. apply tickTimer_last. exact Hle.
Qed.

Lemma countdown_completes (seconds : number) (exerciseId : option string)
  (s : WorkoutState.t) :
  0 < seconds ->
  restTimer (ticks (Z.to_nat (Qceiling seconds))
                   (startRestTimer seconds exerciseId s))
  = finished seconds exerciseId.
Proof.
  intro Hpos.
  pose proof (Qle_ceiling seconds) as Hc.
  assert (Hz : (0 < Qceiling seconds)%Z).
  { rewrite Zlt_Qlt. change (inject_Z 0) with 0.
    apply Qlt_le_trans with seconds; assumption. }
  rewrite ticks_complete; [reflexivity|lia|].
  rewrite Z2Nat.id by lia. exact Hc.
Qed.

(** C10. A tick that brings the countdown to zero (remaining ≤ 1 before the
    tick) leaves the timer stopped with remaining 0 and with its total and its
    exercise reference as they were, whereas [stopRestTimer] resets the total
    to 0; a countdown started with a positive number of seconds completes
    after finitely many ticks in a state whose total is that number, which no
    explicit stop produces. *)
Theorem tickTimer_completion_keeps_total (s : WorkoutState.t) :
  RestTimer.remaining (restTimer s) <= 1 ->
  restTimer (tickTimer s)
  = {| RestTimer.isRunning := false; RestTimer.remaining := 0;
       RestTimer.total := RestTimer.total (restTimer s);
       RestTimer.exerciseId := RestTimer.exerciseId (restTimer s) |}
  /\ restTimer (stopRestTimer s)
     = {| RestTimer.isRunning := false; RestTimer.remaining := 0;
          RestTimer.total := 0; RestTimer.exerciseId := None |}
  /\ (0 < RestTimer.total (restTimer s) ->
      forall s', ~ RestTimer.total (restTimer (tickTimer s))
                   == RestTimer.total (restTimer (stopRestTimer s')))
  /\ (forall seconds exerciseId s0,
        0 < seconds ->
        exists n,
          let done := ticks n (startRestTimer seconds exerciseId s0) in
          restTimer done
          = {| RestTimer.isRunning := false; RestTimer.remaining := 0;
               RestTimer.total := seconds;
               RestTimer.exerciseId := exerciseId |}
          /\ forall s', ~ RestTimer.total (restTimer done)
                          == RestTimer.total (restTimer (stopRestTimer s'))).
Proof.
  intro Hrem.
  split; [apply tickTimer_last; exact Hrem|].
  split; [reflexivity|].
  split.
  - intros Hpos s'. rewrite (tickTimer_last s Hrem). simpl. lra.
  - intros seconds exerciseId s0 Hpos.
    exists (Z.to_nat (Qceiling seconds)). simpl.
    rewrite (countdown_completes seconds exerciseId s0 Hpos).
    split; [reflexivity|]. intros s'. simpl. lra.
Qed.

Lemma tickTimer_completion_keeps_total_witness :
  restTimer (tickTimer Scenarios.lastSecond)
  = {| RestTimer.isRunning := false; RestTimer.remaining := 0;
       RestTimer.total := 90; RestTimer.exerciseId := Some "e1"%string |}
  /\ ~ RestTimer.total (restTimer (tickTimer Scenarios.lastSecond))
       == RestTimer.total (restTimer (stopRestTimer Scenarios.lastSecond)).
Proof.
  assert (H : RestTimer.remaining (restTimer Scenarios.lastSecond) <= 1).
  { simpl. lra. }
  destruct (tickTimer_completion_keeps_total Scenarios.lastSecond H)
    as [Htick [_ [Hdiff _]]].
  split; [exact Htick|]. apply Hdiff. reflexivity.
Defined.

End TimerFacts.

(** ** Lifecycle and mutations *)

Module StoreFacts.
Import WorkoutState Store Observe Screens.

(** C4, as stated, fails: starting while a Session is live replaces it. *)
Lemma start_overwrites_live_session :
  activeSession (Scenarios.live Scenarios.legDay 120) = Some Scenarios.legDay
  /\ activeSession
       (startEmpty (Scenarios.idsFrom "n") Scenarios.finishedAt
                   "Push Day" "u1" (Scenarios.live Scenarios.legDay 120))
     <> Some Scenarios.legDay
  /\ activeSession
       (startFromTemplate (Scenarios.idsFrom "n") Scenarios.finishedAt
          {| Template.id := "t1"; Template.user_id := "u1";
             Template.name := "Pull Day"; Template.exercises := [] |}
          "u1" (Scenarios.live Scenarios.legDay 120))
     <> Some Scenarios.legDay.
Proof.
  split; [reflexivity|]. split; intro H; discriminate H.
Qed.

(** C4, amended. [startEmpty] and [startFromTemplate] do not look at the
    current state: they install the Session they build (an empty one, or the
    one derived from the template) and reset the elapsed clock, whether or not
    a Session is live, and leave the rest timer and [isFinishing] alone.  The
    one-live-Session rule is kept by the handlers of the workouts screen:
    with a live Session, [handleStart] and [handleStartEmpty] leave the store
    as it is. *)
Theorem start_installs_new_session (ids : nat -> string) (now : string)
  (name userId : string) (template : Template.t) (user entered : option string)
  (s : WorkoutState.t) :
  startEmpty ids now name userId s
  = {| activeSession :=
         Some {| ActiveWorkoutSession.id := ids 0%nat;
                 ActiveWorkoutSession.user_id := userId;
                 ActiveWorkoutSession.name := name;
                 ActiveWorkoutSession.template_id := None;
                 ActiveWorkoutSession.started_at := now;
                 ActiveWorkoutSession.exercises := [];
                 ActiveWorkoutSession.pr_events := Some [] |};
       elapsedSeconds := 0;
       restTimer := restTimer s;
       isFinishing := isFinishing s |}
  /\ startFromTemplate ids now template userId s
     = {| activeSession :=
            Some (buildSessionFromTemplate ids now template userId);
          elapsedSeconds := 0;
          restTimer := restTimer s;
          isFinishing := isFinishing s |}
  /\ (activeSession s <> None ->
      fst (handleStart ids now user template s) = s
      /\ fst (handleStartEmpty ids now user entered s) = s).
Proof.
  split; [reflexivity|]. split; [reflexivity|].
  intro Hlive. unfold handleStart, handleStartEmpty.
  destruct (activeSession s); [split; reflexivity|contradiction].
Qed.

Lemma start_installs_new_session_witness :
  fst (handleStart (Scenarios.idsFrom "n") Scenarios.finishedAt (Some "u1"%string)
         {| Template.id := "t1"; Template.user_id := "u1";
            Template.name := "Pull Day"; Template.exercises := [] |}
         (Scenarios.live Scenarios.legDay 120))
  = Scenarios.live Scenarios.legDay 120.
Proof.
  refine (proj1 (proj2 (proj2
    (start_installs_new_session (Scenarios.idsFrom "n") Scenarios.finishedAt
       "Push Day"%string "u1"%string _ (Some "u1"%string)
       (Some "Push Day"%string)
       (Scenarios.live Scenarios.legDay 120))) _)).
  simpl. discriminate.
Defined.

Lemma exercisesOf_onExercises
  (f : list WorkoutExercise.t -> list WorkoutExercise.t)
  (s : WorkoutState.t) (i : nat) (ex : WorkoutExercise.t) :
  exerciseAt i s = Some ex ->
  exercisesOf (onExercises f s) = f (exercisesOf s).
Proof.
  unfold exerciseAt, exercisesOf, onExercises.
  destruct (activeSession s) as [a|]; [reflexivity|].
  destruct i; discriminate.
Qed.

Lemma exerciseAt_onSetsOf (f : list WorkoutSet.t -> list WorkoutSet.t)
  (s : WorkoutState.t) (i : nat) (ex : WorkoutExercise.t) :
  exerciseAt i s = Some ex ->
  exerciseAt i (onExercises (onSetsOf (WorkoutExercise.id ex) f) s)
  = Some (WorkoutExercise.with_sets (f (WorkoutExercise.sets ex)) ex).
Proof.
  intro H. unfold exerciseAt.
  rewrite (exercisesOf_onExercises _ _ _ _ H).
  unfold onSetsOf. rewrite nth_error_map.
  unfold exerciseAt in H. rewrite H. simpl.
  rewrite String.eqb_refl. reflexivity.
Qed.

Lemma setAt_mapped (g : WorkoutSet.t -> WorkoutSet.t)
  (s : WorkoutState.t) (i j : nat) (ex : WorkoutExercise.t)
  (ws : WorkoutSet.t) :
  exerciseAt i s = Some ex ->
  nth_error (WorkoutExercise.sets ex) j = Some ws ->
  setAt i j (onExercises (onSetsOf (WorkoutExercise.id ex) (map g)) s)
  = Some (g ws).
Proof.
  intros Hex Hws. unfold setAt.
  rewrite (exerciseAt_onSetsOf _ _ _ _ Hex). simpl.
  rewrite nth_error_map, Hws. reflexivity.
Qed.

Lemma with_status_same (ws : WorkoutSet.t) :
  WorkoutSet.with_status (WorkoutSet.status ws) ws = ws.
Proof. destruct ws. reflexivity. Qed.

(** C5, as stated, fails: [updateSet] rewrites the weight of a completed set
    and returns it to pending. *)
Lemma updateSet_rewrites_completed_set :
  exists before after,
    setAt 0 0 (Scenarios.live Scenarios.legDay 0) = Some before
    /\ setAt 0 0 (updateSet "e1" "s1" Scenarios.reopen
                    (Scenarios.live Scenarios.legDay 0)) = Some after
    /\ WorkoutSet.status before = completed
    /\ WorkoutSet.actual_weight before = Some 100
    /\ WorkoutSet.status after = pending
    /\ WorkoutSet.actual_weight after = Some 50.
Proof.
  eexists. eexists. repeat split; reflexivity.
Qed.

(** C5, amended. [updateSet] does not look at the status: the set addressed by
    the two ids becomes [{ ...ws, ...updates }], so each of actual_weight,
    actual_reps and status takes the payload's value when the payload carries
    the key and keeps its own otherwise, for a completed set as for any other.
    [completeSet] only sets the status to completed: it leaves the actual_*
    fields alone and a completed set exactly as it was.  On the screen the
    inputs of a completed set are not editable and its check button has no
    press handler; [removeSet] takes the set out of its exercise. *)
Theorem updateSet_merges_whatever_status (s : WorkoutState.t) (i j : nat)
  (ex : WorkoutExercise.t) (ws : WorkoutSet.t)
  (updates : PartialWorkoutSet.t) :
  exerciseAt i s = Some ex ->
  nth_error (WorkoutExercise.sets ex) j = Some ws ->
  setAt i j (updateSet (WorkoutExercise.id ex) (WorkoutSet.id ws) updates s)
  = Some (spread ws updates)
  /\ WorkoutSet.actual_weight (spread ws updates)
     = nullish (PartialWorkoutSet.actual_weight updates)
               (WorkoutSet.actual_weight ws)
  /\ WorkoutSet.actual_reps (spread ws updates)
     = nullish (PartialWorkoutSet.actual_reps updates)
               (WorkoutSet.actual_reps ws)
  /\ WorkoutSet.status (spread ws updates)
     = nullish (PartialWorkoutSet.status updates) (WorkoutSet.status ws)
  /\ setAt i j (completeSet (WorkoutExercise.id ex) (WorkoutSet.id ws) s)
     = Some (WorkoutSet.with_status completed ws)
  /\ WorkoutSet.actual_weight (WorkoutSet.with_status completed ws)
     = WorkoutSet.actual_weight ws
  /\ WorkoutSet.actual_reps (WorkoutSet.with_status completed ws)
     = WorkoutSet.actual_reps ws
  /\ (WorkoutSet.status ws = completed ->
      WorkoutSet.with_status completed ws = ws
      /\ SetRow_editable ws = false
      /\ SetRow_onPress ws tt = None)
  /\ (exists ex',
        exerciseAt i (removeSet (WorkoutExercise.id ex) (WorkoutSet.id ws) s)
        = Some ex'
        /\ ~ In ws (WorkoutExercise.sets ex')).
Proof.
  intros Hex Hws.
  split.
  { unfold updateSet.
    rewrite (setAt_mapped
               (fun w => if negb (String.eqb (WorkoutSet.id w)
                                             (WorkoutSet.id ws))
                         then w else spread w updates) _ _ _ _ _ Hex Hws).
    rewrite String.eqb_refl. reflexivity. }
  split; [reflexivity|]. split; [reflexivity|]. split; [reflexivity|].
  split.
  { unfold completeSet.
    rewrite (setAt_mapped
               (fun w => if negb (String.eqb (WorkoutSet.id w)
                                             (WorkoutSet.id ws))
                         then w else WorkoutSet.with_status completed w)
               _ _ _ _ _ Hex Hws).
    rewrite String.eqb_refl. reflexivity. }
  split; [reflexivity|]. split; [reflexivity|].
  split.
  { intro Hc. split; [rewrite <- Hc; apply with_status_same|].
    unfold SetRow_editable, SetRow_onPress, WorkoutSet.isCompleted.
    rewrite Hc. split; reflexivity. }
  eexists. split.
  { unfold removeSet. apply (exerciseAt_onSetsOf _ _ _ _ Hex). }
  simpl. intro Hin. apply filter_In in Hin. destruct Hin as [_ Hid].
  rewrite String.eqb_refl in Hid. discriminate Hid.
Qed.

Lemma updateSet_merges_whatever_status_witness :
  setAt 0 0 (updateSet "e1" "s1" Scenarios.reopen (Scenarios.live Scenarios.legDay 0))
  = Some (spread Scenarios.set_100x5 Scenarios.reopen)
  /\ WorkoutSet.status (spread Scenarios.set_100x5 Scenarios.reopen) = pending.
Proof.
  split; [|reflexivity].
  exact (proj1 (updateSet_merges_whatever_status
                  (Scenarios.live Scenarios.legDay 0) 0%nat 0%nat
                  Scenarios.exercise_E Scenarios.set_100x5 Scenarios.reopen
                  eq_refl eq_refl)).
Defined.

End StoreFacts.

(** ** The commit protocol *)

Module CommitFacts.
Import WorkoutState Commit Exec Observe.

Lemma run_bind {A B : Type} (sto : storage) (now : string)
  (p : Async A) (f : A -> Async B) :
  forall n s,
    run sto now (bind p f) n s
    = match run sto now p n s with
      | (Resolved a, s', tr) =>
          let '(o, s'', tr') := run sto now (f a) (n + List.length tr) s' in
          (o, s'', tr ++ tr')
      | (Rejected e, s', tr) => (Rejected e, s', tr)
      end.
Proof.
  induction p as [a|e|k IH|g k IH|k IH|q k IH]; intros n s; simpl.
  - rewrite Nat.add_0_r. destruct (run sto now (f a) n s) as [[o s'] tr].
    reflexivity.
  - reflexivity.
  - apply IH.
  - apply IH.
  - apply IH.
  - rewrite IH.
    destruct (run sto now (k (sto n q)) (S n) s) as [[[a|e] s'] tr]; simpl.
    + rewrite Nat.add_succ_r.
      destruct (run sto now (f a) (S (n + List.length tr)) s')
        as [[o s''] tr'].
      reflexivity.
    + reflexivity.
Qed.

Lemma run_try_catch {A : Type} (sto : storage) (now : string)
  (p : Async A) (h : Error -> Async A) :
  forall n s,
    run sto now (try_catch p h) n s
    = match run sto now p n s with
      | (Resolved a, s', tr) => (Resolved a, s', tr)
      | (Rejected e, s', tr) =>
          let '(o, s'', tr') := run sto now (h e) (n + List.length tr) s' in
          (o, s'', tr ++ tr')
      end.
Proof.
  induction p as [a|e|k IH|g k IH|k IH|q k IH]; intros n s; simpl.
  - reflexivity.
  - rewrite Nat.add_0_r. destruct (run sto now (h e) n s) as [[o s'] tr].
    reflexivity.
  - apply IH.
  - apply IH.
  - apply IH.
  - rewrite IH.
    destruct (run sto now (k (sto n q)) (S n) s) as [[[a|e] s'] tr]; simpl.
    + reflexivity.
    + rewrite Nat.add_succ_r.
      destruct (run sto now (h e) (S (n + List.length tr)) s')
        as [[o s''] tr'].
      reflexivity.
Qed.

Lemma completedExercises_have_sets (a : ActiveWorkoutSession.t) :
  Forall (fun ex => completedSetsOf ex <> []) (completedExercises a).
Proof.
  apply Forall_forall. intros ex Hin.
  apply filter_In in Hin. destruct Hin as [_ Hex].
  apply existsb_exists in Hex. destruct Hex as [ws [Hin Hc]].
  intro Hnil.
  assert (Hws : In ws (completedSetsOf ex)).
  { apply filter_In. split; assumption. }
  rewrite Hnil in Hws. exact Hws.
Qed.

Lemma run_persistExercise (sto : storage) (now : string)
  (workout_id : string) (ex : WorkoutExercise.t) (n : nat)
  (s : WorkoutState.t) :
  completedSetsOf ex <> [] ->
  exists segment,
    run sto now (persistExercise workout_id ex) n s
    = (Resolved tt, s, segment)
    /\ exerciseSegment workout_id ex segment.
Proof.
  intro Hsets. unfold persistExercise. simpl.
  destruct (sto n (InsertWorkoutExercise (exerciseRow workout_id ex)))
    as [wEx_id|e]; simpl.
  - destruct (completedSetsOf ex) as [|ws rest] eqn:E; [contradiction|].
    simpl. eexists. split; [reflexivity|].
    replace (InsertWorkoutSets _) with (InsertWorkoutSets (setRows wEx_id ex)).
    + constructor.
    + unfold setRows. rewrite E. reflexivity.
  - eexists. split; [reflexivity|constructor].
Qed.

Lemma run_persistExercises (sto : storage) (now : string)
  (workout_id : string) (exs : list WorkoutExercise.t) :
  Forall (fun ex => completedSetsOf ex <> []) exs ->
  forall n s,
  exists segments,
    run sto now (persistExercises workout_id exs) n s
    = (Resolved tt, s, List.concat segments)
    /\ Forall2 (exerciseSegment workout_id) exs segments.
Proof.
  induction 1 as [|ex rest Hex Hrest IH]; intros n s.
  - exists []. split; [reflexivity|constructor].
  - cbn [persistExercises]. rewrite run_bind.
    destruct (run_persistExercise sto now workout_id ex n s Hex)
      as [segment [Hrun Hseg]].
    rewrite Hrun.
    destruct (IH (n + List.length segment)%nat s) as [segments [Hrun' Hsegs]].
    rewrite Hrun'.
    exists (segment :: segments). split; [reflexivity|].
    constructor; assumption.
Qed.

Lemma run_touchTemplate (sto : storage) (now : string)
  (a : ActiveWorkoutSession.t) (finishedAt : string) (n : nat)
  (s : WorkoutState.t) :
  exists tail,
    run sto now (touchTemplate a finishedAt) n s = (Resolved tt, s, tail)
    /\ Forall (fun ev => isExerciseOrSetWrite ev = false) tail.
Proof.
  unfold touchTemplate.
  destruct (truthy_string (ActiveWorkoutSession.template_id a)); simpl.
  - eexists. split; [reflexivity|]. repeat constructor.
  - eexists. split; [reflexivity|constructor].
Qed.


Lemma run_finishWorkout_header_error (sto : storage) (now : string)
  (s : WorkoutState.t) (a : ActiveWorkoutSession.t) (e : Error) :
  activeSession s = Some a ->
  sto 0%nat (InsertWorkout (workoutRow a (elapsedSeconds s) now)) = RespError e ->
  run sto now finishWorkout 0 s
  = (Rejected e, with_isFinishing false s,
     [ (InsertWorkout (workoutRow a (elapsedSeconds s) now), RespError e) ]).
Proof.
  intros Ha Hsto. unfold finishWorkout. simpl. rewrite Ha. simpl.
  rewrite Hsto. simpl. reflexivity.
Qed.

Lemma run_finishWorkout_header_ok (sto : storage) (now : string)
  (s : WorkoutState.t) (a : ActiveWorkoutSession.t) (workout_id : string) :
  activeSession s = Some a ->
  sto 0%nat (InsertWorkout (workoutRow a (elapsedSeconds s) now))
  = RespData workout_id ->
  exists segments tail,
    run sto now finishWorkout 0 s
    = (Resolved tt, committed s,
       (InsertWorkout (workoutRow a (elapsedSeconds s) now),
        RespData workout_id) :: List.concat segments ++ tail)
    /\ Forall2 (exerciseSegment workout_id) (completedExercises a) segments
    /\ Forall (fun ev => isExerciseOrSetWrite ev = false) tail.
Proof.
  intros Ha Hsto. unfold finishWorkout. simpl. rewrite Ha. simpl.
  rewrite Hsto.
  rewrite run_try_catch, run_bind.
  destruct (run_persistExercises sto now workout_id (completedExercises a)
              (completedExercises_have_sets a) 1%nat
              (with_isFinishing true s))
    as [segments [Hrun Hsegs]].
  rewrite Hrun. rewrite run_bind.
  destruct (run_touchTemplate sto now a now
              (1 + List.length (List.concat segments))%nat
              (with_isFinishing true s))
    as [tail [Hrun' Htail]].
  rewrite Hrun'. simpl. rewrite app_nil_r.
  exists segments, tail. split; [reflexivity|]. split; assumption.
Qed.

(** *** The volume *)

Lemma sumQ_app (l l' : list number) : sumQ (l ++ l') == sumQ l + sumQ l'.
Proof.
  induction l as [|x l IH]; simpl.
  - lra.
  - rewrite IH. lra.
Qed.

Lemma sumQ_map_ext {A : Type} (f g : A -> number) (l : list A) :
  (forall x, f x == g x) -> sumQ (map f l) == sumQ (map g l).
Proof.
  intro H. induction l as [|x l IH]; simpl.
  - reflexivity.
  - rewrite IH, (H x). reflexivity.
Qed.

Lemma fold_left_sum {A : Type} (f : A -> number) (l : list A) :
  forall a0, fold_left (fun s x => s + f x) l a0 == a0 + sumQ (map f l).
Proof.
  induction l as [|x l IH]; intro a0; simpl.
  - lra.
  - rewrite IH. lra.
Qed.

Lemma setProduct_spec (ws : WorkoutSet.t) : setProduct ws == specSetVolume ws.
Proof.
  unfold setProduct, specSetVolume.
  destruct (WorkoutSet.actual_weight ws), (WorkoutSet.actual_reps ws);
    simpl; lra.
Qed.

(** The inner [reduce]: the volume of one exercise. *)
Lemma exercise_volume (ex : WorkoutExercise.t) :
  fold_left (fun s2 ws => s2 + setProduct ws) (completedSetsOf ex) 0
  == sumQ (map specSetVolume (completedSetsOf ex)).
Proof.
  rewrite fold_left_sum.
  rewrite (sumQ_map_ext setProduct specSetVolume _ setProduct_spec). lra.
Qed.

Lemma existsb_false_filter {A : Type} (p : A -> bool) (l : list A) :
  existsb p l = false -> filter p l = [].
Proof.
  induction l as [|x l IH]; simpl; intro H; [reflexivity|].
  apply orb_false_iff in H. destruct H as [Hx Hl].
  rewrite Hx. apply IH. exact Hl.
Qed.

Lemma sumQ_completedExercises (exs : list WorkoutExercise.t) :
  sumQ (map (fun ex => sumQ (map specSetVolume (completedSetsOf ex)))
            (filter (fun ex => existsb WorkoutSet.isCompleted
                                       (WorkoutExercise.sets ex)) exs))
  == sumQ (map specSetVolume
               (filter WorkoutSet.isCompleted
                       (flat_map WorkoutExercise.sets exs))).
Proof.
  induction exs as [|ex exs IH]; simpl; [reflexivity|].
  rewrite filter_app, map_app, sumQ_app, <- IH.
  destruct (existsb WorkoutSet.isCompleted (WorkoutExercise.sets ex)) eqn:E.
  - simpl. reflexivity.
  - rewrite (existsb_false_filter _ _ E). simpl. lra.
Qed.

Lemma totalVolumeKg_spec (a : ActiveWorkoutSession.t) :
  totalVolumeKg a == specTotalVolume a.
Proof.
  unfold totalVolumeKg, specTotalVolume, allCompletedSets.
  rewrite (fold_left_sum
             (fun ex => fold_left (fun s2 ws => s2 + setProduct ws)
                                  (completedSetsOf ex) 0)).
  rewrite (sumQ_map_ext _
             (fun ex => sumQ (map specSetVolume (completedSetsOf ex)))
             _ exercise_volume).
  unfold completedExercises. rewrite sumQ_completedExercises. lra.
Qed.

Lemma trace_starts_with_header (sto : storage) (now : string)
  (s : WorkoutState.t) (a : ActiveWorkoutSession.t) :
  activeSession s = Some a ->
  exists rest,
    trace (run sto now finishWorkout 0 s)
    = (InsertWorkout (workoutRow a (elapsedSeconds s) now),
       sto 0%nat (InsertWorkout (workoutRow a (elapsedSeconds s) now)))
      :: rest.
Proof.
  intro Ha.
  destruct (sto 0%nat (InsertWorkout (workoutRow a (elapsedSeconds s) now)))
    as [workout_id|e] eqn:E.
  - destruct (run_finishWorkout_header_ok sto now s a workout_id Ha E)
      as [segments [tail [Hrun _]]].
    rewrite Hrun. simpl. eexists. reflexivity.
  - rewrite (run_finishWorkout_header_error sto now s a e Ha E).
    simpl. eexists. reflexivity.
Qed.

(** C6. The total volume in the header row that [finishWorkout] writes is the
    sum, over every completed set of the live Session, of actual_weight ×
    actual_reps, a missing value counting as zero; when the Session has
    exactly one completed set, of weight 100 and reps 5, it is 500. *)
Theorem header_volume_is_completed_sum (sto : storage) (now : string)
  (s : WorkoutState.t) (a : ActiveWorkoutSession.t) :
  activeSession s = Some a ->
  exists row answer rest,
    trace (run sto now finishWorkout 0 s) = (InsertWorkout row, answer) :: rest
    /\ row = workoutRow a (elapsedSeconds s) now
    /\ WorkoutRow.total_volume_kg row == specTotalVolume a
    /\ (forall ws w r,
          allCompletedSets a = [ws] ->
          WorkoutSet.actual_weight ws = Some w ->
          WorkoutSet.actual_reps ws = Some r ->
          w == 100 -> r == 5 ->
          WorkoutRow.total_volume_kg row == 500).
Proof.
  intro Ha.
  destruct (trace_starts_with_header sto now s a Ha) as [rest Htrace].
  eexists. eexists. exists rest.
  split; [exact Htrace|]. split; [reflexivity|].
  split; [apply totalVolumeKg_spec|].
  intros ws w r Hone Hw Hr Hw100 Hr5. simpl.
  rewrite totalVolumeKg_spec. unfold specTotalVolume. rewrite Hone. simpl.
  unfold specSetVolume. rewrite Hw, Hr, Hw100, Hr5. reflexivity.
Qed.

Lemma header_volume_is_completed_sum_witness :
  exists row answer rest,
    trace (run Scenarios.accepting Scenarios.finishedAt finishWorkout 0
               (Scenarios.live Scenarios.legDay 3600))
    = (InsertWorkout row, answer) :: rest
    /\ WorkoutRow.total_volume_kg row == 500.
Proof.
  destruct (header_volume_is_completed_sum
              Scenarios.accepting Scenarios.finishedAt
              (Scenarios.live Scenarios.legDay 3600) Scenarios.legDay eq_refl)
    as [row [answer [rest [Htrace [_ [_ H500]]]]]].
  exists row, answer, rest. split; [exact Htrace|].
  apply (H500 Scenarios.set_100x5 100 5); reflexivity.
Defined.

(** C2. When the header write fails, [finishWorkout] is aborted: the header
    write is the only request issued (no exercise or set write is attempted),
    the live Session stays as it was, [isFinishing] is false once the call has
    returned, and the call rejects with the failure of the write. *)
Theorem header_failure_aborts_finish (sto : storage) (now : string)
  (s : WorkoutState.t) (a : ActiveWorkoutSession.t) (e : Error) :
  activeSession s = Some a ->
  sto 0%nat (InsertWorkout (workoutRow a (elapsedSeconds s) now))
  = RespError e ->
  let r := run sto now finishWorkout 0 s in
  result r = Rejected e
  /\ trace r
     = [ (InsertWorkout (workoutRow a (elapsedSeconds s) now), RespError e) ]
  /\ Forall (fun ev => isExerciseOrSetWrite ev = false) (trace r)
  /\ activeSession (final r) = Some a
  /\ isFinishing (final r) = false
  /\ elapsedSeconds (final r) = elapsedSeconds s
  /\ restTimer (final r) = restTimer s.
Proof.
  intros Ha Hsto r. subst r.
  rewrite (run_finishWorkout_header_error sto now s a e Ha Hsto).
  unfold result, trace, final. simpl.
  repeat split; try reflexivity; try assumption.
  repeat constructor.
Qed.

Lemma header_failure_aborts_finish_witness :
  let r := run Scenarios.headerDown Scenarios.finishedAt finishWorkout 0
               (Scenarios.live Scenarios.fullBody 3600) in
  result r = Rejected "network request failed"%string
  /\ List.length (trace r) = 1%nat
  /\ activeSession (final r) = Some Scenarios.fullBody
  /\ isFinishing (final r) = false.
Proof.
  destruct (header_failure_aborts_finish
              Scenarios.headerDown Scenarios.finishedAt
              (Scenarios.live Scenarios.fullBody 3600) Scenarios.fullBody
              "network request failed"%string eq_refl eq_refl)
    as [Hres [Htrace [_ [Hlive [Hfin _]]]]].
  split; [exact Hres|]. split; [rewrite Htrace; reflexivity|].
  split; [exact Hlive|exact Hfin].
Defined.

Lemma skipped_segment_is_header_only (workout_id : string)
  (ex : WorkoutExercise.t) (segment : list event) :
  exerciseSegment workout_id ex segment ->
  forall q e, hd_error segment = Some (q, RespError e) ->
  segment
  = [ (InsertWorkoutExercise (exerciseRow workout_id ex), RespError e) ].
Proof.
  intros Hseg q e Hhd. destruct Hseg as [e'|wEx_id r]; simpl in Hhd.
  - injection Hhd as _ He. subst e'. reflexivity.
  - discriminate Hhd.
Qed.

(** C3. With the header written, [finishWorkout] resolves and clears the live
    Session whatever the answers to the later writes.  The trace is the header
    write, then one segment per exercise with a completed set, in order, then
    writes that are neither exercise nor set writes; the segment of an
    exercise whose exercise-header write was answered with an error is that
    write alone, its batch of sets is never sent, and the segments of the
    exercises after it follow. *)
Theorem exercise_failure_is_absorbed (sto : storage) (now : string)
  (s : WorkoutState.t) (a : ActiveWorkoutSession.t) (workout_id : string) :
  activeSession s = Some a ->
  sto 0%nat (InsertWorkout (workoutRow a (elapsedSeconds s) now))
  = RespData workout_id ->
  let r := run sto now finishWorkout 0 s in
  result r = Resolved tt
  /\ activeSession (final r) = None
  /\ isFinishing (final r) = false
  /\ elapsedSeconds (final r) = 0
  /\ exists segments tail,
       trace r
       = (InsertWorkout (workoutRow a (elapsedSeconds s) now),
          RespData workout_id) :: List.concat segments ++ tail
       /\ Forall2
            (fun ex segment =>
               exerciseSegment workout_id ex segment
               /\ forall q e,
                    hd_error segment = Some (q, RespError e) ->
                    segment
                    = [ (InsertWorkoutExercise (exerciseRow workout_id ex),
                         RespError e) ])
            (completedExercises a) segments
       /\ Forall (fun ev => isExerciseOrSetWrite ev = false) tail.
Proof.
  intros Ha Hsto r. subst r.
  destruct (run_finishWorkout_header_ok sto now s a workout_id Ha Hsto)
    as [segments [tail [Hrun [Hsegs Htail]]]].
  rewrite Hrun. unfold result, final, trace. simpl.
  repeat (split; [reflexivity|]).
  exists segments, tail. split; [reflexivity|]. split; [|exact Htail].
  apply (Forall2_impl _ (R1 := exerciseSegment workout_id)); [|exact Hsegs].
  intros ex segment Hseg. split; [exact Hseg|].
  apply skipped_segment_is_header_only. exact Hseg.
Qed.

Lemma exercise_failure_is_absorbed_witness :
  let r := run Scenarios.refusingE Scenarios.finishedAt finishWorkout 0
               (Scenarios.live Scenarios.fullBody 3600) in
  result r = Resolved tt
  /\ activeSession (final r) = None
  /\ map fst (trace r)
     = [ InsertWorkout
           (workoutRow Scenarios.fullBody 3600 Scenarios.finishedAt);
         InsertWorkoutExercise (exerciseRow "w2" Scenarios.exercise_E);
         InsertWorkoutExercise (exerciseRow "w2" Scenarios.exercise_G);
         InsertWorkoutSets (setRows "e3" Scenarios.exercise_G);
         UpdateTemplateLastUsed "t1" Scenarios.finishedAt ].
Proof.
  destruct (exercise_failure_is_absorbed
              Scenarios.refusingE Scenarios.finishedAt
              (Scenarios.live Scenarios.fullBody 3600) Scenarios.fullBody
              "w2"%string eq_refl eq_refl)
    as [Hres [Hnone _]].
  split; [exact Hres|]. split; [exact Hnone|]. reflexivity.
Defined.

(** *** Overlapping calls *)

















End CommitFacts.

(** * Part III: further properties of the code *)

(** ** The plate calculator *)

Module PlateFacts.
Import Calculations Plates.

Lemma sideLoad_snoc (ps : list PlateCount) (e : PlateCount) :
  sideLoad (ps ++ [e]) = sideLoad ps + weight e * count e.
Proof. unfold sideLoad. rewrite fold_left_app. reflexivity. Qed.

Lemma floor_bounds (x p : number) :
  0 < p ->
  Math_floor (x / p) * p <= x /\ x < (Math_floor (x / p) + 1) * p.
Proof.
  intro Hp. unfold Math_floor.
  assert (Hx : x / p * p == x).
  { field. intro E. rewrite E in Hp. apply (Qlt_irrefl 0 Hp). }
  pose proof (Qfloor_le (x / p)) as Hlo.
  pose proof (Qlt_floor (x / p)) as Hhi.
  rewrite inject_Z_plus in Hhi. change (inject_Z 1) with 1 in Hhi.
  split.
  - rewrite <- Hx at 2. apply Qmult_le_compat_r; [exact Hlo|].
    apply Qlt_le_weak. exact Hp.
  - rewrite <- Hx at 1. apply Qmult_lt_compat_r; assumption.
Qed.

Lemma plateStep_pos (rem : number) (ps : list PlateCount) (p : number) :
  0 < p -> Qgtb (Math_floor (rem / p)) 0 = true ->
  plateStep (rem, ps) p
  = (rem - Math_floor (rem / p) * p,
     ps ++ [{| weight := p; count := Math_floor (rem / p) |}])
  /\ 1 <= Math_floor (rem / p).
Proof.
  intros Hp Hc. unfold plateStep. rewrite Hc. split; [reflexivity|].
  apply Qgtb_spec in Hc. unfold Math_floor in *.
  change 0 with (inject_Z 0) in Hc. rewrite <- Zlt_Qlt in Hc.
  change 1 with (inject_Z 1). rewrite <- Zle_Qle. lia.
Qed.

Lemma plateStep_none (rem : number) (ps : list PlateCount) (p : number) :
  Qgtb (Math_floor (rem / p)) 0 = false ->
  plateStep (rem, ps) p = (rem, ps) /\ Math_floor (rem / p) <= 0.
Proof.
  intro Hc. unfold plateStep. rewrite Hc. split; [reflexivity|].
  destruct (Qlt_le_dec 0 (Math_floor (rem / p))) as [H|H]; [|exact H].
  apply Qgtb_spec in H. congruence.
Qed.

(** One plate: the load is conserved, a non-negative rest stays non-negative,
    does not grow and ends below the plate; a rest that is not positive is
    left alone. *)
Lemma plateStep_spec (plates : list number) (rem : number)
  (ps : list PlateCount) (p : number) :
  0 < p -> In p plates ->
  exists added,
    snd (plateStep (rem, ps) p) = ps ++ added
    /\ Forall (loaded plates) added
    /\ fst (plateStep (rem, ps) p) + sideLoad (snd (plateStep (rem, ps) p))
       == rem + sideLoad ps
    /\ (0 <= rem ->
        0 <= fst (plateStep (rem, ps) p)
        /\ fst (plateStep (rem, ps) p) <= rem
        /\ fst (plateStep (rem, ps) p) < p)
    /\ (rem <= 0 -> plateStep (rem, ps) p = (rem, ps)).
Proof.
  intros Hp Hin.
  destruct (floor_bounds rem p Hp) as [Hlo Hhi].
  destruct (Qgtb (Math_floor (rem / p)) 0) eqn:Hc.
  - destruct (plateStep_pos rem ps p Hp Hc) as [Hstep Hone].
    rewrite Hstep. simpl.
    exists [{| weight := p; count := Math_floor (rem / p) |}].
    split; [reflexivity|]. split.
    { constructor; [|constructor]. split; [exact Hin|]. split; [exact Hone|].
      exists (Qfloor (rem / p)). reflexivity. }
    split.
    { rewrite sideLoad_snoc. simpl. ring. }
    split.
    { intro Hrem. split; [lra|]. split; [|lra].
      assert (0 <= Math_floor (rem / p) * p).
      { apply Qmult_le_0_compat; lra. }
      lra. }
    intro Hrem. exfalso.
    assert (p <= Math_floor (rem / p) * p).
    { rewrite <- (Qmult_1_l p) at 1. apply Qmult_le_compat_r; lra. }
    lra.
  - destruct (plateStep_none rem ps p Hc) as [Hstep Hzero].
    rewrite Hstep. simpl. exists []. split; [symmetry; apply app_nil_r|].
    split; [constructor|]. split; [reflexivity|].
    split; [|reflexivity].
    intro Hrem. split; [exact Hrem|]. split; [lra|].
    assert ((Math_floor (rem / p) + 1) * p <= 1 * p).
    { apply Qmult_le_compat_r; lra. }
    lra.
Qed.

Lemma plateLoop_spec (plates : list number) (l : list number) :
  Forall (fun p => 0 < p) l -> incl l plates ->
  forall acc : number * list PlateCount,
  exists added,
    snd (fold_left plateStep l acc) = snd acc ++ added
    /\ Forall (loaded plates) added
    /\ fst (fold_left plateStep l acc) + sideLoad (snd (fold_left plateStep l acc))
       == fst acc + sideLoad (snd acc)
    /\ (0 <= fst acc ->
        0 <= fst (fold_left plateStep l acc)
        /\ fst (fold_left plateStep l acc) <= fst acc
        /\ Forall (fun p => fst (fold_left plateStep l acc) < p) l)
    /\ (fst acc <= 0 -> fold_left plateStep l acc = acc).
Proof.
  induction 1 as [|p l Hp Hl IH]; intros Hincl [rem ps].
  - simpl. exists []. split; [symmetry; apply app_nil_r|].
    split; [constructor|]. split; [reflexivity|].
    split; [|reflexivity]. intro Hrem. split; [exact Hrem|].
    split; [lra|constructor].
  - assert (Hin : In p plates) by (apply Hincl; left; reflexivity).
    assert (Hincl' : incl l plates).
    { intros x Hx. apply Hincl. right. exact Hx. }
    destruct (plateStep_spec plates rem ps p Hp Hin)
      as [added1 [Hps1 [Hadd1 [Hsum1 [Hnonneg1 Hneg1]]]]].
    cbn [fold_left fst snd].
    destruct (plateStep (rem, ps) p) as [rem1 ps1] eqn:E.
    cbn [fst snd] in *.
    destruct (IH Hincl' (rem1, ps1))
      as [added2 [Hps2 [Hadd2 [Hsum2 [Hnonneg2 Hneg2]]]]].
    cbn [fst snd] in *.
    exists (added1 ++ added2).
    split; [rewrite Hps2, Hps1; symmetry; apply app_assoc|].
    split; [apply Forall_app; split; assumption|].
    split; [rewrite Hsum2; exact Hsum1|].
    split.
    + intro Hrem. destruct (Hnonneg1 Hrem) as [H0 [Hle Hlt]].
      destruct (Hnonneg2 H0) as [H0' [Hle' Hall]].
      split; [exact H0'|]. split; [lra|].
      constructor; [lra|exact Hall].
    + intro Hrem. specialize (Hneg1 Hrem). injection Hneg1 as -> ->.
      apply Hneg2. exact Hrem.
Qed.

Lemma calculatePlates_loop (totalKg barWeightKg : number) :
  exists acc,
    calculatePlates totalKg barWeightKg
    = {| perSide := snd (fold_left plateStep STANDARD_PLATES_KG acc);
         remainder :=
           Math_round (fst (fold_left plateStep STANDARD_PLATES_KG acc) * 100)
           / 100 |}
    /\ fst acc = (totalKg - barWeightKg) / 2
    /\ snd acc = [].
Proof.
  unfold calculatePlates.
  match goal with
  | |- context [fold_left plateStep STANDARD_PLATES_KG ?a] => exists a
  end.
  split; [|split; reflexivity].
  match goal with
  | |- context [fold_left plateStep STANDARD_PLATES_KG ?a] =>
      destruct (fold_left plateStep STANDARD_PLATES_KG a)
  end.
  reflexivity.
Qed.

Lemma standard_plates_positive : Forall (fun p => 0 < p) STANDARD_PLATES_KG.
Proof. repeat constructor. Qed.

Lemma Math_round_comp (x y : number) : x == y -> Math_round x = Math_round y.
Proof. intro H. unfold Math_round. rewrite H. reflexivity. Qed.

(** X1. For a total not below the bar, [calculatePlates] loads only plates of
    the standard list, each a whole number of times and at least once; what it
    leaves unloaded per side is at least 0 and less than the smallest plate
    (1.25), and the reported remainder is that rest rounded to two decimals,
    between 0 and 1.25. *)
Theorem calculatePlates_accounts_for_load (totalKg barWeightKg : number) :
  barWeightKg <= totalKg ->
  let r := calculatePlates totalKg barWeightKg in
  let rest := (totalKg - barWeightKg) / 2 - sideLoad (perSide r) in
  Forall (loaded STANDARD_PLATES_KG) (perSide r)
  /\ 0 <= rest /\ rest < 5 # 4
  /\ remainder r == Math_round (rest * 100) / 100
  /\ 0 <= remainder r /\ remainder r <= 5 # 4.
Proof.
  intros Hle r rest. subst r rest.
  destruct (calculatePlates_loop totalKg barWeightKg) as [acc [Hcalc [Hrem0 Hps0]]].
  rewrite Hcalc. cbn [perSide remainder].
  destruct (plateLoop_spec STANDARD_PLATES_KG STANDARD_PLATES_KG
              standard_plates_positive (incl_refl _) acc)
    as [added [Hps [Hadd [Hsum [Hnonneg _]]]]].
  rewrite Hrem0, Hps0 in *. clear Hrem0 Hps0 Hcalc.
  destruct (fold_left plateStep STANDARD_PLATES_KG acc) as [rem ps].
  cbn [fst snd app] in *. subst ps.
  assert (H0 : 0 <= (totalKg - barWeightKg) / 2).
  { apply Qle_shift_div_l; lra. }
  destruct (Hnonneg H0) as [Hrem0 [_ Hall]].
  assert (Hsmall : rem < 5 # 4).
  { rewrite Forall_forall in Hall. apply Hall. simpl. tauto. }
  assert (Hrest : (totalKg - barWeightKg) / 2 - sideLoad added == rem).
  { unfold sideLoad in Hsum at 2. simpl in Hsum. lra. }
  split; [exact Hadd|]. split; [lra|]. split; [lra|].
  split.
  { rewrite (Math_round_comp _ _ (Qmult_comp _ _ Hrest _ _ (Qeq_refl 100))).
    reflexivity. }
  unfold Math_round.
  assert (Hlo : (0 <= Qfloor (rem * 100 + (1 # 2)))%Z).
  { apply (Qfloor_resp_le 0). lra. }
  assert (Hhi : (Qfloor (rem * 100 + (1 # 2)) <= 125)%Z).
  { apply (Qfloor_resp_le _ (251 # 2)). lra. }
  rewrite Zle_Qle in Hlo, Hhi.
  change (inject_Z 0) with 0 in Hlo. change (inject_Z 125) with 125 in Hhi.
  split.
  - apply Qle_shift_div_l; lra.
  - apply Qle_shift_div_r; lra.
Qed.

Lemma calculatePlates_accounts_for_load_witness :
  let r := calculatePlates 61 20 in
  Forall (loaded STANDARD_PLATES_KG) (perSide r)
  /\ (61 - 20) / 2 - sideLoad (perSide r) < 5 # 4
  /\ 0 <= remainder r.
Proof.
  assert (H : 20 <= 61) by (unfold Qle; simpl; lia).
  destruct (calculatePlates_accounts_for_load 61 20 H)
    as [Hl [_ [Hs [_ [Hr _]]]]].
  split; [exact Hl|]. split; [exact Hs|exact Hr].
Defined.

(** X2. For a total at or below the bar, [calculatePlates] loads no plate and
    does not clamp: the remainder is the (non-positive) half difference
    rounded to two decimals. *)
Theorem calculatePlates_at_or_below_bar (totalKg barWeightKg : number) :
  totalKg <= barWeightKg ->
  perSide (calculatePlates totalKg barWeightKg) = []
  /\ remainder (calculatePlates totalKg barWeightKg)
     = Math_round ((totalKg - barWeightKg) / 2 * 100) / 100
  /\ remainder (calculatePlates totalKg barWeightKg) <= 0.
Proof.
  intro Hle.
  assert (H0 : (totalKg - barWeightKg) / 2 <= 0).
  { apply Qle_shift_div_r; lra. }
  destruct (calculatePlates_loop totalKg barWeightKg) as [acc [Hcalc [Hrem0 Hps0]]].
  rewrite Hcalc. cbn [perSide remainder].
  destruct (plateLoop_spec STANDARD_PLATES_KG STANDARD_PLATES_KG
              standard_plates_positive (incl_refl _) acc)
    as [_ [_ [_ [_ [_ Hsame]]]]].
  rewrite Hrem0 in Hsame. rewrite (Hsame H0), Hps0, Hrem0.
  split; [reflexivity|]. split; [reflexivity|].
  unfold Math_round.
  assert (Hhi : (Qfloor ((totalKg - barWeightKg) / 2 * 100 + (1 # 2)) <= 0)%Z).
  { apply (Qfloor_resp_le _ (1 # 2)). lra. }
  rewrite Zle_Qle in Hhi. change (inject_Z 0) with 0 in Hhi.
  apply Qle_shift_div_r; lra.
Qed.

Lemma calculatePlates_at_or_below_bar_witness :
  perSide (calculatePlates 15 20) = []
  /\ remainder (calculatePlates 15 20) <= 0.
Proof.
  assert (H : 15 <= 20) by (unfold Qle; simpl; lia).
  destruct (calculatePlates_at_or_below_bar 15 20 H) as [Hp [_ Hr]].
  split; [exact Hp|exact Hr].
Defined.

End PlateFacts.

(** ** Macro totals and formatting *)

Module HelperFacts.
Import Observe Formatting Macros.



Lemma floor_of_fraction (x : number) : 0 <= x -> x < 1 -> Qfloor x = 0%Z.
Proof.
  intros H0 H1.
  pose proof (Qfloor_resp_le 0 x H0) as Hlo.
  change (Qfloor 0) with 0%Z in Hlo.
  pose proof (Qfloor_le x) as Hle.
  assert (Hlt : inject_Z (Qfloor x) < inject_Z 1).
  { change (inject_Z 1) with 1. apply Qle_lt_trans with x; assumption. }
  rewrite <- Zlt_Qlt in Hlt. lia.
Qed.

Lemma rem_small (x y : number) : 0 <= x -> x < y -> rem x y == x.
Proof.
  intros H0 Hlt. unfold rem, Math_trunc.
  assert (Hy : 0 < y) by lra.
  assert (Hq0 : 0 <= x / y) by (apply Qle_shift_div_l; lra).
  assert (Hq1 : x / y < 1) by (apply Qlt_shift_div_r; lra).
  assert (E : Qle_bool 0 (x / y) = true) by (apply Qle_bool_iff; exact Hq0).
  rewrite E, (floor_of_fraction _ Hq0 Hq1).
  change (inject_Z 0) with 0. ring.
Qed.

(** X4. Below one hour [formatDuration] and [formatRestTimer] render a number
    of seconds in the same way, whatever the number-to-string conversion:
    "0:00" up to zero, minutes and two-digit seconds above. *)
Theorem formatDuration_below_an_hour (String_ : number -> string)
  (t : number) :
  t < 3600 ->
  formatDuration String_ t = formatRestTimer String_ t
  /\ (t <= 0 -> formatDuration String_ t = "0:00"%string).
Proof.
  intro Hlt. unfold formatDuration, formatRestTimer.
  destruct (Qlt_le_dec 0 t) as [Hpos|Hneg].
  - assert (E1 : Qeq_bool t 0 || Qgtb 0 t = false).
    { apply orb_false_iff. split.
      - destruct (Qeq_bool t 0) eqn:E; [|reflexivity].
        apply Qeq_bool_iff in E. lra.
      - destruct (Qgtb 0 t) eqn:E; [|reflexivity].
        apply Qgtb_spec in E. lra. }
    assert (E2 : Qleb t 0 = false).
    { destruct (Qleb t 0) eqn:E; [|reflexivity]. apply Qleb_spec in E. lra. }
    rewrite E1, E2.
    assert (Hh : Calculations.Math_floor (t / 3600) = 0).
    { unfold Calculations.Math_floor. rewrite floor_of_fraction; [reflexivity| |].
      - apply Qle_shift_div_l; lra.
      - apply Qlt_shift_div_r; lra. }
    rewrite Hh. change (Qgtb 0 0) with false. cbv iota.
    assert (Hm : Calculations.Math_floor (rem t 3600 / 60)
                 = Calculations.Math_floor (t / 60)).
    { unfold Calculations.Math_floor.
      rewrite (rem_small t 3600); [reflexivity|lra|exact Hlt]. }
    rewrite Hm. split; [reflexivity|]. intro H. lra.
  - assert (E1 : Qeq_bool t 0 || Qgtb 0 t = true).
    { destruct (Qeq_bool t 0) eqn:E; [reflexivity|]. simpl.
      apply Qgtb_spec. destruct (Qlt_le_dec t 0) as [H|H]; [exact H|].
      exfalso. assert (Heq : t == 0) by lra.
      apply Qeq_bool_iff in Heq. congruence. }
    assert (E2 : Qleb t 0 = true) by (apply Qleb_spec; exact Hneg).
    rewrite E1, E2. split; reflexivity.
Qed.

Lemma formatDuration_below_an_hour_witness :
  formatDuration showWhole 67 = "1:07"%string
  /\ formatRestTimer showWhole 67 = "1:07"%string.
Proof.
  assert (H : 67 < 3600) by reflexivity.
  split; [|reflexivity].
  rewrite (proj1 (formatDuration_below_an_hour showWhole 67 H)).
  reflexivity.
Defined.

End HelperFacts.

(** ** The two clocks *)

Module ClockFacts.
Import WorkoutState Store SessionScreen.

Lemma ticks_running (n : nat) :
  forall s : WorkoutState.t,
    inject_Z (Z.of_nat n) < RestTimer.remaining (restTimer s) ->
    RestTimer.isRunning (restTimer (ticks n s))
    = RestTimer.isRunning (restTimer s)
    /\ RestTimer.remaining (restTimer (ticks n s))
       == RestTimer.remaining (restTimer s) - inject_Z (Z.of_nat n)
    /\ RestTimer.total (restTimer (ticks n s)) = RestTimer.total (restTimer s)
    /\ RestTimer.exerciseId (restTimer (ticks n s))
       = RestTimer.exerciseId (restTimer s).
Proof.
  induction n as [|n IH]; intros s Hlt.
  - simpl. repeat split; try reflexivity. change (inject_Z 0) with 0. lra.
  - rewrite Nat2Z.inj_succ in *. unfold Z.succ in *.
    rewrite inject_Z_plus in *. change (inject_Z 1) with 1 in *.
    assert (Hpos : 0 <= inject_Z (Z.of_nat n)).
    { change 0 with (inject_Z 0). rewrite <- Zle_Qle. lia. }
    assert (Hgt : 1 < RestTimer.remaining (restTimer s)) by lra.
    pose proof (TimerFacts.tickTimer_running s Hgt) as Ht.
    cbn [ticks].
    destruct (IH (tickTimer s)) as [Hrun [Hrem [Htot Hex]]].
    { rewrite Ht. simpl. lra. }
    rewrite Hrun, Hrem, Htot, Hex, Ht. simpl.
    repeat split; try reflexivity. lra.
Qed.

Lemma ticks_keep_total (n : nat) :
  forall s : WorkoutState.t,
    RestTimer.total (restTimer (ticks n s)) = RestTimer.total (restTimer s)
    /\ RestTimer.exerciseId (restTimer (ticks n s))
       = RestTimer.exerciseId (restTimer s).
Proof.
  induction n as [|n IH]; intro s; [split; reflexivity|].
  cbn [ticks]. destruct (IH (tickTimer s)) as [Ht He]. rewrite Ht, He.
  unfold tickTimer.
  destruct (Qleb (RestTimer.remaining (restTimer s) - 1) 0);
    split; reflexivity.
Qed.

Lemma countdown_state (seconds : number) (exerciseId : option string)
  (s : WorkoutState.t) (n : nat) :
  0 < seconds ->
  let t := restTimer (ticks n (startRestTimer seconds exerciseId s)) in
  RestTimer.total t = seconds
  /\ RestTimer.exerciseId t = exerciseId
  /\ (inject_Z (Z.of_nat n) < seconds ->
      RestTimer.isRunning t = true
      /\ RestTimer.remaining t == seconds - inject_Z (Z.of_nat n))
  /\ (seconds <= inject_Z (Z.of_nat n) ->
      RestTimer.isRunning t = false /\ RestTimer.remaining t = 0).
Proof.
  intros Hpos t. subst t.
  destruct (ticks_keep_total n (startRestTimer seconds exerciseId s))
    as [Htot Hex].
  split; [exact Htot|]. split; [exact Hex|]. split.
  - intro Hlt.
    destruct (ticks_running n (startRestTimer seconds exerciseId s) Hlt)
      as [Hrun [Hrem _]].
    split; [exact Hrun|exact Hrem].
  - intro Hle.
    assert (Hn : (0 < n)%nat).
    { destruct n; [|lia]. change (inject_Z (Z.of_nat 0)) with 0 in Hle. lra. }
    rewrite (TimerFacts.ticks_complete n
               (startRestTimer seconds exerciseId s) Hn Hle).
    split; reflexivity.
Qed.

(** X5. A countdown started with [seconds] > 0 is, after [n] ticks, running
    with [seconds − n] remaining as long as n < seconds, and stopped with 0
    remaining from then on; its total stays [seconds] and its exercise
    reference stays the one it was started with. *)
Theorem countdown_after_ticks (seconds : number)
  (exerciseId : option string) (s : WorkoutState.t) (n : nat) :
  0 < seconds ->
  let t := restTimer (ticks n (startRestTimer seconds exerciseId s)) in
  RestTimer.total t = seconds
  /\ RestTimer.exerciseId t = exerciseId
  /\ (inject_Z (Z.of_nat n) < seconds ->
      RestTimer.isRunning t = true
      /\ RestTimer.remaining t == seconds - inject_Z (Z.of_nat n))
  /\ (seconds <= inject_Z (Z.of_nat n) ->
      RestTimer.isRunning t = false /\ RestTimer.remaining t = 0).
Proof. apply countdown_state. Qed.

Lemma countdown_after_ticks_witness :
  let t := restTimer (ticks 40 (startRestTimer 90 (Some "e1"%string)
                                  Scenarios.lastSecond)) in
  RestTimer.isRunning t = true /\ RestTimer.remaining t == 50.
Proof.
  assert (Hpos : 0 < 90) by reflexivity.
  destruct (countdown_after_ticks 90 (Some "e1"%string) Scenarios.lastSecond
              40 Hpos) as [_ [_ [Hrun _]]].
  assert (Hlt : inject_Z (Z.of_nat 40) < 90) by reflexivity.
  destruct (Hrun Hlt) as [H1 H2]. split; [exact H1|].
  rewrite H2. reflexivity.
Defined.

(** X6. The fill of the rest-timer bar stays between 0 and 1 through a
    countdown started with [seconds] > 0: it is 1 at the start and 0 once the
    countdown has completed; with a total of 0 (no countdown, or after a stop)
    it is 0. *)
Theorem progress_within_bounds (seconds : number)
  (exerciseId : option string) (s : WorkoutState.t) (n : nat) :
  0 < seconds ->
  let t := restTimer (ticks n (startRestTimer seconds exerciseId s)) in
  0 <= progress (RestTimer.remaining t) (RestTimer.total t)
  /\ progress (RestTimer.remaining t) (RestTimer.total t) <= 1
  /\ (n = 0%nat ->
      progress (RestTimer.remaining t) (RestTimer.total t) == 1)
  /\ (seconds <= inject_Z (Z.of_nat n) ->
      progress (RestTimer.remaining t) (RestTimer.total t) == 0)
  /\ progress (RestTimer.remaining (restTimer (stopRestTimer s)))
              (RestTimer.total (restTimer (stopRestTimer s))) = 0.
Proof.
  intros Hpos t.
  destruct (countdown_state seconds exerciseId s n Hpos)
    as [Htot [_ [Hrun Hdone]]].
  fold t in Htot, Hrun, Hdone.
  assert (Hn : 0 <= inject_Z (Z.of_nat n)).
  { change 0 with (inject_Z 0). rewrite <- Zle_Qle. lia. }
  assert (Hp : progress (RestTimer.remaining t) (RestTimer.total t)
               = RestTimer.remaining t / seconds).
  { unfold progress. rewrite Htot.
    assert (E : Qgtb seconds 0 = true) by (apply Qgtb_spec; exact Hpos).
    rewrite E. reflexivity. }
  rewrite Hp.
  assert (Hrem : 0 <= RestTimer.remaining t
                 /\ RestTimer.remaining t <= seconds).
  { destruct (Qlt_le_dec (inject_Z (Z.of_nat n)) seconds) as [Hlt|Hle].
    - destruct (Hrun Hlt) as [_ Hr]. rewrite Hr. split; lra.
    - destruct (Hdone Hle) as [_ Hr]. rewrite Hr. split; lra. }
  destruct Hrem as [Hr0 Hr1].
  split; [apply Qle_shift_div_l; lra|].
  split; [apply Qle_shift_div_r; lra|].
  split.
  - intros ->. subst t. simpl. field. lra.
  - split; [|reflexivity].
    intro Hle. destruct (Hdone Hle) as [_ Hr]. rewrite Hr.
    unfold Qdiv. apply Qmult_0_l.
Qed.

Lemma progress_within_bounds_witness :
  let t := restTimer (ticks 30 (startRestTimer 90 None Scenarios.lastSecond)) in
  0 <= progress (RestTimer.remaining t) (RestTimer.total t)
  /\ progress (RestTimer.remaining t) (RestTimer.total t) <= 1.
Proof.
  assert (Hpos : 0 < 90) by reflexivity.
  destruct (progress_within_bounds 90 None Scenarios.lastSecond 30 Hpos)
    as [H0 [H1 _]].
  split; [exact H0|exact H1].
Defined.

(** X7. "+30s" on the screen starts a fresh countdown of remaining + 30
    seconds: the total becomes that number too, the exercise reference of the
    running timer is dropped, and the timer then runs for as many ticks as
    that number says before it stops. *)
Theorem add30_restarts_countdown (s : WorkoutState.t) (n : nat) :
  0 <= RestTimer.remaining (restTimer s) ->
  let extended := RestTimer.remaining (restTimer s) + 30 in
  restTimer (onAdd30 s)
  = {| RestTimer.isRunning := true; RestTimer.remaining := extended;
       RestTimer.total := extended; RestTimer.exerciseId := None |}
  /\ (inject_Z (Z.of_nat n) < extended ->
      RestTimer.isRunning (restTimer (ticks n (onAdd30 s))) = true)
  /\ (extended <= inject_Z (Z.of_nat n) ->
      restTimer (ticks n (onAdd30 s)) = finished extended None).
Proof.
  intros Hrem extended.
  assert (Hpos : 0 < extended) by (unfold extended; lra).
  destruct (countdown_state extended None s n Hpos)
    as [Htot [Hex [Hrun Hdone]]].
  split; [reflexivity|]. split.
  - intro Hlt. apply (Hrun Hlt).
  - intro Hle. destruct (Hdone Hle) as [H1 H2].
    unfold onAdd30. fold extended.
    destruct (restTimer (ticks n (startRestTimer extended None s)))
      as [r rem tot ex].
    simpl in *. subst. reflexivity.
Qed.

Lemma add30_restarts_countdown_witness :
  restTimer (onAdd30 Scenarios.lastSecond)
  = {| RestTimer.isRunning := true; RestTimer.remaining := 1 + 30;
       RestTimer.total := 1 + 30; RestTimer.exerciseId := None |}.
Proof.
  assert (H : 0 <= RestTimer.remaining (restTimer Scenarios.lastSecond)).
  { simpl. lra. }
  exact (proj1 (add30_restarts_countdown Scenarios.lastSecond 0 H)).
Defined.

(** X8. The test that guards the end-of-rest vibration holds for a countdown
    started with [seconds] > 0 exactly from the tick that completes it, and
    never for the timer left by [stopRestTimer], by [discardWorkout] or in the
    initial state. *)
Theorem restFinished_only_after_completion (seconds : number)
  (exerciseId : option string) (s : WorkoutState.t) (n : nat) :
  0 < seconds ->
  (restFinished (restTimer (ticks n (startRestTimer seconds exerciseId s)))
   = true
   <-> seconds <= inject_Z (Z.of_nat n))
  /\ restFinished (restTimer (stopRestTimer s)) = false
  /\ restFinished (restTimer (discardWorkout s)) = false
  /\ restFinished (restTimer initialState) = false.
Proof.
  intro Hpos.
  destruct (countdown_state seconds exerciseId s n Hpos)
    as [Htot [_ [Hrun Hdone]]].
  split; [|repeat split; reflexivity].
  unfold restFinished.
  destruct (Qlt_le_dec (inject_Z (Z.of_nat n)) seconds) as [Hlt|Hle].
  - destruct (Hrun Hlt) as [Hr _]. rewrite Hr.
    split; [discriminate|]. intro H. lra.
  - destruct (Hdone Hle) as [Hr Hz]. rewrite Hr, Hz, Htot. simpl.
    assert (E : Qgtb seconds 0 = true) by (apply Qgtb_spec; exact Hpos).
    rewrite E. split; [intros _; exact Hle|reflexivity].
Qed.

Lemma restFinished_only_after_completion_witness :
  restFinished (restTimer (ticks 60 (startRestTimer 60 None initialState)))
  = true.
Proof.
  assert (Hpos : 0 < 60) by reflexivity.
  apply (proj1 (restFinished_only_after_completion 60 None initialState 60
                  Hpos)).
  unfold Qle. simpl. lia.
Defined.

Lemma tickElapsed_iter (n : nat) :
  forall s : WorkoutState.t,
    elapsedSeconds (Nat.iter n tickElapsed s)
    == elapsedSeconds s + inject_Z (Z.of_nat n)
    /\ restTimer (Nat.iter n tickElapsed s) = restTimer s
    /\ activeSession (Nat.iter n tickElapsed s) = activeSession s
    /\ isFinishing (Nat.iter n tickElapsed s) = isFinishing s.
Proof.
  induction n as [|n IH]; intro s.
  - simpl. repeat split; try reflexivity. change (inject_Z 0) with 0. lra.
  - destruct (IH s) as [He [Hr [Ha Hf]]].
    change (Nat.iter (S n) tickElapsed s)
      with (tickElapsed (Nat.iter n tickElapsed s)).
    set (s' := Nat.iter n tickElapsed s) in *.
    change (elapsedSeconds (tickElapsed s')) with (elapsedSeconds s' + 1).
    change (restTimer (tickElapsed s')) with (restTimer s').
    change (activeSession (tickElapsed s')) with (activeSession s').
    change (isFinishing (tickElapsed s')) with (isFinishing s').
    repeat split; try assumption.
    rewrite Nat2Z.inj_succ. unfold Z.succ. rewrite inject_Z_plus.
    change (inject_Z 1) with 1. lra.
Qed.

Lemma ticks_frame (m : nat) :
  forall s : WorkoutState.t,
    elapsedSeconds (ticks m s) = elapsedSeconds s
    /\ activeSession (ticks m s) = activeSession s
    /\ isFinishing (ticks m s) = isFinishing s.
Proof.
  induction m as [|m IH]; intro s; [repeat split; reflexivity|].
  cbn [ticks]. destruct (IH (tickTimer s)) as [He [Ha Hf]].
  rewrite He, Ha, Hf. unfold tickTimer.
  destruct (Qleb (RestTimer.remaining (restTimer s) - 1) 0);
    repeat split; reflexivity.
Qed.

Lemma ticks_restTimer_only (m : nat) :
  forall s s' : WorkoutState.t,
    restTimer s = restTimer s' ->
    restTimer (ticks m s) = restTimer (ticks m s').
Proof.
  induction m as [|m IH]; intros s s' H; [exact H|].
  cbn [ticks]. apply IH. unfold tickTimer. rewrite H.
  destruct (Qleb (RestTimer.remaining (restTimer s') - 1) 0); reflexivity.
Qed.

(** X9. The elapsed clock and the rest timer do not disturb each other:
    [tickElapsed] and [tickTimer] commute; after [n] elapsed ticks and [m]
    timer ticks, in whatever state, the elapsed seconds have grown by [n], the
    rest timer is where [m] timer ticks alone take it, and the live Session
    and [isFinishing] are untouched. *)
Theorem clocks_are_independent (n m : nat) (s : WorkoutState.t) :
  tickTimer (tickElapsed s) = tickElapsed (tickTimer s)
  /\ elapsedSeconds (ticks m (Nat.iter n tickElapsed s))
     == elapsedSeconds s + inject_Z (Z.of_nat n)
  /\ restTimer (ticks m (Nat.iter n tickElapsed s)) = restTimer (ticks m s)
  /\ activeSession (ticks m (Nat.iter n tickElapsed s)) = activeSession s
  /\ isFinishing (ticks m (Nat.iter n tickElapsed s)) = isFinishing s.
Proof.
  destruct (tickElapsed_iter n s) as [He [Hr [Ha Hf]]].
  destruct (ticks_frame m (Nat.iter n tickElapsed s)) as [He' [Ha' Hf']].
  split.
  { unfold tickTimer, tickElapsed. simpl.
    destruct (Qleb (RestTimer.remaining (restTimer s) - 1) 0); reflexivity. }
  split; [rewrite He'; exact He|].
  split; [apply ticks_restTimer_only; exact Hr|].
  split; [rewrite Ha'; exact Ha|rewrite Hf'; exact Hf].
Qed.

End ClockFacts.

(** ** Mutations of the live Session *)

Module MutationFacts.
Import WorkoutState Store Observe Built.

Lemma with_exercises_same (a : ActiveWorkoutSession.t) :
  ActiveWorkoutSession.with_exercises (ActiveWorkoutSession.exercises a) a = a.
Proof. destruct a. reflexivity. Qed.

Lemma with_sets_same (ex : WorkoutExercise.t) :
  WorkoutExercise.with_sets (WorkoutExercise.sets ex) ex = ex.
Proof. destruct ex. reflexivity. Qed.

Lemma onExercises_fixed
  (f : list WorkoutExercise.t -> list WorkoutExercise.t)
  (s : WorkoutState.t) :
  f (exercisesOf s) = exercisesOf s -> onExercises f s = s.
Proof.
  unfold exercisesOf, onExercises. destruct s as [[a|] e r fin]; simpl.
  - intros ->. rewrite with_exercises_same. reflexivity.
  - reflexivity.
Qed.

Lemma map_fixed {A : Type} (f : A -> A) (l : list A) :
  (forall x, In x l -> f x = x) -> map f l = l.
Proof.
  induction l as [|x l IH]; intro H; simpl; [reflexivity|].
  rewrite (H x (or_introl eq_refl)), IH; [reflexivity|].
  intros y Hy. apply H. right. exact Hy.
Qed.

Lemma filter_fixed {A : Type} (p : A -> bool) (l : list A) :
  (forall x, In x l -> p x = true) -> filter p l = l.
Proof.
  induction l as [|x l IH]; intro H; simpl; [reflexivity|].
  rewrite (H x (or_introl eq_refl)), IH; [reflexivity|].
  intros y Hy. apply H. right. exact Hy.
Qed.

Lemma differs (a b : string) : a <> b -> negb (String.eqb a b) = true.
Proof.
  intro H. destruct (String.eqb a b) eqn:E; [|reflexivity].
  apply String.eqb_eq in E. contradiction.
Qed.

Lemma onSetsOf_unknown (exerciseId : string)
  (f : list WorkoutSet.t -> list WorkoutSet.t)
  (exs : list WorkoutExercise.t) :
  (forall ex, In ex exs -> WorkoutExercise.id ex <> exerciseId) ->
  onSetsOf exerciseId f exs = exs.
Proof.
  intro H. unfold onSetsOf. apply map_fixed. intros ex Hin.
  rewrite (differs _ _ (H ex Hin)). reflexivity.
Qed.

Lemma addSetTo_unknown (ids : nat -> string) (exerciseId : string)
  (exs : list WorkoutExercise.t) :
  (forall ex, In ex exs -> WorkoutExercise.id ex <> exerciseId) ->
  forall n, addSetTo ids n exerciseId exs = exs.
Proof.
  induction exs as [|ex exs IH]; intros H n; simpl; [reflexivity|].
  rewrite (differs _ _ (H ex (or_introl eq_refl))), IH; [reflexivity|].
  intros y Hy. apply H. right. exact Hy.
Qed.

Lemma unknown_exercise (ids : nat -> string) (exerciseId setId notes : string)
  (updates : PartialWorkoutSet.t) (s : WorkoutState.t) :
  (forall ex, In ex (exercisesOf s) -> WorkoutExercise.id ex <> exerciseId) ->
  completeSet exerciseId setId s = s
  /\ updateSet exerciseId setId updates s = s
  /\ removeSet exerciseId setId s = s
  /\ addSet ids exerciseId s = s
  /\ updateExerciseNotes exerciseId notes s = s
  /\ removeExercise exerciseId s = s.
Proof.
  intro H.
  unfold completeSet, updateSet, removeSet, addSet, updateExerciseNotes,
    removeExercise.
  repeat split; apply onExercises_fixed.
  - apply onSetsOf_unknown. exact H.
  - apply onSetsOf_unknown. exact H.
  - apply onSetsOf_unknown. exact H.
  - apply addSetTo_unknown. exact H.
  - apply map_fixed. intros ex Hin. rewrite (differs _ _ (H ex Hin)).
    reflexivity.
  - apply filter_fixed. intros ex Hin. apply differs. apply H. exact Hin.
Qed.

(** X10. A mutation addressed to an exercise id that no exercise of the live
    Session carries changes nothing: [completeSet], [updateSet], [removeSet],
    [addSet], [updateExerciseNotes] and [removeExercise] all return the state
    they were given. *)
Theorem unknown_exercise_id_is_a_noop (ids : nat -> string)
  (exerciseId setId notes : string) (updates : PartialWorkoutSet.t)
  (s : WorkoutState.t) :
  (forall ex, In ex (exercisesOf s) -> WorkoutExercise.id ex <> exerciseId) ->
  completeSet exerciseId setId s = s
  /\ updateSet exerciseId setId updates s = s
  /\ removeSet exerciseId setId s = s
  /\ addSet ids exerciseId s = s
  /\ updateExerciseNotes exerciseId notes s = s
  /\ removeExercise exerciseId s = s.
Proof. apply unknown_exercise. Qed.

Lemma unknown_exercise_id_is_a_noop_witness :
  updateSet "e9" "s1" Scenarios.reopen (Scenarios.live Scenarios.fullBody 0)
  = Scenarios.live Scenarios.fullBody 0.
Proof.
  refine (proj1 (proj2 (unknown_exercise_id_is_a_noop
           (Scenarios.idsFrom "n") "e9" "s1" "" Scenarios.reopen
           (Scenarios.live Scenarios.fullBody 0) _))).
  intros ex Hin. simpl in Hin.
  destruct Hin as [<-|[<-|[<-|[]]]]; discriminate.
Defined.

(** X11. A set mutation addressed to a set id that no set of the live Session
    carries changes nothing either, whatever the exercise id. *)
Theorem unknown_set_id_is_a_noop (exerciseId setId : string)
  (updates : PartialWorkoutSet.t) (s : WorkoutState.t) :
  (forall ex ws,
     In ex (exercisesOf s) -> In ws (WorkoutExercise.sets ex) ->
     WorkoutSet.id ws <> setId) ->
  completeSet exerciseId setId s = s
  /\ updateSet exerciseId setId updates s = s
  /\ removeSet exerciseId setId s = s.
Proof.
  intro H. unfold completeSet, updateSet, removeSet.
  repeat split; apply onExercises_fixed; unfold onSetsOf; apply map_fixed;
    intros ex Hin;
    destruct (negb (String.eqb (WorkoutExercise.id ex) exerciseId));
    try reflexivity.
  - rewrite map_fixed; [apply with_sets_same|].
    intros ws Hws. rewrite (differs _ _ (H ex ws Hin Hws)). reflexivity.
  - rewrite map_fixed; [apply with_sets_same|].
    intros ws Hws. rewrite (differs _ _ (H ex ws Hin Hws)). reflexivity.
  - rewrite filter_fixed; [apply with_sets_same|].
    intros ws Hws. apply differs. apply (H ex ws Hin Hws).
Qed.

Lemma unknown_set_id_is_a_noop_witness :
  removeSet "e1" "s9" (Scenarios.live Scenarios.legDay 0)
  = Scenarios.live Scenarios.legDay 0.
Proof.
  refine (proj2 (proj2 (unknown_set_id_is_a_noop
           "e1" "s9" Scenarios.reopen (Scenarios.live Scenarios.legDay 0) _))).
  intros ex ws Hin Hws. simpl in Hin. destruct Hin as [<-|[]].
  simpl in Hws. destruct Hws as [<-|[]]. discriminate.
Defined.

Lemma onExercises_onExercises
  (f g : list WorkoutExercise.t -> list WorkoutExercise.t)
  (s : WorkoutState.t) :
  onExercises f (onExercises g s) = onExercises (fun l => f (g l)) s.
Proof.
  unfold onExercises. destruct s as [[a|] e r fin]; reflexivity.
Qed.

Lemma onExercises_ext
  (f g : list WorkoutExercise.t -> list WorkoutExercise.t)
  (s : WorkoutState.t) :
  f (exercisesOf s) = g (exercisesOf s) -> onExercises f s = onExercises g s.
Proof.
  unfold onExercises, exercisesOf. destruct s as [[a|] e r fin]; simpl.
  - intros ->. reflexivity.
  - reflexivity.
Qed.

Lemma completing_commute (a b : string) (ws : WorkoutSet.t) :
  completing a (completing b ws) = completing b (completing a ws).
Proof.
  unfold completing.
  destruct (negb (String.eqb (WorkoutSet.id ws) a)) eqn:Ea,
           (negb (String.eqb (WorkoutSet.id ws) b)) eqn:Eb;
    simpl; rewrite ?Ea, ?Eb; reflexivity.
Qed.

Lemma completing_twice (a : string) (ws : WorkoutSet.t) :
  completing a (completing a ws) = completing a ws.
Proof.
  unfold completing.
  destruct (negb (String.eqb (WorkoutSet.id ws) a)) eqn:Ea;
    simpl; rewrite ?Ea; reflexivity.
Qed.

Lemma onSetsOf_map_commute (e e' : string)
  (F G : WorkoutSet.t -> WorkoutSet.t) (exs : list WorkoutExercise.t) :
  (forall ws, F (G ws) = G (F ws)) ->
  onSetsOf e (map F) (onSetsOf e' (map G) exs)
  = onSetsOf e' (map G) (onSetsOf e (map F) exs).
Proof.
  intro H. unfold onSetsOf. rewrite !map_map. apply map_ext. intro ex.
  destruct (negb (String.eqb (WorkoutExercise.id ex) e)) eqn:Ea,
           (negb (String.eqb (WorkoutExercise.id ex) e')) eqn:Eb;
    simpl; rewrite ?Ea, ?Eb; try reflexivity.
  unfold WorkoutExercise.with_sets. simpl. rewrite !map_map.
  rewrite (map_ext _ _ H). reflexivity.
Qed.

Lemma onSetsOf_map_twice (e : string) (F : WorkoutSet.t -> WorkoutSet.t)
  (exs : list WorkoutExercise.t) :
  (forall ws, F (F ws) = F ws) ->
  onSetsOf e (map F) (onSetsOf e (map F) exs) = onSetsOf e (map F) exs.
Proof.
  intro H. unfold onSetsOf. rewrite !map_map. apply map_ext. intro ex.
  destruct (negb (String.eqb (WorkoutExercise.id ex) e)) eqn:Ea;
    simpl; rewrite ?Ea; try reflexivity.
  unfold WorkoutExercise.with_sets. simpl. rewrite !map_map.
  rewrite (map_ext _ _ H). reflexivity.
Qed.

(** X12. [completeSet] is idempotent, and completions commute: completing two
    sets in either order gives the same state. *)
Theorem completeSet_idempotent_and_commutes
  (exerciseId setId exerciseId' setId' : string) (s : WorkoutState.t) :
  completeSet exerciseId setId (completeSet exerciseId setId s)
  = completeSet exerciseId setId s
  /\ completeSet exerciseId setId (completeSet exerciseId' setId' s)
     = completeSet exerciseId' setId' (completeSet exerciseId setId s).
Proof.
  unfold completeSet. rewrite !onExercises_onExercises. split.
  - apply onExercises_ext.
    apply (onSetsOf_map_twice exerciseId (completing setId)).
    apply completing_twice.
  - apply onExercises_ext.
    apply (onSetsOf_map_commute exerciseId exerciseId'
             (completing setId) (completing setId')).
    apply completing_commute.
Qed.

Lemma exercisesOf_onExercises_total
  (f : list WorkoutExercise.t -> list WorkoutExercise.t)
  (s : WorkoutState.t) :
  f [] = [] -> exercisesOf (onExercises f s) = f (exercisesOf s).
Proof.
  intro H. unfold exercisesOf, onExercises.
  destruct s as [[a|] e r fin]; simpl; [reflexivity|]. symmetry. exact H.
Qed.

Lemma onExercises_frame
  (f : list WorkoutExercise.t -> list WorkoutExercise.t)
  (s : WorkoutState.t) :
  elapsedSeconds (onExercises f s) = elapsedSeconds s
  /\ restTimer (onExercises f s) = restTimer s
  /\ isFinishing (onExercises f s) = isFinishing s
  /\ (activeSession s = None -> onExercises f s = s).
Proof.
  unfold onExercises. destruct s as [[a|] e r fin]; simpl;
    repeat split; try reflexivity. discriminate.
Qed.

Lemma onSetsOf_ids (exerciseId : string)
  (f : list WorkoutSet.t -> list WorkoutSet.t)
  (exs : list WorkoutExercise.t) :
  map WorkoutExercise.id (onSetsOf exerciseId f exs)
  = map WorkoutExercise.id exs.
Proof.
  unfold onSetsOf. rewrite map_map. apply map_ext. intro ex.
  destruct (negb (String.eqb (WorkoutExercise.id ex) exerciseId));
    reflexivity.
Qed.

Lemma addSetTo_ids (ids : nat -> string) (exerciseId : string)
  (exs : list WorkoutExercise.t) :
  forall n,
    map WorkoutExercise.id (addSetTo ids n exerciseId exs)
    = map WorkoutExercise.id exs.
Proof.
  induction exs as [|ex exs IH]; intro n; simpl; [reflexivity|].
  destruct (negb (String.eqb (WorkoutExercise.id ex) exerciseId)); simpl;
    rewrite IH; reflexivity.
Qed.

(** X13. The set-level mutations and [updateExerciseNotes] keep the exercises
    of the live Session in place: the list of exercise ids is the same before
    and after, in the same order.  No mutation touches the elapsed clock, the
    rest timer or [isFinishing], and without a live Session every mutation
    returns the state unchanged. *)
Theorem mutations_keep_exercises_in_place (ids : nat -> string)
  (exerciseId setId notes : string) (updates : PartialWorkoutSet.t)
  (s : WorkoutState.t) :
  let ops :=
    [ completeSet exerciseId setId; updateSet exerciseId setId updates;
      removeSet exerciseId setId; addSet ids exerciseId;
      updateExerciseNotes exerciseId notes ] in
  Forall (fun op =>
            map WorkoutExercise.id (exercisesOf (op s))
            = map WorkoutExercise.id (exercisesOf s)) ops
  /\ Forall (fun op =>
               elapsedSeconds (op s) = elapsedSeconds s
               /\ restTimer (op s) = restTimer s
               /\ isFinishing (op s) = isFinishing s
               /\ (activeSession s = None -> op s = s))
            (removeExercise exerciseId :: ops).
Proof.
  intro ops. subst ops. split.
  - unfold completeSet, updateSet, removeSet, addSet, updateExerciseNotes.
    repeat constructor;
      rewrite exercisesOf_onExercises_total by reflexivity.
    + apply onSetsOf_ids.
    + apply onSetsOf_ids.
    + apply onSetsOf_ids.
    + apply addSetTo_ids.
    + rewrite map_map. apply map_ext. intro ex.
      destruct (negb (String.eqb (WorkoutExercise.id ex) exerciseId));
        reflexivity.
  - repeat constructor; apply onExercises_frame.
Qed.

Lemma addSetTo_at (ids : nat -> string) (exerciseId : string)
  (exs : list WorkoutExercise.t) :
  forall n i ex,
    nth_error exs i = Some ex ->
    (WorkoutExercise.id ex <> exerciseId ->
     nth_error (addSetTo ids n exerciseId exs) i = Some ex)
    /\ (WorkoutExercise.id ex = exerciseId ->
        exists k newSet,
          nth_error (addSetTo ids n exerciseId exs) i
          = Some (WorkoutExercise.with_sets
                    (WorkoutExercise.sets ex ++ [newSet]) ex)
          /\ WorkoutSet.id newSet = ids k
          /\ WorkoutSet.exercise_id newSet
             = Some (WorkoutExercise.exercise_id ex)
          /\ WorkoutSet.set_number newSet
             = Some (of_index (List.length (WorkoutExercise.sets ex)) + 1)
          /\ WorkoutSet.tag newSet = normal
          /\ WorkoutSet.status newSet = pending
          /\ WorkoutSet.rpe newSet = None
          /\ (WorkoutExercise.sets ex = [] ->
              WorkoutSet.target_weight newSet = None
              /\ WorkoutSet.target_reps newSet = None
              /\ WorkoutSet.actual_weight newSet = None
              /\ WorkoutSet.actual_reps newSet = None)
          /\ (forall front lastSet,
                WorkoutExercise.sets ex = front ++ [lastSet] ->
                WorkoutSet.target_weight newSet
                = WorkoutSet.target_weight lastSet
                /\ WorkoutSet.target_reps newSet
                   = WorkoutSet.target_reps lastSet
                /\ WorkoutSet.actual_weight newSet
                   = WorkoutSet.actual_weight lastSet
                /\ WorkoutSet.actual_reps newSet
                   = WorkoutSet.actual_reps lastSet)).
Proof.
  induction exs as [|x exs IH]; intros n i ex Hnth.
  - destruct i; discriminate.
  - destruct i as [|i]; simpl in Hnth.
    + injection Hnth as ->. split.
      * intro Hne. simpl. rewrite (differs _ _ Hne). reflexivity.
      * intro Heq. simpl. rewrite Heq, String.eqb_refl. simpl.
        eexists n, _. split; [reflexivity|].
        simpl. repeat split; try reflexivity.
        -- rewrite H. reflexivity.
        -- rewrite H. reflexivity.
        -- rewrite H. reflexivity.
        -- rewrite H. reflexivity.
        -- rewrite H, length_app, Nat.add_sub, nth_error_app2 by lia.
           rewrite Nat.sub_diag. reflexivity.
        -- rewrite H, length_app, Nat.add_sub, nth_error_app2 by lia.
           rewrite Nat.sub_diag. reflexivity.
        -- rewrite H, length_app, Nat.add_sub, nth_error_app2 by lia.
           rewrite Nat.sub_diag. reflexivity.
        -- rewrite H, length_app, Nat.add_sub, nth_error_app2 by lia.
           rewrite Nat.sub_diag. reflexivity.
    + simpl.
      destruct (negb (String.eqb (WorkoutExercise.id x) exerciseId)); simpl.
      * apply IH. exact Hnth.
      * apply IH. exact Hnth.
Qed.

(** X14. [addSet] appends exactly one set to the addressed exercise and leaves
    the exercises with another id as they are.  The new set is pending, tagged
    normal, numbered count + 1, without effort rating, carries a generated id
    and the catalog reference of its exercise, and copies target and actual
    weight and reps from the set that was last (all four are empty when the
    exercise had no set). *)
Theorem addSet_appends_copy_of_last (ids : nat -> string)
  (s : WorkoutState.t) (i : nat) (ex : WorkoutExercise.t) :
  exerciseAt i s = Some ex ->
  (forall exerciseId,
     WorkoutExercise.id ex <> exerciseId ->
     exerciseAt i (addSet ids exerciseId s) = Some ex)
  /\ exists k newSet,
       exerciseAt i (addSet ids (WorkoutExercise.id ex) s)
       = Some (WorkoutExercise.with_sets
                 (WorkoutExercise.sets ex ++ [newSet]) ex)
       /\ WorkoutSet.id newSet = ids k
       /\ WorkoutSet.exercise_id newSet
          = Some (WorkoutExercise.exercise_id ex)
       /\ WorkoutSet.set_number newSet
          = Some (of_index (List.length (WorkoutExercise.sets ex)) + 1)
       /\ WorkoutSet.tag newSet = normal
       /\ WorkoutSet.status newSet = pending
       /\ WorkoutSet.rpe newSet = None
       /\ (WorkoutExercise.sets ex = [] ->
           WorkoutSet.target_weight newSet = None
           /\ WorkoutSet.target_reps newSet = None
           /\ WorkoutSet.actual_weight newSet = None
           /\ WorkoutSet.actual_reps newSet = None)
       /\ (forall front lastSet,
             WorkoutExercise.sets ex = front ++ [lastSet] ->
             WorkoutSet.target_weight newSet
             = WorkoutSet.target_weight lastSet
             /\ WorkoutSet.target_reps newSet
                = WorkoutSet.target_reps lastSet
             /\ WorkoutSet.actual_weight newSet
                = WorkoutSet.actual_weight lastSet
             /\ WorkoutSet.actual_reps newSet
                = WorkoutSet.actual_reps lastSet).
Proof.
  intro Hex.
  assert (Hof : forall exerciseId,
             exercisesOf (addSet ids exerciseId s)
             = addSetTo ids 0 exerciseId (exercisesOf s)).
  { intro exerciseId. unfold addSet.
    apply exercisesOf_onExercises_total. reflexivity. }
  unfold exerciseAt in *. split.
  - intros exerciseId Hne. rewrite Hof.
    apply (proj1 (addSetTo_at ids exerciseId (exercisesOf s) 0 i ex Hex)).
    exact Hne.
  - rewrite Hof.
    apply (proj2 (addSetTo_at ids (WorkoutExercise.id ex) (exercisesOf s)
                    0 i ex Hex)).
    reflexivity.
Qed.

Lemma addSet_appends_copy_of_last_witness :
  exists newSet,
    exerciseAt 0 (addSet (Scenarios.idsFrom "n") "e1"
                    (Scenarios.live Scenarios.legDay 0))
    = Some (WorkoutExercise.with_sets [Scenarios.set_100x5; newSet]
                                      Scenarios.exercise_E)
    /\ WorkoutSet.status newSet = pending
    /\ WorkoutSet.actual_weight newSet = Some 100.
Proof.
  destruct (proj2 (addSet_appends_copy_of_last (Scenarios.idsFrom "n")
                     (Scenarios.live Scenarios.legDay 0) 0
                     Scenarios.exercise_E eq_refl))
    as [k [newSet [Hat [_ [_ [_ [_ [Hst [_ [_ Hlast]]]]]]]]]].
  exists newSet. split; [exact Hat|]. split; [exact Hst|].
  destruct (Hlast [] Scenarios.set_100x5 eq_refl) as [_ [_ [Hw _]]].
  exact Hw.
Defined.

Lemma removeExercise_exercises (exerciseId : string) (s : WorkoutState.t) :
  exercisesOf (removeExercise exerciseId s)
  = filter (fun ex => negb (String.eqb (WorkoutExercise.id ex) exerciseId))
           (exercisesOf s).
Proof.
  unfold removeExercise. apply exercisesOf_onExercises_total. reflexivity.
Qed.

(** X15. After [removeExercise] no exercise of the live Session carries the
    removed id, the exercises with another id are all still there, and a later
    mutation addressed to the removed id changes nothing. *)
Theorem removed_exercise_is_gone (ids : nat -> string)
  (exerciseId setId notes : string) (updates : PartialWorkoutSet.t)
  (s : WorkoutState.t) :
  let s' := removeExercise exerciseId s in
  (forall ex, In ex (exercisesOf s') -> WorkoutExercise.id ex <> exerciseId)
  /\ (forall ex,
        In ex (exercisesOf s) -> WorkoutExercise.id ex <> exerciseId ->
        In ex (exercisesOf s'))
  /\ completeSet exerciseId setId s' = s'
  /\ updateSet exerciseId setId updates s' = s'
  /\ removeSet exerciseId setId s' = s'
  /\ addSet ids exerciseId s' = s'
  /\ updateExerciseNotes exerciseId notes s' = s'
  /\ removeExercise exerciseId s' = s'.
Proof.
  intro s'. subst s'.
  assert (Hgone : forall ex,
             In ex (exercisesOf (removeExercise exerciseId s)) ->
             WorkoutExercise.id ex <> exerciseId).
  { intros ex Hin. rewrite removeExercise_exercises in Hin.
    apply filter_In in Hin. destruct Hin as [_ Hne].
    intro Heq. rewrite Heq, String.eqb_refl in Hne. discriminate Hne. }
  split; [exact Hgone|]. split.
  - intros ex Hin Hne. rewrite removeExercise_exercises.
    apply filter_In. split; [exact Hin|apply differs; exact Hne].
  - apply (unknown_exercise ids exerciseId setId notes updates _ Hgone).
Qed.

(** X16. Pressing the check button of a set on the screen completes that set
    and starts the rest timer for its exercise: the set at that place is the
    old one with status completed, the timer runs with remaining and total
    equal to the default rest when the set has a non-zero weight and to 60
    otherwise, and the elapsed clock is not touched. *)
Theorem onComplete_completes_and_rests (defaultRestSeconds : number)
  (s : WorkoutState.t) (i j : nat) (ex : WorkoutExercise.t)
  (ws : WorkoutSet.t) :
  exerciseAt i s = Some ex ->
  nth_error (WorkoutExercise.sets ex) j = Some ws ->
  let s' := SessionScreen.onComplete defaultRestSeconds ex ws s in
  let rest :=
    if truthy (WorkoutSet.actual_weight ws) then defaultRestSeconds else 60 in
  setAt i j s' = Some (WorkoutSet.with_status completed ws)
  /\ restTimer s'
     = {| RestTimer.isRunning := true; RestTimer.remaining := rest;
          RestTimer.total := rest;
          RestTimer.exerciseId := Some (WorkoutExercise.id ex) |}
  /\ elapsedSeconds s' = elapsedSeconds s
  /\ isFinishing s' = isFinishing s.
Proof.
  intros Hex Hws s' rest. subst s' rest. unfold SessionScreen.onComplete.
  split.
  { assert (Hset : forall t e x,
               setAt i j (startRestTimer t e x) = setAt i j x)
      by reflexivity.
    rewrite Hset. unfold completeSet.
    rewrite (StoreFacts.setAt_mapped
               (fun w => if negb (String.eqb (WorkoutSet.id w)
                                             (WorkoutSet.id ws))
                         then w else WorkoutSet.with_status completed w)
               _ _ _ _ _ Hex Hws).
    rewrite String.eqb_refl. reflexivity. }
  split; [reflexivity|].
  unfold completeSet.
  destruct (onExercises_frame
              (onSetsOf (WorkoutExercise.id ex)
                 (map (fun w => if negb (String.eqb (WorkoutSet.id w)
                                                    (WorkoutSet.id ws))
                                then w
                                else WorkoutSet.with_status completed w)))
              s) as [He [_ [Hf _]]].
  split; [exact He|exact Hf].
Qed.

Lemma onComplete_completes_and_rests_witness :
  let s' := SessionScreen.onComplete 90 Scenarios.exercise_F
              Scenarios.set_pending (Scenarios.live Scenarios.fullBody 0) in
  setAt 1 0 s' = Some (WorkoutSet.with_status completed Scenarios.set_pending)
  /\ RestTimer.total (restTimer s') = 90.
Proof.
  destruct (onComplete_completes_and_rests 90
              (Scenarios.live Scenarios.fullBody 0) 1 0
              Scenarios.exercise_F Scenarios.set_pending eq_refl eq_refl)
    as [Hset [Htimer _]].
  split; [exact Hset|]. rewrite Htimer. reflexivity.
Defined.

End MutationFacts.

(** ** Sessions built by the start operations *)

Module BuildFacts.
Import WorkoutState Store Observe Built Commit.

Lemma buildSets_spec (ids : nat -> string) (exercise_id : string)
  (tss : list TemplateSet.t) :
  forall n idx,
    snd (buildSets ids n exercise_id idx tss) = (n + List.length tss)%nat
    /\ map WorkoutSet.id (fst (buildSets ids n exercise_id idx tss))
       = map ids (seq n (List.length tss))
    /\ List.length (fst (buildSets ids n exercise_id idx tss))
       = List.length tss
    /\ (forall j ts,
          nth_error tss j = Some ts ->
          exists ws,
            nth_error (fst (buildSets ids n exercise_id idx tss)) j = Some ws
            /\ builtFrom exercise_id (idx + j) ts ws).
Proof.
  induction tss as [|ts tss IH]; intros n idx.
  - simpl. split; [lia|]. split; [reflexivity|]. split; [reflexivity|].
    intros j t H. destruct j; discriminate.
  - cbn [buildSets].
    destruct (IH (S n) (S idx)) as [Hn [Hids [Hlen Hat]]].
    destruct (buildSets ids (S n) exercise_id (S idx) tss) as [l n'].
    cbn [fst snd] in *. simpl.
    split; [lia|]. split; [rewrite Hids; reflexivity|].
    split; [rewrite Hlen; reflexivity|].
    intros j t Hj. destruct j as [|j]; simpl in Hj.
    + injection Hj as <-. eexists. split; [reflexivity|].
      rewrite Nat.add_0_r. repeat split.
    + destruct (Hat j t Hj) as [ws [Hws Hb]].
      exists ws. split; [exact Hws|].
      replace (idx + S j)%nat with (S idx + j)%nat by lia. exact Hb.
Qed.

Lemma buildExercises_spec (ids : nat -> string)
  (tes : list TemplateExercise.t) :
  forall n,
    (n <= snd (buildExercises ids n tes))%nat
    /\ flat_map idsOfExercise (fst (buildExercises ids n tes))
       = map ids (seq n (snd (buildExercises ids n tes) - n))
    /\ Forall2 builtExercise tes (fst (buildExercises ids n tes)).
Proof.
  induction tes as [|te tes IH]; intro n.
  - simpl. split; [lia|]. rewrite Nat.sub_diag. split; [reflexivity|].
    constructor.
  - cbn [buildExercises].
    destruct (buildSets_spec ids (TemplateExercise.exercise_id te)
                (TemplateExercise.sets te) (S n) 0)
      as [Hn1 [Hids1 [Hlen1 Hat1]]].
    destruct (buildSets ids (S n) (TemplateExercise.exercise_id te) 0
                (TemplateExercise.sets te)) as [sets n1].
    cbn [fst snd] in *.
    destruct (IH n1) as [Hn2 [Hids2 Hall2]].
    destruct (buildExercises ids n1 tes) as [l n2].
    cbn [fst snd] in *. subst n1.
    split; [lia|]. split.
    + cbn [flat_map]. unfold idsOfExercise at 1.
      cbn [WorkoutExercise.id WorkoutExercise.sets app].
      rewrite Hids1, Hids2.
      replace (n2 - n)%nat
        with (S (List.length (TemplateExercise.sets te)
                 + (n2 - (S n + List.length (TemplateExercise.sets te)))))
        by lia.
      cbn [seq map]. rewrite seq_app, map_app. reflexivity.
    + constructor; [|exact Hall2].
      unfold builtExercise. simpl. repeat split; try assumption.
Qed.

(** X17. The Session [startFromTemplate] installs mirrors the template:
    it carries the template's name and id, the given user and start time and
    an empty PR list; it has one exercise per template exercise, in order,
    with the same catalog reference, notes and order (0 when the template has
    none) and no previous snapshot; and each exercise has one set per
    template set, in order: pending, numbered from 1 by position, tagged as in
    the template (normal when the template has no tag), with the targets of
    the template set as targets and as pre-filled actual values
    ([builtExercise], [builtFrom]). *)
Theorem startFromTemplate_mirrors_template (ids : nat -> string)
  (now : string) (template : Template.t) (userId : string)
  (s : WorkoutState.t) :
  exists a,
    activeSession (startFromTemplate ids now template userId s) = Some a
    /\ ActiveWorkoutSession.name a = Template.name template
    /\ ActiveWorkoutSession.template_id a = Some (Template.id template)
    /\ ActiveWorkoutSession.user_id a = userId
    /\ ActiveWorkoutSession.started_at a = now
    /\ ActiveWorkoutSession.pr_events a = Some []
    /\ Forall2 builtExercise (Template.exercises template)
               (ActiveWorkoutSession.exercises a).
Proof.
  exists (buildSessionFromTemplate ids now template userId).
  split; [reflexivity|]. unfold buildSessionFromTemplate.
  destruct (buildExercises_spec ids (Template.exercises template) 0)
    as [_ [_ Hall]].
  destruct (buildExercises ids 0 (Template.exercises template)) as [l n].
  simpl. repeat split; try reflexivity. exact Hall.
Qed.

Lemma NoDup_map_injective {A B : Type} (f : A -> B) (l : list A) :
  (forall x y, f x = f y -> x = y) -> NoDup l -> NoDup (map f l).
Proof.
  intros Hinj Hl. induction Hl as [|x l Hx Hl IH]; simpl; constructor.
  - intro Hin. apply in_map_iff in Hin. destruct Hin as [y [Hy Hin]].
    apply Hinj in Hy. subst y. contradiction.
  - exact IH.
Qed.

(** X18. When [generateId] never returns the same id twice, all the ids of a
    Session built from a template (the Session's, its exercises' and their
    sets') are pairwise distinct, and one id was generated for each of
    them. *)
Theorem built_session_ids_are_distinct (ids : nat -> string) (now : string)
  (template : Template.t) (userId : string) :
  (forall i j, ids i = ids j -> i = j) ->
  let a := buildSessionFromTemplate ids now template userId in
  NoDup (idsOf a)
  /\ exists n,
       ActiveWorkoutSession.id a = ids n
       /\ flat_map idsOfExercise (ActiveWorkoutSession.exercises a)
          = map ids (seq 0 n).
Proof.
  intros Hinj a. subst a. unfold idsOf, buildSessionFromTemplate.
  destruct (buildExercises_spec ids (Template.exercises template) 0)
    as [_ [Hids _]].
  destruct (buildExercises ids 0 (Template.exercises template)) as [l n].
  cbn [fst snd] in Hids. rewrite Nat.sub_0_r in Hids. simpl.
  rewrite Hids. split.
  - change (ids n :: map ids (seq 0 n)) with (map ids (n :: seq 0 n)).
    apply NoDup_map_injective; [exact Hinj|].
    constructor; [|apply seq_NoDup].
    intro Hin. apply in_seq in Hin. lia.
  - exists n. split; reflexivity.
Qed.

Lemma length_zeros (n : nat) : String.length (Formatting.zeros n) = n.
Proof. induction n as [|n IH]; simpl; [reflexivity|]. rewrite IH. reflexivity. Qed.

Lemma built_session_ids_are_distinct_witness :
  let a := buildSessionFromTemplate Formatting.zeros Scenarios.finishedAt
             MoreScenarios.pullDay "u1" in
  NoDup (idsOf a)
  /\ idsOf a = [ "000"; ""; "0"; "00" ]%string.
Proof.
  split; [|reflexivity].
  refine (proj1 (built_session_ids_are_distinct Formatting.zeros
                   Scenarios.finishedAt MoreScenarios.pullDay "u1"%string _)).
  intros i j H.
  rewrite <- (length_zeros i), <- (length_zeros j), H. reflexivity.
Defined.

End BuildFacts.

(** ** More on the commit protocol *)

Module CommitMore.
Import WorkoutState Store Commit Exec Observe Built SessionScreen.

Lemma run_touchTemplate_exact (sto : storage) (now : string)
  (a : ActiveWorkoutSession.t) (finishedAt : string) (n : nat)
  (s : WorkoutState.t) :
  run sto now (touchTemplate a finishedAt) n s
  = (Resolved tt, s, touchEvents sto n a finishedAt).
Proof.
  unfold touchTemplate, touchEvents.
  destruct (truthy_string (ActiveWorkoutSession.template_id a)); reflexivity.
Qed.

Lemma run_finishWorkout_exact (sto : storage) (now : string)
  (s : WorkoutState.t) (a : ActiveWorkoutSession.t) (workout_id : string) :
  activeSession s = Some a ->
  sto 0%nat (InsertWorkout (workoutRow a (elapsedSeconds s) now))
  = RespData workout_id ->
  exists segments,
    run sto now finishWorkout 0 s
    = (Resolved tt, committed s,
       (InsertWorkout (workoutRow a (elapsedSeconds s) now),
        RespData workout_id)
       :: List.concat segments
          ++ touchEvents sto (1 + List.length (List.concat segments)) a now)
    /\ Forall2 (exerciseSegment workout_id) (completedExercises a) segments.
Proof.
  intros Ha Hsto. unfold finishWorkout. simpl. rewrite Ha. simpl.
  rewrite Hsto.
  rewrite CommitFacts.run_try_catch, CommitFacts.run_bind.
  destruct (CommitFacts.run_persistExercises sto now workout_id
              (completedExercises a)
              (CommitFacts.completedExercises_have_sets a) 1%nat
              (with_isFinishing true s))
    as [segments [Hrun Hsegs]].
  rewrite Hrun. rewrite CommitFacts.run_bind.
  rewrite run_touchTemplate_exact. simpl. rewrite app_nil_r.
  exists segments. split; [reflexivity|exact Hsegs].
Qed.

Lemma exerciseRowsOf_app (l l' : list event) :
  exerciseRowsOf (l ++ l') = exerciseRowsOf l ++ exerciseRowsOf l'.
Proof. unfold exerciseRowsOf. apply flat_map_app. Qed.

Lemma setBatchesOf_app (l l' : list event) :
  setBatchesOf (l ++ l') = setBatchesOf l ++ setBatchesOf l'.
Proof. unfold setBatchesOf. apply flat_map_app. Qed.

Lemma templateUpdatesOf_app (l l' : list event) :
  templateUpdatesOf (l ++ l') = templateUpdatesOf l ++ templateUpdatesOf l'.
Proof. unfold templateUpdatesOf. apply flat_map_app. Qed.

Lemma segments_content (workout_id : string)
  (exs : list WorkoutExercise.t) (segments : list (list event)) :
  Forall2 (exerciseSegment workout_id) exs segments ->
  exerciseRowsOf (List.concat segments) = map (exerciseRow workout_id) exs
  /\ templateUpdatesOf (List.concat segments) = []
  /\ (forall rows,
        In rows (setBatchesOf (List.concat segments)) ->
        exists ex wEx_id, In ex exs /\ rows = setRows wEx_id ex)
  /\ (List.length (List.concat segments) <= 2 * List.length exs)%nat.
Proof.
  induction 1 as [|ex segment exs segments Hseg Hrest IH].
  - simpl. split; [reflexivity|]. split; [reflexivity|].
    split; [intros rows []|lia].
  - destruct IH as [Hrows [Hupd [Hsets Hlen]]].
    cbn [List.concat].
    rewrite exerciseRowsOf_app, templateUpdatesOf_app, setBatchesOf_app,
      length_app, Hrows, Hupd.
    destruct Hseg as [e|wEx_id r]; simpl.
    + split; [reflexivity|]. split; [reflexivity|]. split; [|lia].
      intros rows Hin. destruct (Hsets rows Hin) as [ex' [w [Hex' Hr]]].
      exists ex', w. split; [right; exact Hex'|exact Hr].
    + split; [reflexivity|]. split; [reflexivity|]. split; [|lia].
      intros rows [<-|Hin].
      * exists ex, wEx_id. split; [left; reflexivity|reflexivity].
      * destruct (Hsets rows Hin) as [ex' [w [Hex' Hr]]].
        exists ex', w. split; [right; exact Hex'|exact Hr].
Qed.

Lemma touchEvents_content (sto : storage) (n : nat)
  (a : ActiveWorkoutSession.t) (finishedAt : string) :
  exerciseRowsOf (touchEvents sto n a finishedAt) = []
  /\ setBatchesOf (touchEvents sto n a finishedAt) = []
  /\ templateUpdatesOf (touchEvents sto n a finishedAt)
     = (if truthy_string (ActiveWorkoutSession.template_id a)
        then [ (nullish (ActiveWorkoutSession.template_id a) EmptyString,
                finishedAt) ]
        else [])
  /\ (List.length (touchEvents sto n a finishedAt) <= 1)%nat.
Proof.
  unfold touchEvents.
  destruct (truthy_string (ActiveWorkoutSession.template_id a)); simpl;
    (split; [reflexivity|]; split; [reflexivity|]; split; [reflexivity|lia]).
Qed.

Lemma mapi_from_ids (wEx_id : string) (l : list WorkoutSet.t) :
  forall i,
    map WorkoutSetRow.id
      (mapi_from
         (fun s idx =>
            {| WorkoutSetRow.id := WorkoutSet.id s;
               WorkoutSetRow.workout_exercise_id := wEx_id;
               WorkoutSetRow.set_number :=
                 nullish (WorkoutSet.set_number s) (of_index idx + 1);
               WorkoutSetRow.tag := WorkoutSet.tag s;
               WorkoutSetRow.actual_weight := WorkoutSet.actual_weight s;
               WorkoutSetRow.actual_reps := WorkoutSet.actual_reps s;
               WorkoutSetRow.rpe := WorkoutSet.rpe s |}) i l)
    = map WorkoutSet.id l.
Proof.
  induction l as [|x l IH]; intro i; simpl; [reflexivity|].
  rewrite IH. reflexivity.
Qed.

(** X19. What a successful [finishWorkout] persists is the completed part of
    the Session and nothing else: it writes one exercise row for each exercise
    with a completed set, in order, under the workout id storage returned,
    and none for any other exercise; every batch of set rows belongs to one of
    these exercises and lists exactly the ids of its completed sets, in order,
    so pending and skipped sets are never written; and at most
    2 + 2 × (number of such exercises) requests are issued. *)
Theorem finish_persists_completed_part_only (sto : storage) (now : string)
  (s : WorkoutState.t) (a : ActiveWorkoutSession.t) (workout_id : string) :
  activeSession s = Some a ->
  sto 0%nat (InsertWorkout (workoutRow a (elapsedSeconds s) now))
  = RespData workout_id ->
  let tr := trace (run sto now finishWorkout 0 s) in
  exerciseRowsOf tr = map (exerciseRow workout_id) (completedExercises a)
  /\ (forall rows,
        In rows (setBatchesOf tr) ->
        exists ex wEx_id,
          In ex (ActiveWorkoutSession.exercises a)
          /\ rows = setRows wEx_id ex
          /\ map WorkoutSetRow.id rows
             = map WorkoutSet.id
                   (filter WorkoutSet.isCompleted (WorkoutExercise.sets ex))
          /\ rows <> [])
  /\ (List.length tr <= 2 + 2 * List.length (completedExercises a))%nat.
Proof.
  intros Ha Hsto tr. subst tr.
  destruct (run_finishWorkout_exact sto now s a workout_id Ha Hsto)
    as [segments [Hrun Hsegs]].
  rewrite Hrun. unfold trace. cbn [snd].
  destruct (segments_content workout_id _ _ Hsegs)
    as [Hrows [_ [Hsets Hlen]]].
  destruct (touchEvents_content sto
              (1 + List.length (List.concat segments)) a now)
    as [Hrows' [Hsets' [_ Hlen']]].
  split; [|split].
  - change (exerciseRowsOf (?e :: ?l)) with (exerciseRowsOf l).
    rewrite exerciseRowsOf_app, Hrows, Hrows'. apply app_nil_r.
  - intros rows Hin.
    change (setBatchesOf (?e :: ?l)) with (setBatchesOf l) in Hin.
    rewrite setBatchesOf_app, Hsets', app_nil_r in Hin.
    destruct (Hsets rows Hin) as [ex [wEx_id [Hex Hr]]].
    exists ex, wEx_id.
    assert (Hin' : In ex (ActiveWorkoutSession.exercises a)).
    { unfold completedExercises in Hex. apply filter_In in Hex. tauto. }
    split; [exact Hin'|]. split; [exact Hr|]. split.
    + rewrite Hr. unfold setRows, mapi. apply mapi_from_ids.
    + pose proof (CommitFacts.completedExercises_have_sets a) as Hne.
      rewrite Forall_forall in Hne. specialize (Hne ex Hex).
      rewrite Hr. unfold setRows, mapi.
      destruct (completedSetsOf ex); [contradiction|discriminate].
  - cbn [List.length]. rewrite length_app. lia.
Qed.

Lemma finish_persists_completed_part_only_witness :
  exerciseRowsOf
    (trace (run Scenarios.accepting Scenarios.finishedAt finishWorkout 0
                (Scenarios.live Scenarios.fullBody 3600)))
  = [ exerciseRow "w2" Scenarios.exercise_E;
      exerciseRow "w2" Scenarios.exercise_G ].
Proof.
  exact (proj1 (finish_persists_completed_part_only
                  Scenarios.accepting Scenarios.finishedAt
                  (Scenarios.live Scenarios.fullBody 3600) Scenarios.fullBody
                  "w2"%string eq_refl eq_refl)).
Defined.

(** X20. After a successful header write, the template's last-used time is
    updated exactly when the Session carries a non-empty template id: then one
    update is sent, for that template, with the very timestamp written as
    [finished_at] in the header, and it is the last request; otherwise none is
    sent. *)
Theorem template_is_touched_once (sto : storage) (now : string)
  (s : WorkoutState.t) (a : ActiveWorkoutSession.t) (workout_id : string) :
  activeSession s = Some a ->
  sto 0%nat (InsertWorkout (workoutRow a (elapsedSeconds s) now))
  = RespData workout_id ->
  let tr := trace (run sto now finishWorkout 0 s) in
  WorkoutRow.finished_at (workoutRow a (elapsedSeconds s) now) = now
  /\ (forall tid,
        ActiveWorkoutSession.template_id a = Some tid -> tid <> EmptyString ->
        templateUpdatesOf tr = [(tid, now)]
        /\ exists answer,
             last tr (InsertWorkout (workoutRow a (elapsedSeconds s) now),
                      RespData workout_id)
             = (UpdateTemplateLastUsed tid now, answer))
  /\ (ActiveWorkoutSession.template_id a = None
      \/ ActiveWorkoutSession.template_id a = Some EmptyString ->
      templateUpdatesOf tr = []).
Proof.
  intros Ha Hsto tr. subst tr.
  destruct (run_finishWorkout_exact sto now s a workout_id Ha Hsto)
    as [segments [Hrun Hsegs]].
  rewrite Hrun. unfold trace. cbn [snd].
  destruct (segments_content workout_id _ _ Hsegs) as [_ [Hupd _]].
  split; [reflexivity|].
  change (templateUpdatesOf (?e :: ?l)) with (templateUpdatesOf l).
  rewrite templateUpdatesOf_app, Hupd. cbn [app].
  split.
  - intros tid Htid Hne. unfold touchEvents. rewrite Htid.
    assert (E : truthy_string (Some tid) = true).
    { simpl. apply MutationFacts.differs. exact Hne. }
    rewrite E. split; [reflexivity|].
    eexists. rewrite app_comm_cons. apply last_last.
  - intros [Hnone|Hempty]; unfold touchEvents.
    + rewrite Hnone. reflexivity.
    + rewrite Hempty. reflexivity.
Qed.

Lemma template_is_touched_once_witness :
  templateUpdatesOf
    (trace (run Scenarios.accepting Scenarios.finishedAt finishWorkout 0
                (Scenarios.live Scenarios.fullBody 3600)))
  = [("t1"%string, Scenarios.finishedAt)].
Proof.
  destruct (template_is_touched_once
              Scenarios.accepting Scenarios.finishedAt
              (Scenarios.live Scenarios.fullBody 3600) Scenarios.fullBody
              "w2"%string eq_refl eq_refl) as [_ [Hsome _]].
  apply (Hsome "t1"%string eq_refl). discriminate.
Defined.

(** X21. A failed header write leaves the store ready for a retry: the state
    after the rejected call differs from the state before at most in
    [isFinishing], so calling [finishWorkout] again, against any storage and
    at any time, runs exactly as a first call would have. *)
Theorem finish_can_be_retried (sto sto' : storage) (now now' : string)
  (s : WorkoutState.t) (a : ActiveWorkoutSession.t) (e : Error) :
  activeSession s = Some a ->
  sto 0%nat (InsertWorkout (workoutRow a (elapsedSeconds s) now))
  = RespError e ->
  final (run sto now finishWorkout 0 s) = with_isFinishing false s
  /\ run sto' now' finishWorkout 0 (final (run sto now finishWorkout 0 s))
     = run sto' now' finishWorkout 0 s.
Proof.
  intros Ha Hsto.
  rewrite (CommitFacts.run_finishWorkout_header_error sto now s a e Ha Hsto).
  unfold final. cbn [fst snd]. split; [reflexivity|].
  unfold finishWorkout. simpl. rewrite Ha. reflexivity.
Qed.

Lemma finish_can_be_retried_witness :
  result (run Scenarios.accepting Scenarios.finishedAt finishWorkout 0
            (final (run Scenarios.headerDown Scenarios.finishedAt
                        finishWorkout 0
                        (Scenarios.live Scenarios.legDay 60))))
  = Resolved tt.
Proof.
  rewrite (proj2 (finish_can_be_retried
                    Scenarios.headerDown Scenarios.accepting
                    Scenarios.finishedAt Scenarios.finishedAt
                    (Scenarios.live Scenarios.legDay 60) Scenarios.legDay
                    "network request failed"%string eq_refl eq_refl)).
  reflexivity.
Defined.

(** X22. Once a [finishWorkout] call has committed, the store holds no live
    Session, a zero elapsed clock and a cleared [isFinishing], with the rest
    timer as it was; a further [finishWorkout] call then issues no request,
    and [discardWorkout] only resets the rest timer. *)
Theorem finish_then_finish_is_a_noop (sto sto' : storage) (now now' : string)
  (s : WorkoutState.t) (a : ActiveWorkoutSession.t) (workout_id : string) :
  activeSession s = Some a ->
  sto 0%nat (InsertWorkout (workoutRow a (elapsedSeconds s) now))
  = RespData workout_id ->
  let s' := final (run sto now finishWorkout 0 s) in
  s' = {| activeSession := None; elapsedSeconds := 0;
          restTimer := restTimer s; isFinishing := false |}
  /\ run sto' now' finishWorkout 0 s' = (Resolved tt, s', [])
  /\ discardWorkout s' = with_restTimer idleTimer s'.
Proof.
  intros Ha Hsto s'. subst s'.
  destruct (run_finishWorkout_exact sto now s a workout_id Ha Hsto)
    as [segments [Hrun _]].
  rewrite Hrun. unfold final. cbn [fst snd].
  split; [reflexivity|]. split; reflexivity.
Qed.

Lemma finish_then_finish_is_a_noop_witness :
  let s' := final (run Scenarios.accepting Scenarios.finishedAt
                       finishWorkout 0 (Scenarios.live Scenarios.legDay 60)) in
  run Scenarios.accepting Scenarios.finishedAt finishWorkout 0 s'
  = (Resolved tt, s', []).
Proof.
  exact (proj1 (proj2 (finish_then_finish_is_a_noop
                  Scenarios.accepting Scenarios.accepting
                  Scenarios.finishedAt Scenarios.finishedAt
                  (Scenarios.live Scenarios.legDay 60) Scenarios.legDay
                  "w1"%string eq_refl eq_refl))).
Defined.

End CommitMore.

(** ** The screen and the commit *)

Module ScreenFacts.
Import WorkoutState Store Commit Exec Observe Built SessionScreen.

Lemma filter_flat_map {A B : Type} (p : B -> bool) (g : A -> list B)
  (l : list A) :
  filter p (flat_map g l) = flat_map (fun x => filter p (g x)) l.
Proof.
  induction l as [|x l IH]; simpl; [reflexivity|].
  rewrite filter_app, IH. reflexivity.
Qed.

Lemma fold_left_count {A B : Type} (f : A -> list B) (l : list A) :
  forall n0,
    fold_left (fun sum x => (sum + List.length (f x))%nat) l n0
    = (n0 + List.length (flat_map f l))%nat.
Proof.
  induction l as [|x l IH]; intro n0; simpl; [lia|].
  rewrite IH, length_app. lia.
Qed.

Lemma sumQ_all_exercises (exs : list WorkoutExercise.t) :
  sumQ (map (fun ex => sumQ (map specSetVolume (completedSetsOf ex))) exs)
  == sumQ (map specSetVolume
               (filter WorkoutSet.isCompleted
                       (flat_map WorkoutExercise.sets exs))).
Proof.
  induction exs as [|ex exs IH]; simpl; [reflexivity|].
  rewrite filter_app, map_app, CommitFacts.sumQ_app, <- IH. reflexivity.
Qed.

Lemma nothing_completed_iff (exs : list WorkoutExercise.t) :
  filter (fun ex => existsb WorkoutSet.isCompleted (WorkoutExercise.sets ex))
         exs = []
  <-> flat_map completedSetsOf exs = [].
Proof.
  induction exs as [|ex exs IH]; simpl; [tauto|].
  destruct (existsb WorkoutSet.isCompleted (WorkoutExercise.sets ex)) eqn:E.
  - split; [discriminate|]. intro H. exfalso.
    apply app_eq_nil in H. destruct H as [H _].
    apply existsb_exists in E. destruct E as [ws [Hin Hc]].
    assert (Hws : In ws (completedSetsOf ex)).
    { apply filter_In. split; assumption. }
    rewrite H in Hws. exact Hws.
  - unfold completedSetsOf at 1.
    rewrite (CommitFacts.existsb_false_filter _ _ E). simpl. exact IH.
Qed.

Lemma screen_figures_aux (s : WorkoutState.t)
  (a : ActiveWorkoutSession.t) :
  activeSession s = Some a ->
  (completedExercises a = [] -> handleFinish s = DiscardDialog)
  /\ totalCompleted s = List.length (allCompletedSets a)
  /\ (completedExercises a = []
      <-> List.length (allCompletedSets a) = 0%nat).
Proof.
  intro Ha.
  assert (Htotal : totalCompleted s = List.length (allCompletedSets a)).
  { unfold totalCompleted. rewrite Ha. unfold allCompletedSets.
    rewrite fold_left_count, filter_flat_map. reflexivity. }
  assert (Hnone : completedExercises a = []
                  <-> List.length (allCompletedSets a) = 0%nat).
  { unfold completedExercises, allCompletedSets.
    rewrite nothing_completed_iff, filter_flat_map.
    unfold completedSetsOf. rewrite length_zero_iff_nil. reflexivity. }
  split; [|split; assumption].
  intro H. unfold handleFinish. rewrite Htotal.
  apply Hnone in H. rewrite H. reflexivity.
Qed.

(** X23. The figures of the session screen agree with what [finishWorkout]
    writes: the number behind the "Volume" chip equals the total volume of the
    header row, the "Sets" chip and the count of [handleFinish] are the number
    of completed sets of the Session, and [handleFinish] proposes to discard
    exactly when no exercise has a completed set, that is, when a commit would
    write no exercise at all. *)
Theorem screen_figures_match_commit (s : WorkoutState.t)
  (a : ActiveWorkoutSession.t) (now : string) :
  activeSession s = Some a ->
  volumeShown a
  == WorkoutRow.total_volume_kg (workoutRow a (elapsedSeconds s) now)
  /\ setsChip a = List.length (allCompletedSets a)
  /\ totalCompleted s = List.length (allCompletedSets a)
  /\ (handleFinish s = DiscardDialog <-> completedExercises a = [])
  /\ (completedExercises a <> [] ->
      handleFinish s = FinishDialog (List.length (allCompletedSets a))).
Proof.
  intro Ha.
  assert (Hsets : setsChip a = List.length (allCompletedSets a)).
  { unfold setsChip, allCompletedSets. rewrite fold_left_count.
    rewrite filter_flat_map. reflexivity. }
  assert (Htotal : totalCompleted s = List.length (allCompletedSets a)).
  { unfold totalCompleted. rewrite Ha. exact Hsets. }
  assert (Hnone : completedExercises a = []
                  <-> List.length (allCompletedSets a) = 0%nat).
  { unfold completedExercises, allCompletedSets.
    rewrite nothing_completed_iff, filter_flat_map.
    unfold completedSetsOf. rewrite length_zero_iff_nil. reflexivity. }
  split.
  { cbn [WorkoutRow.total_volume_kg workoutRow].
    rewrite CommitFacts.totalVolumeKg_spec.
    unfold volumeShown, specTotalVolume, allCompletedSets.
    rewrite (CommitFacts.fold_left_sum
               (fun ex => fold_left (fun s2 ws => s2 + setProduct ws)
                                    (completedSetsOf ex) 0)).
    rewrite (CommitFacts.sumQ_map_ext _
               (fun ex => sumQ (map specSetVolume (completedSetsOf ex)))
               _ CommitFacts.exercise_volume).
    rewrite sumQ_all_exercises. lra. }
  split; [exact Hsets|]. split; [exact Htotal|].
  unfold handleFinish. rewrite Htotal.
  destruct (Nat.eqb (List.length (allCompletedSets a)) 0) eqn:E.
  - apply Nat.eqb_eq in E. split.
    + split; [intros _; apply Hnone; exact E|reflexivity].
    + intro Hne. exfalso. apply Hne. apply Hnone. exact E.
  - apply Nat.eqb_neq in E. split.
    + split; [discriminate|]. intro H. exfalso. apply E. apply Hnone. exact H.
    + reflexivity.
Qed.

Lemma screen_figures_match_commit_witness :
  handleFinish (Scenarios.live Scenarios.fullBody 0) = FinishDialog 2
  /\ volumeShown Scenarios.fullBody == 900.
Proof.
  destruct (screen_figures_match_commit
              (Scenarios.live Scenarios.fullBody 0) Scenarios.fullBody
              Scenarios.finishedAt eq_refl)
    as [Hvol [_ [_ [_ Hfin]]]].
  split.
  - apply Hfin. discriminate.
  - rewrite Hvol. reflexivity.
Defined.

Lemma built_sets_pending (te : TemplateExercise.t) (ex : WorkoutExercise.t) :
  builtExercise te ex -> completedSetsOf ex = [].
Proof.
  intros [_ [_ [_ [_ [_ [Hlen Hat]]]]]].
  unfold completedSetsOf.
  destruct (filter WorkoutSet.isCompleted (WorkoutExercise.sets ex))
    as [|ws rest] eqn:E; [reflexivity|]. exfalso.
  assert (Hin : In ws (filter WorkoutSet.isCompleted (WorkoutExercise.sets ex))).
  { rewrite E. left. reflexivity. }
  apply filter_In in Hin. destruct Hin as [Hin Hc].
  apply In_nth_error in Hin. destruct Hin as [j Hj].
  assert (Hlt : (j < List.length (TemplateExercise.sets te))%nat).
  { rewrite <- Hlen. apply nth_error_Some. rewrite Hj. discriminate. }
  apply nth_error_Some in Hlt.
  destruct (nth_error (TemplateExercise.sets te) j) as [ts|] eqn:Ets;
    [|contradiction].
  destruct (Hat j ts Ets) as [ws' [Hws' Hb]].
  rewrite Hj in Hws'. injection Hws' as <-.
  destruct Hb as [_ [_ [_ [_ [_ [_ [_ [_ Hst]]]]]]]].
  unfold WorkoutSet.isCompleted in Hc. rewrite Hst in Hc. discriminate Hc.
Qed.

Lemma built_nothing_completed (tes : list TemplateExercise.t)
  (exs : list WorkoutExercise.t) :
  Forall2 builtExercise tes exs -> flat_map completedSetsOf exs = [].
Proof.
  induction 1 as [|te ex tes exs Hb Hrest IH]; simpl; [reflexivity|].
  rewrite (built_sets_pending te ex Hb), IH. reflexivity.
Qed.

(** X24. A Session that was just started, from a template or empty, has no
    completed set: the screen's [handleFinish] proposes to discard it, and a
    [finishWorkout] call on it, once its header write is accepted, writes
    that header with a total volume of 0 and a duration of 0, then at most the
    template update, and no exercise or set row. *)
Theorem fresh_session_commits_header_only (ids : nat -> string)
  (now now' : string) (template : Template.t) (name userId : string)
  (s : WorkoutState.t) (sto : storage) (workout_id : string)
  (fromTemplate : bool) :
  let s' := if fromTemplate then startFromTemplate ids now template userId s
            else startEmpty ids now name userId s in
  forall a,
    activeSession s' = Some a ->
    sto 0%nat (InsertWorkout (workoutRow a 0 now')) = RespData workout_id ->
    handleFinish s' = DiscardDialog
    /\ totalVolumeKg a = 0
    /\ run sto now' finishWorkout 0 s'
       = (Resolved tt, committed s',
          (InsertWorkout (workoutRow a 0 now'), RespData workout_id)
          :: touchEvents sto 1 a now').
Proof.
  intros s' a Ha Hsto.
  assert (He : elapsedSeconds s' = 0).
  { subst s'. destruct fromTemplate; reflexivity. }
  assert (Hnone : completedExercises a = []).
  { unfold completedExercises. apply nothing_completed_iff.
    subst s'. destruct fromTemplate; simpl in Ha; injection Ha as <-.
    - unfold buildSessionFromTemplate.
      destruct (BuildFacts.buildExercises_spec ids
                  (Template.exercises template) 0) as [_ [_ Hall]].
      destruct (buildExercises ids 0 (Template.exercises template)) as [l n].
      simpl. apply (built_nothing_completed _ _ Hall).
    - reflexivity. }
  split.
  { destruct (screen_figures_aux s' a Ha) as [Hiff _]. apply Hiff.
    exact Hnone. }
  split; [unfold totalVolumeKg; rewrite Hnone; reflexivity|].
  assert (Hsto' : sto 0%nat
                    (InsertWorkout (workoutRow a (elapsedSeconds s') now'))
                  = RespData workout_id).
  { rewrite He. exact Hsto. }
  destruct (CommitMore.run_finishWorkout_exact sto now' s' a workout_id
              Ha Hsto') as [segments [Hrun Hsegs]].
  rewrite Hnone in Hsegs. inversion Hsegs; subst.
  rewrite Hrun, He. reflexivity.
Qed.

Lemma fresh_session_commits_header_only_witness :
  result (run Scenarios.accepting Scenarios.finishedAt finishWorkout 0
            (startEmpty (Scenarios.idsFrom "n") Scenarios.finishedAt
               "Leg Day" "u1" initialState))
  = Resolved tt
  /\ List.length
       (trace (run Scenarios.accepting Scenarios.finishedAt finishWorkout 0
                 (startEmpty (Scenarios.idsFrom "n") Scenarios.finishedAt
                    "Leg Day" "u1" initialState)))
     = 1%nat.
Proof.
  destruct (fresh_session_commits_header_only
              (Scenarios.idsFrom "n") Scenarios.finishedAt
              Scenarios.finishedAt
              {| Template.id := "t1"; Template.user_id := "u1";
                 Template.name := "Pull Day"; Template.exercises := [] |}
              "Leg Day"%string "u1"%string initialState Scenarios.accepting
              "n0"%string false _ eq_refl eq_refl) as [_ [_ Hrun]].
  rewrite Hrun. split; reflexivity.
Defined.

End ScreenFacts.

(** ** A commit in flight *)

Module AmidFacts.
Import WorkoutState Store Commit Exec Observe.

Lemma blind_bind {A B : Type} (p : Async A) (f : A -> Async B) :
  Amid.blind p -> (forall a, Amid.blind (f a)) -> Amid.blind (bind p f).
Proof.
  intros Hp Hf. induction Hp; simpl.
  - apply Hf.
  - constructor.
  - constructor. assumption.
  - constructor. assumption.
  - constructor. assumption.
Qed.

Lemma blind_try_catch {A : Type} (p : Async A) (h : Error -> Async A) :
  Amid.blind p -> (forall e, Amid.blind (h e)) ->
  Amid.blind (try_catch p h).
Proof.
  intros Hp Hh. induction Hp; simpl.
  - constructor.
  - apply Hh.
  - constructor. assumption.
  - constructor. assumption.
  - constructor. assumption.
Qed.

Lemma blind_persistExercises (workout_id : string)
  (exs : list WorkoutExercise.t) :
  Amid.blind (persistExercises workout_id exs).
Proof.
  induction exs as [|ex exs IH]; simpl.
  - constructor.
  - constructor. intros [wEx_id|e].
    + destruct (0 <? List.length (completedSetsOf ex))%nat; simpl.
      * constructor. intro r. exact IH.
      * exact IH.
    + exact IH.
Qed.

Lemma blind_touchTemplate (a : ActiveWorkoutSession.t) (finishedAt : string) :
  Amid.blind (touchTemplate a finishedAt).
Proof.
  unfold touchTemplate.
  destruct (truthy_string (ActiveWorkoutSession.template_id a));
    repeat constructor.
Qed.

(** What [finishWorkout] does after reading the store. *)
Lemma finishWorkout_reads_once (s : WorkoutState.t)
  (a : ActiveWorkoutSession.t) :
  activeSession s = Some a ->
  exists body,
    Amid.blind body
    /\ (forall sto now others,
          Amid.run sto now others finishWorkout 0 s
          = Amid.run sto now others body 0 s)
    /\ (forall sto now,
          run sto now finishWorkout 0 s = run sto now body 0 s).
Proof.
  intro Ha. unfold finishWorkout. eexists. split; [|split].
  2: { intros sto now others. cbn [Amid.run]. rewrite Ha. reflexivity. }
  2: { intros sto now. cbn [run]. rewrite Ha. reflexivity. }
  constructor. apply blind_try_catch.
  - constructor. intro t. constructor. intros [workout_id|e].
    + apply blind_bind; [apply blind_persistExercises|]. intros _.
      apply blind_bind; [apply blind_touchTemplate|]. intros _.
      repeat constructor.
    + constructor.
  - intro e. repeat constructor.
Qed.

Lemma blind_run {A : Type} (sto : storage) (now : string)
  (others : nat -> WorkoutState.t -> WorkoutState.t) (p : Async A) :
  Amid.blind p ->
  forall n s s',
    result (Amid.run sto now others p n s) = result (run sto now p n s')
    /\ trace (Amid.run sto now others p n s) = trace (run sto now p n s').
Proof.
  unfold result, trace.
  induction 1 as [a|e|f k Hk IH|k Hk IH|q k Hk IH]; intros n s s'; simpl.
  - split; reflexivity.
  - split; reflexivity.
  - apply IH.
  - apply IH.
  - destruct (IH (sto n q) (S n) (others n s) s') as [Hres Htr].
    destruct (Amid.run sto now others (k (sto n q)) (S n) (others n s))
      as [[o1 s1] tr1].
    destruct (run sto now (k (sto n q)) (S n) s') as [[o2 s2] tr2].
    simpl in *. subst. split; reflexivity.
Qed.

(** X25. A [finishWorkout] call reads the store once, when it is called.
    Whatever other handlers do to the store while its requests are awaited
    (mutations, timer ticks, a discard), the call issues the same requests,
    receives the same answers and settles the same way as an undisturbed
    call: changes made to the Session after the call started are not saved.
    When the header write fails, the call leaves what the others did and
    clears [isFinishing]. *)
Theorem in_flight_finish_uses_its_snapshot (sto : storage) (now : string)
  (others : nat -> WorkoutState.t -> WorkoutState.t)
  (s : WorkoutState.t) (a : ActiveWorkoutSession.t) :
  activeSession s = Some a ->
  result (Amid.run sto now others finishWorkout 0 s)
  = result (run sto now finishWorkout 0 s)
  /\ trace (Amid.run sto now others finishWorkout 0 s)
     = trace (run sto now finishWorkout 0 s)
  /\ (forall e,
        sto 0%nat (InsertWorkout (workoutRow a (elapsedSeconds s) now))
        = RespError e ->
        final (Amid.run sto now others finishWorkout 0 s)
        = with_isFinishing false (others 0%nat (with_isFinishing true s))).
Proof.
  intro Ha.
  destruct (finishWorkout_reads_once s a Ha) as [body [Hblind [Hamid Hrun]]].
  rewrite Hamid, Hrun.
  destruct (blind_run sto now others body Hblind 0 s s) as [Hres Htr].
  split; [exact Hres|]. split; [exact Htr|].
  intros e He. rewrite <- Hamid.
  unfold finishWorkout, final. cbn [Amid.run]. rewrite Ha.
  cbn [Amid.run try_catch]. rewrite He. reflexivity.
Qed.

Lemma in_flight_finish_uses_its_snapshot_witness :
  map fst (trace (Amid.run Scenarios.accepting Scenarios.finishedAt
                    (fun _ => discardWorkout) finishWorkout 0
                    (Scenarios.live Scenarios.legDay 60)))
  = [ InsertWorkout (workoutRow Scenarios.legDay 60 Scenarios.finishedAt);
      InsertWorkoutExercise (exerciseRow "w1" Scenarios.exercise_E);
      InsertWorkoutSets (setRows "e1" Scenarios.exercise_E) ].
Proof.
  rewrite (proj1 (proj2 (in_flight_finish_uses_its_snapshot
                    Scenarios.accepting Scenarios.finishedAt
                    (fun _ => discardWorkout)
                    (Scenarios.live Scenarios.legDay 60) Scenarios.legDay
                    eq_refl))).
  reflexivity.
Defined.

End AmidFacts.

(** ** More on the PR badge *)

Module PRMore.
Import Calculations Screens.

Lemma estimate1RM_scales (w w' r : number) :
  0 < r -> (estimate1RM w' r < estimate1RM w r <-> w' < w).
Proof.
  intro Hr. unfold estimate1RM. destruct (Qeq_bool r 1); [reflexivity|].
  assert (Hc : 0 < 1 + r / 30).
  { assert (0 < r / 30) by (apply Qlt_shift_div_l; lra). lra. }
  split; intro H.
  - apply (Qmult_lt_r _ _ _ Hc). exact H.
  - apply (Qmult_lt_r _ _ _ Hc). exact H.
Qed.

Lemma estimate1RM_positive (w r : number) :
  0 < w -> 0 < r -> 0 < estimate1RM w r.
Proof.
  intros Hw Hr. unfold estimate1RM. destruct (Qeq_bool r 1); [exact Hw|].
  apply Qmult_lt_0_compat; [exact Hw|].
  assert (0 < r / 30) by (apply Qlt_shift_div_l; lra). lra.
Qed.

(** X26. Against a previous set with the same number of reps, a completed set
    earns the PR badge exactly when it moved more weight: repeating the
    previous weight is not a PR, any heavier weight is (weights and reps
    positive). *)
Theorem same_reps_pr_iff_heavier (exercise : WorkoutExercise.t) (idx : nat)
  (set : WorkoutSet.t) (p : PreviousSet.t) (w w' r : number) :
  WorkoutSet.status set = completed ->
  WorkoutSet.actual_weight set = Some w ->
  WorkoutSet.actual_reps set = Some r ->
  prevSet exercise idx = Some p ->
  PreviousSet.weight p = Some w' ->
  PreviousSet.reps p = Some r ->
  0 < w -> 0 < w' -> 0 < r ->
  (SetRow_isPR exercise idx set = true <-> w' < w).
Proof.
  intros Hst Hw Hr Hp Hw' Hr' Hwpos Hwpos' Hrpos.
  assert (Hw0 : ~ w == 0) by (intro E; rewrite E in Hwpos; lra).
  assert (Hw0' : ~ w' == 0) by (intro E; rewrite E in Hwpos'; lra).
  assert (Hr0 : ~ r == 0) by (intro E; rewrite E in Hrpos; lra).
  unfold SetRow_isPR, WorkoutSet.isCompleted. rewrite Hst. simpl.
  rewrite andb_true_r, PRFacts.isPR_spec.
  rewrite (PRFacts.current1rm_estimate set w r Hw Hr Hw0 Hr0).
  rewrite (PRFacts.prev1rm_estimate exercise idx p w' r Hp Hw' Hr' Hw0' Hr0).
  pose proof (estimate1RM_positive w r Hwpos Hrpos) as Hpos.
  pose proof (estimate1RM_scales w w' r Hrpos) as Hiff.
  tauto.
Qed.

Lemma same_reps_pr_iff_heavier_witness :
  SetRow_isPR Scenarios.exercise_E 0 Scenarios.set_100x5 = true.
Proof.
  apply (same_reps_pr_iff_heavier Scenarios.exercise_E 0 Scenarios.set_100x5
           {| PreviousSet.weight := Some 90; PreviousSet.reps := Some 5 |}
           100 90 5 eq_refl eq_refl eq_refl eq_refl eq_refl eq_refl);
    reflexivity.
Defined.

End PRMore.
